(** * Signal dispatch of the BSD/AArch64 port of HotSpot

    A shallow embedding of [src/hotspot/os_cpu/bsd_aarch64/os_bsd_aarch64.cpp]:
    the accessors of the captured CPU context, the reconstruction of the
    frame at a stack-banging point, and the signal handler
    [JVM_handle_bsd_signal].  The file holds two copies of that code, one
    compiled for macOS ([#ifdef __APPLE__]) and one for FreeBSD, OpenBSD and
    NetBSD; both are embedded, and the properties are stated per variant.

    The handler is a function of the signal, the siginfo, the context, the
    current thread and the answers of the runtime it calls ([Env]); it
    returns how the invocation ends ([Outcome]), the context and the thread
    it leaves.  The previously installed handler the signal is chained to is
    given the writable context, so the context it leaves is an answer of the
    runtime too.  Output on [tty], the [SignalHandlerMark] and the W^X switch
    of [ThreadWXEnable] have no part in the classification and are left
    out. *)

From stdpp Require Import base numbers option list gmap.

Local Open Scope Z_scope.

(** ** Machine data *)

(** An [address] is a 64-bit pointer, kept as a [Z]; [NULL] is 0. *)
Abbreviation address := Z.
Definition NULL : address := 0.
Definition wrap64 (z : Z) : Z := z mod 2 ^ 64.

(** The value of an [int] expression: 32 bits, two's complement. *)
Definition int32 (z : Z) : Z := (z + 2 ^ 31) mod 2 ^ 32 - 2 ^ 31.

(** [(address)-1], the "no slow case" answer of
    [JNI_FastGetField::find_slowcase_pc]. *)
Definition address_minus_one : address := 2 ^ 64 - 1.

(** AArch64 instructions are four bytes wide
    ([NativeInstruction::instruction_size], [NativeCall::instruction_size],
    both declared in nativeInst_aarch64.hpp). *)
Definition NativeInstruction_instruction_size : Z := 4.
Definition NativeCall_instruction_size : Z := 4.
Definition wordSize : Z := 8.

(** The four operating systems the file is compiled for. *)
Inductive os_variant := Darwin | FreeBSD | OpenBSD | NetBSD.

(** *** The captured CPU context, one layout per system *)

(** macOS: [uc_mcontext->__ss] (thread state) and [__es] (exception state),
    reached through the [context_*] macros. *)
Record darwin_mcontext := {
  context_x : list Z;
  context_fp : Z;
  context_lr : Z;
  context_sp : Z;
  context_pc : Z;
  context_cpsr : Z;
  context_esr : Z
}.

(** FreeBSD: [uc_mcontext.mc_gpregs]. *)
Record freebsd_gpregs := {
  gp_x : list Z;
  gp_lr : Z;
  gp_sp : Z;
  gp_elr : Z;
  gp_spsr : Z
}.

(** OpenBSD: [struct sigcontext]. *)
Record openbsd_sigcontext := {
  sc_x : list Z;
  sc_lr : Z;
  sc_sp : Z;
  sc_elr : Z;
  sc_spsr : Z
}.

(** NetBSD: the register array [uc_mcontext.__gregs], indexed by the
    [_REG_*] constants of NetBSD's aarch64 mcontext.h. *)
Definition netbsd_gregs : Type := list Z.
Definition _REG_FP : nat := 29.
Definition _REG_LR : nat := 30.
Definition _REG_SP : nat := 31.
Definition _REG_ELR : nat := 32.

(** [#define REG_FP 29] of the non-Apple copy. *)
Definition REG_FP : nat := 29.

Definition ucontext_t (os : os_variant) : Type :=
  match os with
  | Darwin => darwin_mcontext
  | FreeBSD => freebsd_gpregs
  | OpenBSD => openbsd_sigcontext
  | NetBSD => netbsd_gregs
  end.

(** An array read [a[i]]; the arrays have a fixed size in C, a short list
    reads as 0. *)
Definition array_get (a : list Z) (i : nat) : Z := default 0 (a !! i).

(** ** ContextAccessor: [os::Bsd::ucontext_get_pc] and friends.
    The [Darwin] case is the Apple copy (lines 138-152), the other cases are
    the [#if defined(__FreeBSD__) ... #elif] chain of the second copy
    (lines 771-809). *)

Definition ucontext_get_pc {os : os_variant} : ucontext_t os -> address :=
  match os return ucontext_t os -> address with
  | Darwin => fun uc => context_pc uc
  | FreeBSD => fun uc => gp_elr uc
  | OpenBSD => fun uc => sc_elr uc
  | NetBSD => fun uc => array_get uc _REG_ELR
  end.

Definition ucontext_set_pc {os : os_variant}
    : ucontext_t os -> address -> ucontext_t os :=
  match os return ucontext_t os -> address -> ucontext_t os with
  | Darwin => fun uc pc =>
      {| context_x := context_x uc; context_fp := context_fp uc;
         context_lr := context_lr uc; context_sp := context_sp uc;
         context_pc := pc;
         context_cpsr := context_cpsr uc; context_esr := context_esr uc |}
  | FreeBSD => fun uc pc =>
      {| gp_x := gp_x uc; gp_lr := gp_lr uc; gp_sp := gp_sp uc;
         gp_elr := pc; gp_spsr := gp_spsr uc |}
  | OpenBSD => fun uc pc =>
      {| sc_x := sc_x uc; sc_lr := sc_lr uc; sc_sp := sc_sp uc;
         sc_elr := pc; sc_spsr := sc_spsr uc |}
  | NetBSD => fun uc pc => <[_REG_ELR := pc]> uc
  end.

Definition ucontext_get_sp {os : os_variant} : ucontext_t os -> address :=
  match os return ucontext_t os -> address with
  | Darwin => fun uc => context_sp uc
  | FreeBSD => fun uc => gp_sp uc
  | OpenBSD => fun uc => sc_sp uc
  | NetBSD => fun uc => array_get uc _REG_SP
  end.

Definition ucontext_get_fp {os : os_variant} : ucontext_t os -> address :=
  match os return ucontext_t os -> address with
  | Darwin => fun uc => context_fp uc
  | FreeBSD => fun uc => array_get (gp_x uc) REG_FP
  | OpenBSD => fun uc => array_get (sc_x uc) REG_FP
  | NetBSD => fun uc => array_get uc _REG_FP
  end.

(** The link register, read in place by [get_frame_at_stack_banging_point]
    ([uc->context_lr], [gp_lr], [sc_lr], [__gregs[_REG_LR]]). *)
Definition ucontext_lr {os : os_variant} : ucontext_t os -> Z :=
  match os return ucontext_t os -> Z with
  | Darwin => fun uc => context_lr uc
  | FreeBSD => fun uc => gp_lr uc
  | OpenBSD => fun uc => sc_lr uc
  | NetBSD => fun uc => array_get uc _REG_LR
  end.

(** ** Frames and the code cache (collaborators outside this file) *)

(** [frame(sp, fp, pc)]: the three values the constructor is given. *)
Record frame := mk_frame { frame_sp : address; frame_fp : address; frame_pc : address }.

Record CompiledMethod := { has_unsafe_access : bool }.

Record CodeBlob := {
  is_nmethod : bool;
  is_frame_complete_at : address -> bool;
  as_compiled_method_or_null : option CompiledMethod
}.

(** [os::fetch_frame_from_context(const void* ucVoid)] for a non-null
    context, through the three-argument overload. *)
Definition fetch_frame_from_context {os : os_variant} (uc : ucontext_t os) : frame :=
  let epc := ucontext_get_pc uc in
  let sp := ucontext_get_sp uc in
  let fp := ucontext_get_fp uc in
  mk_frame sp fp epc.

(** The queries [get_frame_at_stack_banging_point] makes of the interpreter,
    the code cache and the frame walker. *)
Record FrameQueries := {
  Interpreter_contains : address -> bool;
  find_blob : address -> option CodeBlob;
  is_first_java_frame : frame -> bool;
  is_java_frame : frame -> bool;
  java_sender : frame -> frame
}.

(** [os::Bsd::get_frame_at_stack_banging_point] (lines 196-234 and 853-899);
    [None] is the [return false], [Some fr] is [return true] with [*fr]. *)
Definition get_frame_at_stack_banging_point {os : os_variant}
    (q : FrameQueries) (uc : ucontext_t os) : option frame :=
  let pc := ucontext_get_pc uc in
  if Interpreter_contains q pc then
    let fr := fetch_frame_from_context uc in
    if negb (is_first_java_frame q fr) then Some (java_sender q fr) else Some fr
  else
    match find_blob q pc with
    | None => None
    | Some cb =>
        if negb (is_nmethod cb) || is_frame_complete_at cb pc then None
        else
          let fp := ucontext_get_fp uc in
          let sp := ucontext_get_sp uc in
          let pc := wrap64 (ucontext_lr uc - NativeInstruction_instruction_size) in
          let fr := mk_frame sp fp pc in
          if negb (is_java_frame q fr) then Some (java_sender q fr) else Some fr
    end.

(** ** Signals, threads and the runtime the handler talks to *)

(** The signal numbers the handler tests, as an enumeration of <signal.h>;
    [SIG_OTHER] stands for every other number. *)
Inductive signal :=
  | SIGSEGV | SIGBUS | SIGILL | SIGTRAP | SIGFPE | SIGPIPE | SIGXFSZ
  | SIG_OTHER (n : Z).

(** The [si_code] values the handler tests. *)
Inductive si_code_t :=
  | FPE_INTDIV | FPE_FLTDIV | FPE_NOOP
  | SI_CODE_OTHER (n : Z).

Record siginfo_t := { si_addr : address; si_code : si_code_t }.

Definition sig_is (k sig : signal) : bool :=
  match k, sig with
  | SIGSEGV, SIGSEGV | SIGBUS, SIGBUS | SIGILL, SIGILL | SIGTRAP, SIGTRAP
  | SIGFPE, SIGFPE | SIGPIPE, SIGPIPE | SIGXFSZ, SIGXFSZ => true
  | SIG_OTHER n, SIG_OTHER m => n =? m
  | _, _ => false
  end.

Definition code_is (k c : si_code_t) : bool :=
  match k, c with
  | FPE_INTDIV, FPE_INTDIV | FPE_FLTDIV, FPE_FLTDIV | FPE_NOOP, FPE_NOOP => true
  | SI_CODE_OTHER n, SI_CODE_OTHER m => n =? m
  | _, _ => false
  end.

(** [JavaThreadState] of utilities/globalDefinitions.hpp. *)
Inductive JavaThreadState :=
  | _thread_uninitialized | _thread_new | _thread_new_trans
  | _thread_in_native | _thread_in_native_trans
  | _thread_in_vm | _thread_in_vm_trans
  | _thread_in_Java | _thread_in_Java_trans
  | _thread_blocked | _thread_blocked_trans.

Definition state_is (k s : JavaThreadState) : bool :=
  match k, s with
  | _thread_uninitialized, _thread_uninitialized | _thread_new, _thread_new
  | _thread_new_trans, _thread_new_trans | _thread_in_native, _thread_in_native
  | _thread_in_native_trans, _thread_in_native_trans | _thread_in_vm, _thread_in_vm
  | _thread_in_vm_trans, _thread_in_vm_trans | _thread_in_Java, _thread_in_Java
  | _thread_in_Java_trans, _thread_in_Java_trans | _thread_blocked, _thread_blocked
  | _thread_blocked_trans, _thread_blocked_trans => true
  | _, _ => false
  end.

(** What the handler reads and writes of a [JavaThread].  The three
    [*_disabled] flags record the calls of [disable_stack_reserved_zone],
    [disable_stack_yellow_reserved_zone] and [disable_stack_red_zone]. *)
Record JavaThread := {
  thread_state : JavaThreadState;
  doing_unsafe_access : bool;
  stack_reserved_zone_disabled : bool;
  stack_yellow_reserved_zone_disabled : bool;
  stack_red_zone_disabled : bool;
  reserved_stack_activation : address;
  saved_exception_pc : address
}.

(** Modelled from the spec: the guard-zone transitions of [JavaThread]
    (runtime/thread.cpp is not part of the sources).  Each is one-way and
    idempotent: it sets the flag of its zone and touches nothing else. *)
Definition disable_stack_reserved_zone (th : JavaThread) : JavaThread :=
  {| thread_state := thread_state th;
     doing_unsafe_access := doing_unsafe_access th;
     stack_reserved_zone_disabled := true;
     stack_yellow_reserved_zone_disabled := stack_yellow_reserved_zone_disabled th;
     stack_red_zone_disabled := stack_red_zone_disabled th;
     reserved_stack_activation := reserved_stack_activation th;
     saved_exception_pc := saved_exception_pc th |}.

Definition disable_stack_yellow_reserved_zone (th : JavaThread) : JavaThread :=
  {| thread_state := thread_state th;
     doing_unsafe_access := doing_unsafe_access th;
     stack_reserved_zone_disabled := stack_reserved_zone_disabled th;
     stack_yellow_reserved_zone_disabled := true;
     stack_red_zone_disabled := stack_red_zone_disabled th;
     reserved_stack_activation := reserved_stack_activation th;
     saved_exception_pc := saved_exception_pc th |}.

Definition disable_stack_red_zone (th : JavaThread) : JavaThread :=
  {| thread_state := thread_state th;
     doing_unsafe_access := doing_unsafe_access th;
     stack_reserved_zone_disabled := stack_reserved_zone_disabled th;
     stack_yellow_reserved_zone_disabled := stack_yellow_reserved_zone_disabled th;
     stack_red_zone_disabled := true;
     reserved_stack_activation := reserved_stack_activation th;
     saved_exception_pc := saved_exception_pc th |}.

Definition set_reserved_stack_activation (th : JavaThread) (a : address) : JavaThread :=
  {| thread_state := thread_state th;
     doing_unsafe_access := doing_unsafe_access th;
     stack_reserved_zone_disabled := stack_reserved_zone_disabled th;
     stack_yellow_reserved_zone_disabled := stack_yellow_reserved_zone_disabled th;
     stack_red_zone_disabled := stack_red_zone_disabled th;
     reserved_stack_activation := a;
     saved_exception_pc := saved_exception_pc th |}.

Definition set_saved_exception_pc (th : JavaThread) (pc : address) : JavaThread :=
  {| thread_state := thread_state th;
     doing_unsafe_access := doing_unsafe_access th;
     stack_reserved_zone_disabled := stack_reserved_zone_disabled th;
     stack_yellow_reserved_zone_disabled := stack_yellow_reserved_zone_disabled th;
     stack_red_zone_disabled := stack_red_zone_disabled th;
     reserved_stack_activation := reserved_stack_activation th;
     saved_exception_pc := pc |}.

(** [Thread::current_or_null_safe()] answers NULL ([None]) or a thread. *)
Inductive Thread :=
  | Java_thread (th : JavaThread)
  | VM_thread
  | Other_thread.

Inductive ImplicitExceptionKind :=
  | IMPLICIT_NULL | IMPLICIT_DIVIDE_BY_ZERO | STACK_OVERFLOW.

(** Everything the handler calls that lives outside this file, as the
    answers it gets during one signal delivery, for the faulting thread
    (the [thread] argument of the calls is left implicit). *)
Record Env := {
  (* os::ThreadCrashProtection::check_crash_protection: true when the
     protected region is restored by longjmp and the handler is left *)
  check_crash_protection : signal -> option Thread -> bool;
  (* os::Bsd::chained_handler(sig, info, ucVoid): whether the previously
     installed handler took the signal, and the context as the call leaves
     it (the handler is handed the writable context) *)
  chained_handler :
    forall os : os_variant, signal -> option siginfo_t -> option (ucontext_t os) -> bool;
  chained_handler_context :
    forall os : os_variant, signal -> option siginfo_t -> ucontext_t os -> ucontext_t os;
  (* os::Bsd::signal_handlers_are_installed *)
  signal_handlers_are_installed : bool;
  (* utilities/debug.hpp: whether CAN_SHOW_REGISTERS_ON_ASSERT is defined,
     the poison page and handle_assert_poison_fault *)
  CAN_SHOW_REGISTERS_ON_ASSERT : bool;
  g_assert_poison : address;
  handle_assert_poison_fault : address -> bool;
  (* StubRoutines: the SafeFetch table, fault pc to continuation pc *)
  safefetch_registry : gmap Z Z;
  (* interpreter, code cache and frames *)
  frames : FrameQueries;
  find_blob_unsafe : address -> option CodeBlob;
  is_interpreted_frame : frame -> bool;
  unextended_sp : frame -> address;
  interpreter_frame_initial_sp_offset : Z;
  (* SharedRuntime *)
  look_for_reserved_stack_annotated_method : frame -> frame;
  continuation_for_implicit_exception : address -> ImplicitExceptionKind -> address;
  get_handle_wrong_method_stub : address;
  get_poll_stub : address -> address;
  handle_unsafe_access : address -> address;
  (* nativeInstruction_at(pc)->is_sigill_zombie_not_entrant() *)
  is_sigill_zombie_not_entrant : address -> bool;
  (* os::is_poll_address, os::is_memory_serialize_page,
     MacroAssembler::needs_explicit_null_check,
     JNI_FastGetField::find_slowcase_pc *)
  is_poll_address : address -> bool;
  is_memory_serialize_page : address -> bool;
  needs_explicit_null_check : Z -> bool;
  find_slowcase_pc : address -> address;
  (* the address-range tests of the faulting JavaThread *)
  on_local_stack : address -> bool;
  in_stack_yellow_reserved_zone : address -> bool;
  in_stack_reserved_zone : address -> bool;
  in_stack_red_zone : address -> bool;
  (* FreeBSD: procctl(PROC_STACKGAP_STATUS) as (return value, status),
     sysctlbyname("security.bsd.stack_guard_page") as Some value when it
     returns 0, and os::vm_page_size(); all of them ints *)
  procctl_stackgap_status : Z * Z;
  sysctl_stack_guard_page : option Z;
  vm_page_size : Z
}.

Definition PROC_STACKGAP_DISABLE : Z := 2.

(** Modelled from the spec: [StubRoutines::is_safefetch_fault] and
    [StubRoutines::continuation_for_safefetch_fault] (stubRoutines.hpp is not
    part of the sources) as the lookup of a table of
    (fault pc, resume pc) pairs. *)
Definition is_safefetch_fault (env : Env) (pc : address) : bool :=
  bool_decide (is_Some (safefetch_registry env !! pc)).

Definition continuation_for_safefetch_fault (env : Env) (pc : address) : address :=
  default NULL (safefetch_registry env !! pc).

(** ** Outcomes

    Every way an invocation of the handler ends, one constructor per exit of
    the function. *)
Inductive Outcome :=
  | CrashProtectionRestore          (* longjmp out of check_crash_protection *)
  | IgnoredSignal                   (* SIGPIPE / SIGXFSZ: return true *)
  | AssertPoisonHandled             (* handle_assert_poison_fault: return 1 *)
  | SafeFetchResume                 (* SafeFetch fault: pc rewritten, return 1 *)
  | ReservedActivationResume        (* reserved zone disabled: return 1 *)
  | YellowZoneResume                (* thread in vm or native: return 1 *)
  | UnimplementedError              (* Unimplemented() *)
  | SerializePageResume             (* block_on_serialize_page_trap: return true *)
  | StubRedirect (stub : address)   (* pc rewritten to the stub: return true *)
  | Chained                         (* chained handler took it: return true *)
  | Unrecognized                    (* return false *)
  | Fatal (pc : address).           (* VMError::report_and_die *)

(** The value the handler returns, when it returns. *)
Definition return_value (o : Outcome) : option bool :=
  match o with
  | CrashProtectionRestore | UnimplementedError | Fatal _ => None
  | Unrecognized => Some false
  | _ => Some true
  end.

Record Result (os : os_variant) := mk_result {
  outcome : Outcome;
  context_after : option (ucontext_t os);
  thread_after : option Thread
}.
Arguments mk_result {os} _ _ _.
Arguments outcome {os} _.
Arguments context_after {os} _.
Arguments thread_after {os} _.

(** [JavaThread* thread]: set only when the handlers are installed and the
    current thread is a Java thread (lines 295-306 and 961-972). *)
Definition current_JavaThread (env : Env) (t : option Thread) : option JavaThread :=
  if signal_handlers_are_installed env then
    match t with
    | Some (Java_thread th) => Some th
    | _ => None
    end
  else None.

(** The current thread after the handler has updated [thread]. *)
Definition update_thread (t : option Thread) (thread : option JavaThread) : option Thread :=
  match thread with
  | Some th => Some (Java_thread th)
  | None => t
  end.

(** The [#ifdef CAN_SHOW_REGISTERS_ON_ASSERT] block (lines 287-293, 953-959). *)
Definition assert_poison_fault (env : Env) (sig : signal) (info : option siginfo_t) : bool :=
  CAN_SHOW_REGISTERS_ON_ASSERT env &&
  (sig_is SIGSEGV sig || sig_is SIGBUS sig) &&
  match info with
  | Some i => (si_addr i =? g_assert_poison env) && handle_assert_poison_fault env (si_addr i)
  | None => false
  end.

(** "Handle SafeFetch faults" (lines 308-315, 974-981): the rewritten
    context when the fault is a SafeFetch fault. *)
Definition safefetch_fault {os : os_variant} (env : Env) (uc : option (ucontext_t os))
    : option (ucontext_t os) :=
  match uc with
  | Some uc =>
      let pc := ucontext_get_pc uc in
      if negb (pc =? NULL) && is_safefetch_fault env pc then
        Some (ucontext_set_pc uc (continuation_for_safefetch_fault env pc))
      else None
  | None => None
  end.

(** The reserved-zone attempt inside the yellow-zone branch (lines 336-353,
    1059-1076): the activation address to record, when an annotated frame is
    found. *)
Definition reserved_stack_activation_for {os : os_variant} (env : Env)
    (uc : ucontext_t os) (addr : address) : option address :=
  if in_stack_reserved_zone env addr then
    match get_frame_at_stack_banging_point (frames env) uc with
    | Some fr =>
        let activation := look_for_reserved_stack_annotated_method env fr in
        if negb (frame_sp activation =? NULL) then
          if is_interpreted_frame env activation then
            Some (wrap64 (frame_fp activation
                          + wordSize * interpreter_frame_initial_sp_offset env))
          else Some (unextended_sp env activation)
        else None
    | None => None
    end
  else None.

(** The context after the call [os::Bsd::chained_handler(sig, info, ucVoid)]:
    what the call leaves in [*ucVoid], nothing for a NULL pointer. *)
Definition after_chained_handler {os : os_variant} (env : Env) (sig : signal)
    (info : option siginfo_t) (uc : option (ucontext_t os)) : option (ucontext_t os) :=
  option_map (chained_handler_context env os sig info) uc.

(** The tail of the handler, from [if (stub != NULL)] on (lines 458-489,
    1167-1198).  The pc of the fatal report is read after the chained
    handler has run. *)
Definition finish {os : os_variant} (env : Env) (sig : signal)
    (info : option siginfo_t) (uc : option (ucontext_t os)) (t : option Thread)
    (thread : option JavaThread) (stub pc : address) (abort_if_unrecognized : Z)
    : Result os :=
  if negb (stub =? NULL) then
    let thread := option_map (fun th => set_saved_exception_pc th pc) thread in
    mk_result (StubRedirect stub)
              (option_map (fun uc => ucontext_set_pc uc stub) uc)
              (update_thread t thread)
  else
    let chained := chained_handler env os sig info uc in
    let uc := after_chained_handler env sig info uc in
    if chained then
      mk_result Chained uc (update_thread t thread)
    else if abort_if_unrecognized =? 0 then
      mk_result Unrecognized uc (update_thread t thread)
    else
      let pc :=
        match uc with
        | Some uc => if pc =? NULL then ucontext_get_pc uc else pc
        | None => pc
        end in
      mk_result (Fatal pc) uc (update_thread t thread).

(** A step of the handler either leaves it ([Done]) or goes on with the
    thread as updated so far and the stub chosen so far. *)
Inductive Step (os : os_variant) :=
  | Done (r : Result os)
  | Continue (thread : JavaThread) (stub : address).
Arguments Done {os} _.
Arguments Continue {os} _ _.

(** "check if fault address is within thread stack" (lines 331-369 and
    1055-1097, the same text in both copies). *)
Definition handle_stack_overflow {os : os_variant} (env : Env) (uc : ucontext_t os)
    (t : option Thread) (thread : JavaThread) (pc addr : address) : Step os :=
  if on_local_stack env addr then
    if in_stack_yellow_reserved_zone env addr then
      if state_is _thread_in_Java (thread_state thread) then
        match reserved_stack_activation_for env uc addr with
        | Some a =>
            let thread := disable_stack_reserved_zone thread in
            let thread := set_reserved_stack_activation thread a in
            Done (mk_result ReservedActivationResume (Some uc)
                            (update_thread t (Some thread)))
        | None =>
            let thread := disable_stack_yellow_reserved_zone thread in
            Continue thread (continuation_for_implicit_exception env pc STACK_OVERFLOW)
        end
      else
        let thread := disable_stack_yellow_reserved_zone thread in
        Done (mk_result YellowZoneResume (Some uc) (update_thread t (Some thread)))
    else if in_stack_red_zone env addr then
      Continue (disable_stack_red_zone thread) NULL
    else Continue thread NULL
  else Continue thread NULL.

(** [nm] of the truncated-mapped-file rule: the compiled method at [pc]. *)
Definition compiled_method_at (env : Env) (pc : address) : option CompiledMethod :=
  match find_blob_unsafe env pc with
  | Some cb => as_compiled_method_or_null cb
  | None => None
  end.

(** "jni_fast_Get<Primitive>Field can trap at certain pc's" (lines 437-444,
    1146-1153). *)
Definition jni_fast_getfield_stub (env : Env) (sig : signal) (pc stub : address) : address :=
  if sig_is SIGSEGV sig || sig_is SIGBUS sig then
    let addr := find_slowcase_pc env pc in
    if negb (addr =? address_minus_one) then addr else stub
  else stub.

(** *** The macOS copy (lines 254-490) *)
Module Apple.

(** Lines 377-435; [None] is the call of [Unimplemented()]. *)
Definition select_stub (env : Env) (sig : signal) (info : siginfo_t)
    (thread : JavaThread) (pc stub : address) : option address :=
  if state_is _thread_in_Java (thread_state thread) && (stub =? NULL) then
    if sig_is SIGILL sig && is_sigill_zombie_not_entrant env pc then
      Some (get_handle_wrong_method_stub env)
    else if (sig_is SIGSEGV sig || sig_is SIGBUS sig)
            && is_poll_address env (si_addr info) then
      Some (get_poll_stub env pc)
    else if sig_is SIGBUS sig && needs_explicit_null_check env (si_addr info) then
      match compiled_method_at env pc with
      | Some nm =>
          if has_unsafe_access nm then
            let next_pc := wrap64 (pc + NativeCall_instruction_size) in
            Some (handle_unsafe_access env next_pc)
          else Some stub
      | None => Some stub
      end
    else if sig_is SIGFPE sig
            && (code_is FPE_INTDIV (si_code info) || code_is FPE_FLTDIV (si_code info)) then
      Some (continuation_for_implicit_exception env pc IMPLICIT_DIVIDE_BY_ZERO)
    else if sig_is SIGFPE sig && code_is FPE_NOOP (si_code info) then
      None
    else if (sig_is SIGSEGV sig || sig_is SIGBUS sig)
            && negb (needs_explicit_null_check env (si_addr info)) then
      Some (continuation_for_implicit_exception env pc IMPLICIT_NULL)
    else Some stub
  else if (state_is _thread_in_vm (thread_state thread)
           || state_is _thread_in_native (thread_state thread))
          && sig_is SIGBUS sig && doing_unsafe_access thread then
    let next_pc := wrap64 (pc + NativeCall_instruction_size) in
    Some (handle_unsafe_access env next_pc)
  else Some stub.

(** The body of [if (info != NULL && uc != NULL && thread != NULL)] and the
    tail after it (lines 323-489). *)
Definition classify (env : Env) (sig : signal) (info : siginfo_t)
    (uc : ucontext_t Darwin) (t : option Thread) (thread : JavaThread)
    (abort_if_unrecognized : Z) : Result Darwin :=
  let pc := ucontext_get_pc uc in
  let step :=
    if sig_is SIGSEGV sig || sig_is SIGBUS sig then
      handle_stack_overflow env uc t thread pc (si_addr info)
    else Continue thread NULL in
  match step with
  | Done r => r
  | Continue thread stub =>
      match select_stub env sig info thread pc stub with
      | None => mk_result UnimplementedError (Some uc) (update_thread t (Some thread))
      | Some stub =>
          let stub := jni_fast_getfield_stub env sig pc stub in
          if sig_is SIGSEGV sig && is_memory_serialize_page env (si_addr info) then
            mk_result SerializePageResume (Some uc) (update_thread t (Some thread))
          else finish env sig (Some info) (Some uc) t (Some thread) stub pc
                      abort_if_unrecognized
      end
  end.

Definition JVM_handle_bsd_signal (env : Env) (sig : signal) (info : option siginfo_t)
    (ucVoid : option (ucontext_t Darwin)) (t : option Thread)
    (abort_if_unrecognized : Z) : Result Darwin :=
  let uc := ucVoid in
  if check_crash_protection env sig t then mk_result CrashProtectionRestore uc t
  else if sig_is SIGPIPE sig || sig_is SIGXFSZ sig then
    if chained_handler env Darwin sig info uc then
      mk_result IgnoredSignal (after_chained_handler env sig info uc) t
    else mk_result IgnoredSignal (after_chained_handler env sig info uc) t
  else if assert_poison_fault env sig info then mk_result AssertPoisonHandled uc t
  else
    let thread := current_JavaThread env t in
    match safefetch_fault env uc with
    | Some uc' => mk_result SafeFetchResume (Some uc') t
    | None =>
        match info, uc, thread with
        | Some info, Some uc, Some thread =>
            classify env sig info uc t thread abort_if_unrecognized
        | _, _, _ => finish env sig info uc t thread NULL NULL abort_if_unrecognized
        end
    end.

End Apple.

(** *** The FreeBSD, OpenBSD and NetBSD copy (lines 920-1199) *)
Module Other.

(** The [#ifdef __FreeBSD__] block (lines 1004-1052): the fault address
    moved down by the kernel's stack guard pages.  The product
    [guard_pages * os::vm_page_size()] is an [int]. *)
Definition adjust_fault_address (os : os_variant) (env : Env) (addr : address) : address :=
  match os with
  | FreeBSD =>
      let '(ret, status) := procctl_stackgap_status env in
      if (ret =? -1) || (Z.land status PROC_STACKGAP_DISABLE =? 0) then
        match sysctl_stack_guard_page env with
        | Some guard_pages =>
            if 0 <? guard_pages then
              wrap64 (addr - int32 (guard_pages * vm_page_size env))
            else addr
        | None => addr
        end
      else addr
  | _ => addr
  end.

(** Lines 1100-1144. *)
Definition select_stub (env : Env) (sig : signal) (info : siginfo_t)
    (thread : JavaThread) (pc stub : address) : address :=
  if state_is _thread_in_Java (thread_state thread) then
    if (sig_is SIGILL sig || sig_is SIGTRAP sig)
       && is_sigill_zombie_not_entrant env pc then
      get_handle_wrong_method_stub env
    else if sig_is SIGSEGV sig && is_poll_address env (si_addr info) then
      get_poll_stub env pc
    else if sig_is SIGBUS sig then
      match compiled_method_at env pc with
      | Some nm =>
          if has_unsafe_access nm then
            let next_pc := wrap64 (pc + NativeCall_instruction_size) in
            handle_unsafe_access env next_pc
          else stub
      | None => stub
      end
    else if sig_is SIGFPE sig
            && (code_is FPE_INTDIV (si_code info) || code_is FPE_FLTDIV (si_code info)) then
      continuation_for_implicit_exception env pc IMPLICIT_DIVIDE_BY_ZERO
    else if sig_is SIGSEGV sig
            && negb (needs_explicit_null_check env (si_addr info)) then
      continuation_for_implicit_exception env pc IMPLICIT_NULL
    else stub
  else if state_is _thread_in_vm (thread_state thread)
          && sig_is SIGBUS sig && doing_unsafe_access thread then
    let next_pc := wrap64 (pc + NativeCall_instruction_size) in
    handle_unsafe_access env next_pc
  else stub.

(** The body of [if (info != NULL && uc != NULL && thread != NULL)] and the
    tail after it (lines 998-1198). *)
Definition classify (os : os_variant) (env : Env) (sig : signal) (info : siginfo_t)
    (uc : ucontext_t os) (t : option Thread) (thread : JavaThread)
    (abort_if_unrecognized : Z) : Result os :=
  let pc := ucontext_get_pc uc in
  let step :=
    if sig_is SIGSEGV sig then
      let addr := adjust_fault_address os env (si_addr info) in
      handle_stack_overflow env uc t thread pc addr
    else Continue thread NULL in
  match step with
  | Done r => r
  | Continue thread stub =>
      let stub := select_stub env sig info thread pc stub in
      let stub := jni_fast_getfield_stub env sig pc stub in
      if sig_is SIGSEGV sig && is_memory_serialize_page env (si_addr info) then
        mk_result SerializePageResume (Some uc) (update_thread t (Some thread))
      else finish env sig (Some info) (Some uc) t (Some thread) stub pc abort_if_unrecognized
  end.

Definition JVM_handle_bsd_signal (os : os_variant) (env : Env) (sig : signal)
    (info : option siginfo_t) (ucVoid : option (ucontext_t os)) (t : option Thread)
    (abort_if_unrecognized : Z) : Result os :=
  let uc := ucVoid in
  if check_crash_protection env sig t then mk_result CrashProtectionRestore uc t
  else if sig_is SIGPIPE sig || sig_is SIGXFSZ sig then
    if chained_handler env os sig info uc then
      mk_result IgnoredSignal (after_chained_handler env sig info uc) t
    else mk_result IgnoredSignal (after_chained_handler env sig info uc) t
  else if assert_poison_fault env sig info then mk_result AssertPoisonHandled uc t
  else
    let thread := current_JavaThread env t in
    match safefetch_fault env uc with
    | Some uc' => mk_result SafeFetchResume (Some uc') t
    | None =>
        match info, uc, thread with
        | Some info, Some uc, Some thread =>
            classify os env sig info uc t thread abort_if_unrecognized
        | _, _, _ => finish env sig info uc t thread NULL NULL abort_if_unrecognized
        end
    end.

End Other.

(** The handler of the build for [os]. *)
Definition JVM_handle_bsd_signal (os : os_variant) (env : Env) (sig : signal)
    (info : option siginfo_t) (ucVoid : option (ucontext_t os)) (t : option Thread)
    (abort_if_unrecognized : Z) : Result os :=
  match os return option (ucontext_t os) -> Result os with
  | Darwin => fun uc => Apple.JVM_handle_bsd_signal env sig info uc t abort_if_unrecognized
  | FreeBSD => fun uc => Other.JVM_handle_bsd_signal FreeBSD env sig info uc t abort_if_unrecognized
  | OpenBSD => fun uc => Other.JVM_handle_bsd_signal OpenBSD env sig info uc t abort_if_unrecognized
  | NetBSD => fun uc => Other.JVM_handle_bsd_signal NetBSD env sig info uc t abort_if_unrecognized
  end ucVoid.

(** ** A concrete runtime, used to run the handler on explicit inputs *)

Module Sample.

(** Code addresses. *)
Definition safefetch32_fault_pc : address := 0x2000.
Definition safefetch32_continuation_pc : address := 0x2010.
Definition safefetchN_fault_pc : address := 0x2020.
Definition safefetchN_continuation_pc : address := 0x2030.
Definition fast_getfield_pc : address := 0x3000.
Definition fast_getfield_slowcase : address := 0x3100.
Definition stack_overflow_stub : address := 0x9000.
Definition implicit_null_stub : address := 0x9100.
Definition divide_by_zero_stub : address := 0x9200.
Definition poll_stub : address := 0x9300.
Definition wrong_method_stub : address := 0x9400.

(** Data addresses: one thread stack with its guard zones, the polling
    page and the memory serialization page. *)
Definition stack_end : address := 0x70000000.
Definition stack_red_zone_base : address := 0x70001000.
Definition stack_reserved_zone_base : address := 0x70004000.
Definition stack_reserved_zone_size : Z := 0x1000.
Definition stack_base : address := 0x70100000.
Definition polling_page : address := 0x10000000.
Definition serialize_page : address := 0x11000000.
Definition page_size : Z := 4096.

Definition in_range (lo hi a : Z) : bool := (lo <=? a) && (a <? hi).

(** The interpreter occupies 0x4000-0x4fff, one nmethod with unsafe
    accesses 0x5000-0x5fff, whose frame is complete from 0x5010 on. *)
Definition nmethod_blob : CodeBlob :=
  {| is_nmethod := true;
     is_frame_complete_at := fun pc => 0x5010 <=? pc;
     as_compiled_method_or_null := Some {| has_unsafe_access := true |} |}.

Definition code_blob_at (pc : address) : option CodeBlob :=
  if in_range 0x5000 0x6000 pc then Some nmethod_blob else None.

Definition queries : FrameQueries :=
  {| Interpreter_contains := in_range 0x4000 0x5000;
     find_blob := code_blob_at;
     is_first_java_frame := fun _ => false;
     is_java_frame := fun fr => in_range 0x4000 0x6000 (frame_pc fr);
     java_sender := fun fr => mk_frame (frame_fp fr + 16) (frame_fp fr + 96) 0x4100 |}.

(** The method at 0x5800-0x58ff carries the reserved-stack annotation. *)
Definition annotated (fr : frame) : frame :=
  if in_range 0x5800 0x5900 (frame_pc fr) then fr else mk_frame NULL NULL NULL.

(** The sample runtime.  [protected]: the thread runs under
    [os::ThreadCrashProtection]; [chained]: a previously installed handler
    takes every signal, and leaves the context as it finds it; [stackgap]:
    the answer of [procctl(PROC_STACKGAP_STATUS)]. *)
Definition runtime (protected chained : bool) (stackgap : Z * Z) : Env :=
  {| check_crash_protection := fun _ _ => protected;
     chained_handler := fun _ _ _ _ => chained;
     chained_handler_context := fun _ _ _ uc => uc;
     signal_handlers_are_installed := true;
     CAN_SHOW_REGISTERS_ON_ASSERT := false;
     g_assert_poison := 0x12000000;
     handle_assert_poison_fault := fun _ => true;
     safefetch_registry :=
       {[ safefetch32_fault_pc := safefetch32_continuation_pc;
          safefetchN_fault_pc := safefetchN_continuation_pc ]};
     frames := queries;
     find_blob_unsafe := code_blob_at;
     is_interpreted_frame := fun fr => in_range 0x4000 0x5000 (frame_pc fr);
     unextended_sp := frame_sp;
     interpreter_frame_initial_sp_offset := -10;
     look_for_reserved_stack_annotated_method := annotated;
     continuation_for_implicit_exception := fun _ kind =>
       match kind with
       | STACK_OVERFLOW => stack_overflow_stub
       | IMPLICIT_NULL => implicit_null_stub
       | IMPLICIT_DIVIDE_BY_ZERO => divide_by_zero_stub
       end;
     get_handle_wrong_method_stub := wrong_method_stub;
     get_poll_stub := fun _ => poll_stub;
     handle_unsafe_access := fun next_pc => next_pc;
     is_sigill_zombie_not_entrant := fun pc => pc =? 0x5000;
     is_poll_address := fun a => in_range polling_page (polling_page + page_size) a;
     is_memory_serialize_page := fun a =>
       in_range serialize_page (serialize_page + page_size) a;
     needs_explicit_null_check := fun offset => (offset <? 0) || (page_size <=? offset);
     find_slowcase_pc := fun pc =>
       if pc =? fast_getfield_pc then fast_getfield_slowcase else address_minus_one;
     on_local_stack := fun a => (stack_end <=? a) && (a <=? stack_base);
     in_stack_yellow_reserved_zone := fun a =>
       (stack_red_zone_base <=? a) && (a <=? stack_reserved_zone_base);
     in_stack_reserved_zone := fun a =>
       (stack_reserved_zone_base - stack_reserved_zone_size <=? a)
       && (a <=? stack_reserved_zone_base);
     in_stack_red_zone := fun a => (stack_end <=? a) && (a <=? stack_red_zone_base);
     procctl_stackgap_status := stackgap;
     sysctl_stack_guard_page := Some 1;
     vm_page_size := page_size |}.

(** No crash protection, the kernel's stack gap disabled. *)
Definition env (chained : bool) : Env :=
  runtime false chained (0, PROC_STACKGAP_DISABLE).

(** The faulting thread runs under crash protection. *)
Definition protected_env : Env := runtime true false (0, PROC_STACKGAP_DISABLE).

(** FreeBSD with the kernel's stack gap in force: one guard page of
    [page_size] bytes above the JVM's guard zones. *)
Definition stackgap_env : Env := runtime false false (0, 0).

(** A Java thread in the given state, all guard zones enabled. *)
Definition java_thread (s : JavaThreadState) (unsafe : bool) : JavaThread :=
  {| thread_state := s;
     doing_unsafe_access := unsafe;
     stack_reserved_zone_disabled := false;
     stack_yellow_reserved_zone_disabled := false;
     stack_red_zone_disabled := false;
     reserved_stack_activation := stack_base;
     saved_exception_pc := NULL |}.

(** A captured context of each layout with the given pc, sp 0x70080000,
    fp 0x70080040 and link register [lr]. *)
Definition xregs (fp : Z) : list Z := replicate 29 0 ++ [fp].

Definition context (os : os_variant) (pc lr : address) : ucontext_t os :=
  match os return ucontext_t os with
  | Darwin =>
      {| context_x := replicate 29 0; context_fp := 0x70080040; context_lr := lr;
         context_sp := 0x70080000; context_pc := pc; context_cpsr := 0;
         context_esr := 0 |}
  | FreeBSD =>
      {| gp_x := xregs 0x70080040; gp_lr := lr; gp_sp := 0x70080000;
         gp_elr := pc; gp_spsr := 0 |}
  | OpenBSD =>
      {| sc_x := xregs 0x70080040; sc_lr := lr; sc_sp := 0x70080000;
         sc_elr := pc; sc_spsr := 0 |}
  | NetBSD => xregs 0x70080040 ++ [lr; 0x70080000; pc; 0; 0]
  end.

Definition fault (addr : address) : siginfo_t :=
  {| si_addr := addr; si_code := SI_CODE_OTHER 1 |}.

End Sample.

(** ** Vocabulary of the statements *)

(** What stays of a context when only its program counter is rewritten:
    every other field of the layout, for NetBSD every other slot of the
    register array. *)
Definition other_registers_equal (os : os_variant) : ucontext_t os -> ucontext_t os -> Prop :=
  match os return ucontext_t os -> ucontext_t os -> Prop with
  | Darwin => fun uc uc' =>
      context_x uc' = context_x uc /\ context_fp uc' = context_fp uc /\
      context_lr uc' = context_lr uc /\ context_sp uc' = context_sp uc /\
      context_cpsr uc' = context_cpsr uc /\ context_esr uc' = context_esr uc
  | FreeBSD => fun uc uc' =>
      gp_x uc' = gp_x uc /\ gp_lr uc' = gp_lr uc /\ gp_sp uc' = gp_sp uc /\
      gp_spsr uc' = gp_spsr uc
  | OpenBSD => fun uc uc' =>
      sc_x uc' = sc_x uc /\ sc_lr uc' = sc_lr uc /\ sc_sp uc' = sc_sp uc /\
      sc_spsr uc' = sc_spsr uc
  | NetBSD => fun uc uc' =>
      length uc' = length uc /\
      forall i : nat, i <> _REG_ELR -> uc' !! i = uc !! i
  end.

(** The frame [frame(sp, fp, pc)] the compiled-code branch builds: the
    context's stack and frame pointers, and the link register less one
    instruction as program counter. *)
Definition caller_frame_of_context {os : os_variant} (uc : ucontext_t os) : frame :=
  mk_frame (ucontext_get_sp uc) (ucontext_get_fp uc)
           (wrap64 (ucontext_lr uc - NativeInstruction_instruction_size)).


(** The classifier of the build for [os]: the body of
    [if (info != NULL && uc != NULL && thread != NULL)] and what follows. *)
Definition classify (os : os_variant) (env : Env) (sig : signal) (info : siginfo_t)
    (uc : ucontext_t os) (t : option Thread) (thread : JavaThread)
    (abort_if_unrecognized : Z) : Result os :=
  match os return ucontext_t os -> Result os with
  | Darwin => fun uc => Apple.classify env sig info uc t thread abort_if_unrecognized
  | FreeBSD => fun uc => Other.classify FreeBSD env sig info uc t thread abort_if_unrecognized
  | OpenBSD => fun uc => Other.classify OpenBSD env sig info uc t thread abort_if_unrecognized
  | NetBSD => fun uc => Other.classify NetBSD env sig info uc t thread abort_if_unrecognized
  end uc.

(** The signals for which the build for [os] runs the stack overflow code:
    [sig == SIGSEGV || sig == SIGBUS] on macOS (line 327), [sig == SIGSEGV]
    elsewhere (line 1002). *)
Definition guard_zone_signal (os : os_variant) (sig : signal) : bool :=
  match os with
  | Darwin => sig_is SIGSEGV sig || sig_is SIGBUS sig
  | _ => sig_is SIGSEGV sig
  end.

(** The address the stack overflow code tests: [info->si_addr], on FreeBSD
    after the guard-page compensation. *)
Definition stack_fault_address (os : os_variant) (env : Env) (info : siginfo_t) : address :=
  match os with
  | Darwin => si_addr info
  | _ => Other.adjust_fault_address os env (si_addr info)
  end.

(** The stub chosen by the thread-state rules (lines 377-435, 1100-1144) of
    the build for [os]; [None] is [Unimplemented()]. *)
Definition select_stub (os : os_variant) (env : Env) (sig : signal) (info : siginfo_t)
    (thread : JavaThread) (pc stub : address) : option address :=
  match os with
  | Darwin => Apple.select_stub env sig info thread pc stub
  | _ => Some (Other.select_stub env sig info thread pc stub)
  end.

(** The classifier after the stack overflow code, entered with the thread
    and the stub that code left (lines 372-489, 1100-1198). *)
Definition classify_rest (os : os_variant) (env : Env) (sig : signal) (info : siginfo_t)
    (uc : ucontext_t os) (t : option Thread) (thread : JavaThread) (stub : address)
    (abort_if_unrecognized : Z) : Result os :=
  let pc := ucontext_get_pc uc in
  match select_stub os env sig info thread pc stub with
  | None => mk_result UnimplementedError (Some uc) (update_thread t (Some thread))
  | Some stub =>
      let stub := jni_fast_getfield_stub env sig pc stub in
      if sig_is SIGSEGV sig && is_memory_serialize_page env (si_addr info) then
        mk_result SerializePageResume (Some uc) (update_thread t (Some thread))
      else finish env sig (Some info) (Some uc) t (Some thread) stub pc abort_if_unrecognized
  end.

(** The fault is in the yellow/reserved zone of the thread's stack, for a
    signal the stack overflow code of the build runs for. *)
Definition yellow_zone_fault (os : os_variant) (env : Env) (sig : signal)
    (info : siginfo_t) : bool :=
  guard_zone_signal os sig
  && on_local_stack env (stack_fault_address os env info)
  && in_stack_yellow_reserved_zone env (stack_fault_address os env info).

(** The context has room for the program counter: always so for the three
    struct layouts; NetBSD's [__gregs] array has [_NGREG] slots in C, here
    the list has to reach slot [_REG_ELR]. *)
Definition holds_pc (os : os_variant) : ucontext_t os -> Prop :=
  match os return ucontext_t os -> Prop with
  | NetBSD => fun uc => (_REG_ELR < length uc)%nat
  | _ => fun _ => True
  end.

(** The guard-zone flags of a thread: reserved, yellow/reserved, red. *)
Definition guard_zone_flags (th : JavaThread) : bool * bool * bool :=
  (stack_reserved_zone_disabled th, stack_yellow_reserved_zone_disabled th,
   stack_red_zone_disabled th).

(** ** The rule pipeline

    The classification the spec speaks of, and the rules of its pipeline as
    predicate-and-action pairs.  The predicates and actions are those of the
    code of the build for [os]; a list of rules is run first match wins. *)

(** One delivery of a signal to the handler. *)
Record Delivery (os : os_variant) := mk_delivery {
  d_sig : signal;
  d_info : option siginfo_t;
  d_uc : option (ucontext_t os);
  d_thread : option Thread;
  d_abort : Z
}.
Arguments mk_delivery {os} _ _ _ _ _.
Arguments d_sig {os} _.
Arguments d_info {os} _.
Arguments d_uc {os} _.
Arguments d_thread {os} _.
Arguments d_abort {os} _.

Definition deliver {os : os_variant} (env : Env) (d : Delivery os) : Result os :=
  JVM_handle_bsd_signal os env (d_sig d) (d_info d) (d_uc d) (d_thread d) (d_abort d).

(** The spec's [ClassificationResult], with the "unhandled" answer of its
    rule 9. *)
Inductive Classification :=
  | Resume
  | RedirectTo (stub : address)
  | ForwardToChain
  | Unhandled
  | FatalError.

(** The classification an outcome of the handler stands for; the two exits
    taken before the pipeline stand for none. *)
Definition classification (o : Outcome) : option Classification :=
  match o with
  | CrashProtectionRestore | AssertPoisonHandled => None
  | IgnoredSignal | SafeFetchResume | ReservedActivationResume
  | YellowZoneResume | SerializePageResume => Some Resume
  | StubRedirect stub => Some (RedirectTo stub)
  | Chained => Some ForwardToChain
  | Unrecognized => Some Unhandled
  | UnimplementedError | Fatal _ => Some FatalError
  end.

(** The rules of section 4.5 of the spec (rule 3 split into the four cases
    of section 4.3), and the [Unimplemented()] case of the macOS copy. *)
Inductive rule :=
  | R_ignorable              (* 1 *)
  | R_safefetch              (* 2 *)
  | R_reserved_activation    (* 3, section 4.3 step 1 *)
  | R_stack_overflow         (* 3, section 4.3 step 2 *)
  | R_yellow_outside_Java    (* 3, section 4.3 step 3 *)
  | R_red_zone               (* 3, section 4.3 step 4 *)
  | R_wrong_method           (* 4a *)
  | R_poll                   (* 4b *)
  | R_unsafe_in_Java         (* 4c *)
  | R_divide_by_zero         (* 4d *)
  | R_unimplemented          (* SIGFPE with FPE_NOOP, macOS *)
  | R_implicit_null          (* 4e *)
  | R_unsafe_in_vm           (* 5 *)
  | R_jni_slowcase           (* 6 *)
  | R_serialize_page         (* 7 *)
  | R_chained                (* 8 *)
  | R_unhandled              (* 9 *)
  | R_fatal.                 (* 10 *)

Definition is_darwin (os : os_variant) : bool :=
  match os with Darwin => true | _ => false end.

Definition has_value {A : Type} (o : option A) : bool :=
  match o with Some _ => true | None => false end.

Definition method_has_unsafe_access (nm : option CompiledMethod) : bool :=
  match nm with Some nm => has_unsafe_access nm | None => false end.

(** The predicates of the rules that need the siginfo, the context and the
    Java thread.  The stack overflow redirect matches when its stub is not
    NULL: with a NULL stub the code goes on as if the rule had not been
    there.  The other redirecting rules match on their condition alone. *)
Definition fault_rule_matches (os : os_variant) (env : Env) (sig : signal)
    (info : siginfo_t) (uc : ucontext_t os) (th : JavaThread) (r : rule) : bool :=
  let pc := ucontext_get_pc uc in
  let addr := si_addr info in
  let stack_addr := stack_fault_address os env info in
  let java := state_is _thread_in_Java (thread_state th) in
  let on_stack := guard_zone_signal os sig && on_local_stack env stack_addr in
  let in_yellow := on_stack && in_stack_yellow_reserved_zone env stack_addr in
  match r with
  | R_reserved_activation =>
      in_yellow && java && has_value (reserved_stack_activation_for env uc stack_addr)
  | R_stack_overflow =>
      in_yellow && java
      && negb (has_value (reserved_stack_activation_for env uc stack_addr))
      && negb (continuation_for_implicit_exception env pc STACK_OVERFLOW =? NULL)
  | R_yellow_outside_Java => in_yellow && negb java
  | R_red_zone =>
      on_stack && negb (in_stack_yellow_reserved_zone env stack_addr)
      && in_stack_red_zone env stack_addr
  | R_wrong_method =>
      java && (sig_is SIGILL sig || (negb (is_darwin os) && sig_is SIGTRAP sig))
      && is_sigill_zombie_not_entrant env pc
  | R_poll => java && guard_zone_signal os sig && is_poll_address env addr
  | R_unsafe_in_Java =>
      java && sig_is SIGBUS sig
      && (negb (is_darwin os) || needs_explicit_null_check env addr)
      && method_has_unsafe_access (compiled_method_at env pc)
  | R_divide_by_zero =>
      java && sig_is SIGFPE sig
      && (code_is FPE_INTDIV (si_code info) || code_is FPE_FLTDIV (si_code info))
  | R_unimplemented =>
      is_darwin os && java && sig_is SIGFPE sig && code_is FPE_NOOP (si_code info)
  | R_implicit_null =>
      java && guard_zone_signal os sig && negb (needs_explicit_null_check env addr)
  | R_unsafe_in_vm =>
      (state_is _thread_in_vm (thread_state th)
       || (is_darwin os && state_is _thread_in_native (thread_state th)))
      && sig_is SIGBUS sig && doing_unsafe_access th
  | R_jni_slowcase =>
      (sig_is SIGSEGV sig || sig_is SIGBUS sig)
      && negb (find_slowcase_pc env pc =? address_minus_one)
  | R_serialize_page => sig_is SIGSEGV sig && is_memory_serialize_page env addr
  | _ => false
  end.

(** The stub of each redirecting rule. *)
Definition rule_stub {os : os_variant} (env : Env) (uc : ucontext_t os) (r : rule) : address :=
  let pc := ucontext_get_pc uc in
  match r with
  | R_stack_overflow => continuation_for_implicit_exception env pc STACK_OVERFLOW
  | R_wrong_method => get_handle_wrong_method_stub env
  | R_poll => get_poll_stub env pc
  | R_unsafe_in_Java | R_unsafe_in_vm =>
      handle_unsafe_access env (wrap64 (pc + NativeCall_instruction_size))
  | R_divide_by_zero => continuation_for_implicit_exception env pc IMPLICIT_DIVIDE_BY_ZERO
  | R_implicit_null => continuation_for_implicit_exception env pc IMPLICIT_NULL
  | R_jni_slowcase => find_slowcase_pc env pc
  | _ => NULL
  end.

(** Rules 8 to 10, the tail every unclassified fault ends in. *)
Definition tail_classification {os : os_variant} (env : Env) (sig : signal)
    (info : option siginfo_t) (uc : option (ucontext_t os)) (abort : Z) : Classification :=
  if chained_handler env os sig info uc then ForwardToChain
  else if abort =? 0 then Unhandled
  else FatalError.

(** The action of a redirecting rule: the redirect, or the tail when the
    runtime answers the NULL stub. *)
Definition redirect_or_tail {os : os_variant} (env : Env) (sig : signal)
    (info : option siginfo_t) (uc : option (ucontext_t os)) (abort : Z) (stub : address)
    : Classification :=
  if negb (stub =? NULL) then RedirectTo stub
  else tail_classification env sig info uc abort.

Definition rule_matches {os : os_variant} (env : Env) (d : Delivery os) (r : rule) : bool :=
  match r with
  | R_ignorable => sig_is SIGPIPE (d_sig d) || sig_is SIGXFSZ (d_sig d)
  | R_safefetch => has_value (safefetch_fault env (d_uc d))
  | R_chained => chained_handler env os (d_sig d) (d_info d) (d_uc d)
  | R_unhandled => d_abort d =? 0
  | R_fatal => true
  | _ =>
      match d_info d, d_uc d, current_JavaThread env (d_thread d) with
      | Some info, Some uc, Some th => fault_rule_matches os env (d_sig d) info uc th r
      | _, _, _ => false
      end
  end.

Definition rule_action {os : os_variant} (env : Env) (d : Delivery os) (r : rule)
    : Classification :=
  match r with
  | R_ignorable | R_safefetch | R_reserved_activation | R_yellow_outside_Java
  | R_serialize_page => Resume
  | R_red_zone | R_unimplemented | R_fatal => FatalError
  | R_chained => ForwardToChain
  | R_unhandled => Unhandled
  | _ =>
      match d_uc d with
      | Some uc =>
          redirect_or_tail env (d_sig d) (d_info d) (d_uc d) (d_abort d) (rule_stub env uc r)
      | None => FatalError
      end
  end.

(** First match wins. *)
Fixpoint first_match {os : os_variant} (env : Env) (d : Delivery os) (rules : list rule)
    : option Classification :=
  match rules with
  | [] => None
  | r :: rules =>
      if rule_matches env d r then Some (rule_action env d r)
      else first_match env d rules
  end.

(** The priority order of sections 4.5 and 4.3 of the spec. *)
Definition spec_order : list rule :=
  [ R_ignorable; R_safefetch;
    R_reserved_activation; R_stack_overflow; R_yellow_outside_Java; R_red_zone;
    R_wrong_method; R_poll; R_unsafe_in_Java; R_divide_by_zero; R_unimplemented;
    R_implicit_null;
    R_unsafe_in_vm; R_jni_slowcase; R_serialize_page;
    R_chained; R_unhandled; R_fatal ].

(** The thread-state rules 4a-4e and 5, in the order of the code. *)
Definition thread_state_rules : list rule :=
  [ R_wrong_method; R_poll; R_unsafe_in_Java; R_divide_by_zero; R_unimplemented;
    R_implicit_null; R_unsafe_in_vm ].

(** The priority order the handler implements.  The serialization-page rule
    and the JNI fast-accessor rule come before every other redirect; the
    stack overflow redirect comes before the thread-state rules on macOS and
    after them elsewhere; the red zone is no rule of it. *)
Definition code_order (os : os_variant) : list rule :=
  [ R_ignorable; R_safefetch; R_reserved_activation; R_yellow_outside_Java;
    R_serialize_page; R_jni_slowcase ]
  ++ (if is_darwin os then R_stack_overflow :: thread_state_rules
      else thread_state_rules ++ [R_stack_overflow])
  ++ [ R_chained; R_unhandled; R_fatal ].

(** ** Vocabulary of the further properties *)

(** What the handler may do to a Java thread: the thread state and the
    unsafe-access flag stay, a guard zone that was disabled stays disabled. *)
Definition thread_kept (th th' : JavaThread) : Prop :=
  thread_state th' = thread_state th /\
  doing_unsafe_access th' = doing_unsafe_access th /\
  (stack_reserved_zone_disabled th = true -> stack_reserved_zone_disabled th' = true) /\
  (stack_yellow_reserved_zone_disabled th = true ->
   stack_yellow_reserved_zone_disabled th' = true) /\
  (stack_red_zone_disabled th = true -> stack_red_zone_disabled th' = true).



(** The exits of the handler that come after a call of
    [os::Bsd::chained_handler]: the ignored SIGPIPE or SIGXFSZ (lines 279,
    945) and the three ends of the tail (lines 467, 1176). *)
Definition chained_handler_called (o : Outcome) : bool :=
  match o with
  | IgnoredSignal | Chained | Unrecognized | Fatal _ => true
  | _ => false
  end.

(** What every result of the classifier has: the context it leaves, the
    thread it leaves, and what each way of ending tells. *)
Definition classify_shape {os : os_variant} (env : Env) (sig : signal) (info : siginfo_t)
    (uc : ucontext_t os) (th : JavaThread) (abort : Z) (r : Result os) : Prop :=
  let uc' := chained_handler_context env os sig (Some info) uc in
  (exists c', context_after r = Some c' /\
     if chained_handler_called (outcome r) then c' = uc'
     else other_registers_equal os uc c') /\
  (exists th', thread_after r = Some (Java_thread th') /\ thread_kept th th' /\
     (forall stub, outcome r = StubRedirect stub ->
        saved_exception_pc th' = ucontext_get_pc uc)) /\
  (forall stub, outcome r = StubRedirect stub ->
     stub <> NULL /\ context_after r = Some (ucontext_set_pc uc stub)) /\
  (outcome r = Chained ->
     chained_handler env os sig (Some info) (Some uc) = true /\
     context_after r = Some uc') /\
  (outcome r = Unrecognized ->
     chained_handler env os sig (Some info) (Some uc) = false /\ abort = 0 /\
     context_after r = Some uc') /\
  (forall pc, outcome r = Fatal pc ->
     chained_handler env os sig (Some info) (Some uc) = false /\ abort <> 0 /\
     context_after r = Some uc' /\
     pc = if ucontext_get_pc uc =? NULL then ucontext_get_pc uc' else ucontext_get_pc uc) /\
  outcome r <> IgnoredSignal.

(** The runtime [env] before the VM has installed its signal handlers. *)
Definition before_handlers_are_installed (env : Env) : Env :=
  {| check_crash_protection := check_crash_protection env;
     chained_handler := chained_handler env;
     chained_handler_context := chained_handler_context env;
     signal_handlers_are_installed := false;
     CAN_SHOW_REGISTERS_ON_ASSERT := CAN_SHOW_REGISTERS_ON_ASSERT env;
     g_assert_poison := g_assert_poison env;
     handle_assert_poison_fault := handle_assert_poison_fault env;
     safefetch_registry := safefetch_registry env;
     frames := frames env;
     find_blob_unsafe := find_blob_unsafe env;
     is_interpreted_frame := is_interpreted_frame env;
     unextended_sp := unextended_sp env;
     interpreter_frame_initial_sp_offset := interpreter_frame_initial_sp_offset env;
     look_for_reserved_stack_annotated_method :=
       look_for_reserved_stack_annotated_method env;
     continuation_for_implicit_exception := continuation_for_implicit_exception env;
     get_handle_wrong_method_stub := get_handle_wrong_method_stub env;
     get_poll_stub := get_poll_stub env;
     handle_unsafe_access := handle_unsafe_access env;
     is_sigill_zombie_not_entrant := is_sigill_zombie_not_entrant env;
     is_poll_address := is_poll_address env;
     is_memory_serialize_page := is_memory_serialize_page env;
     needs_explicit_null_check := needs_explicit_null_check env;
     find_slowcase_pc := find_slowcase_pc env;
     on_local_stack := on_local_stack env;
     in_stack_yellow_reserved_zone := in_stack_yellow_reserved_zone env;
     in_stack_reserved_zone := in_stack_reserved_zone env;
     in_stack_red_zone := in_stack_red_zone env;
     procctl_stackgap_status := procctl_stackgap_status env;
     sysctl_stack_guard_page := sysctl_stack_guard_page env;
     vm_page_size := vm_page_size env |}.

(** The runtime [env] with a previously installed handler that takes every
    signal and has the thread resume at [recovery]: it rewrites the pc of
    the context it is handed. *)
Definition chained_to_recovery (env : Env) (recovery : address) : Env :=
  {| check_crash_protection := check_crash_protection env;
     chained_handler := fun _ _ _ _ => true;
     chained_handler_context := fun _ _ _ uc => ucontext_set_pc uc recovery;
     signal_handlers_are_installed := signal_handlers_are_installed env;
     CAN_SHOW_REGISTERS_ON_ASSERT := CAN_SHOW_REGISTERS_ON_ASSERT env;
     g_assert_poison := g_assert_poison env;
     handle_assert_poison_fault := handle_assert_poison_fault env;
     safefetch_registry := safefetch_registry env;
     frames := frames env;
     find_blob_unsafe := find_blob_unsafe env;
     is_interpreted_frame := is_interpreted_frame env;
     unextended_sp := unextended_sp env;
     interpreter_frame_initial_sp_offset := interpreter_frame_initial_sp_offset env;
     look_for_reserved_stack_annotated_method :=
       look_for_reserved_stack_annotated_method env;
     continuation_for_implicit_exception := continuation_for_implicit_exception env;
     get_handle_wrong_method_stub := get_handle_wrong_method_stub env;
     get_poll_stub := get_poll_stub env;
     handle_unsafe_access := handle_unsafe_access env;
     is_sigill_zombie_not_entrant := is_sigill_zombie_not_entrant env;
     is_poll_address := is_poll_address env;
     is_memory_serialize_page := is_memory_serialize_page env;
     needs_explicit_null_check := needs_explicit_null_check env;
     find_slowcase_pc := find_slowcase_pc env;
     on_local_stack := on_local_stack env;
     in_stack_yellow_reserved_zone := in_stack_yellow_reserved_zone env;
     in_stack_reserved_zone := in_stack_reserved_zone env;
     in_stack_red_zone := in_stack_red_zone env;
     procctl_stackgap_status := procctl_stackgap_status env;
     sysctl_stack_guard_page := sysctl_stack_guard_page env;
     vm_page_size := vm_page_size env |}.

(** ** The conjoint atomic copies

    [_Copy_conjoint_jshorts_atomic], [_Copy_conjoint_jints_atomic] and
    [_Copy_conjoint_jlongs_atomic] (lines 690-731 and, the same text, lines
    1305-1346).  The three differ in the element type only, and the long
    version copies each element with [os::atomic_copy64]. *)
Module Copy.

(** The elements of one type, by element index: [from], [to] and [end] point
    to elements of the same type, so they are compared and stepped in
    elements. *)
Definition memory : Type := Z -> Z.

Definition load (m : memory) (p : Z) : Z := m p.

Definition store (m : memory) (p v : Z) : memory :=
  fun q => if q =? p then v else m q.

(** [while (from < end) *(to++) = *(from++);]  The loop is run on fuel,
    [None] is fuel exhausted with the condition still true. *)
Fixpoint copy_up (fuel : nat) (from to end_ : Z) (m : memory) : option memory :=
  match fuel with
  | O => None
  | S fuel =>
      if from <? end_ then
        copy_up fuel (from + 1) (to + 1) end_ (store m to (load m from))
      else Some m
  end.

(** [while (from >= end) *(to--) = *(from--);] *)
Fixpoint copy_down (fuel : nat) (from to end_ : Z) (m : memory) : option memory :=
  match fuel with
  | O => None
  | S fuel =>
      if from >=? end_ then
        copy_down fuel (from - 1) (to - 1) end_ (store m to (load m from))
      else Some m
  end.

(** The body the three functions share.  [count] is a [size_t]; for
    [count = 0] the C expression [count - 1] wraps and moves the pointers
    one element down, as [from + (count - 1)] does here. *)
Definition conjoint_atomic (from to count : Z) (m : memory) : option memory :=
  let fuel := S (Z.to_nat count) in
  if from >? to then
    let end_ := from + count in
    copy_up fuel from to end_ m
  else if from <? to then
    let end_ := from in
    let from := from + (count - 1) in
    let to := to + (count - 1) in
    copy_down fuel from to end_ m
  else Some m.

Definition _Copy_conjoint_jshorts_atomic := conjoint_atomic.
Definition _Copy_conjoint_jints_atomic := conjoint_atomic.
Definition _Copy_conjoint_jlongs_atomic := conjoint_atomic.

End Copy.

(** ** The CPU load counters of the management library

    [UnixOperatingSystem.c]: the static [counters], [perfInit] and the four
    native methods of [OperatingSystemImpl]. *)
Module UnixOperatingSystem.

(** A [jlong] result: the value wrapped into 64 bits, two's complement. *)
Definition jlong (z : Z) : Z := (z + 2 ^ 63) mod 2 ^ 64 - 2 ^ 63.

Record ticks := mk_ticks { used : Z; total : Z }.

(** [struct perfbuf]; [cpus] is [None] for a NULL pointer. *)
Record perfbuf := mk_perfbuf {
  nProcs : Z;
  jvmTicks : ticks;
  cpuTicks : ticks;
  cpus : option (list ticks)
}.

(** The static data of the file: [initialized] of [perfInit] and
    [counters]. *)
Record State := mk_State {
  initialized : bool;
  counters : perfbuf
}.

(** Static storage starts zeroed. *)
Definition initial_State : State :=
  mk_State false (mk_perfbuf 0 (mk_ticks 0 0) (mk_ticks 0 0) None).

Record timeval := mk_timeval { tv_sec : Z; tv_usec : Z }.

(** What the system answers during one call.  A [sysctl] that returns -1 is
    [None]; an array filled by the kernel is the function from index to
    element. *)
Record Sys := {
  (* sysctl({CTL_HW, HW_NCPU}): the int it stores *)
  hw_ncpu : option Z;
  (* whether calloc returns memory *)
  calloc_succeeds : bool;
  (* sysctlbyname("kern.cp_time") and sysctlbyname("kern.cp_times") *)
  kern_cp_time : option (Z -> Z);
  kern_cp_times : option (Z -> Z);
  (* sysctl({CTL_KERN, KERN_PROC, KERN_PROC_PID, getpid()}):
     kp.ki_rusage.ru_utime and kp.ki_rusage.ru_stime *)
  kern_proc_rusage : option (timeval * timeval);
  (* gettimeofday *)
  gettimeofday : option timeval;
  JVM_ActiveProcessorCount : Z
}.

(** <sys/resource.h> of FreeBSD. *)
Definition CPUSTATES : Z := 5.
Definition CP_USER : Z := 0.
Definition CP_NICE : Z := 1.
Definition CP_SYS : Z := 2.
Definition CP_INTR : Z := 3.
Definition CP_IDLE : Z := 4.

(** The [jdouble] a load method returns: [-1.], [0.], or the quotient
    [(jdouble) n / d] of two [jlong]s, kept as its two operands. *)
Inductive load :=
  | Minus_one
  | Zero
  | Quotient (n d : Z).

(** [perfInit] (lines 60-98); [freebsd] is [#ifdef __FreeBSD__]. *)
Definition perfInit (freebsd : bool) (sys : Sys) (s : State) : State * Z :=
  let s :=
    if negb (initialized s) then
      let cpu_val :=
        match hw_ncpu sys with
        | None => 1
        | Some cpu_val => if cpu_val <? 1 then 1 else cpu_val
        end in
      let c := counters s in
      let c :=
        if freebsd then
          mk_perfbuf cpu_val (mk_ticks 0 0) (mk_ticks 0 0)
            (if calloc_succeeds sys
             then Some (replicate (Z.to_nat cpu_val) (mk_ticks 0 0))
             else None)
        else mk_perfbuf cpu_val (jvmTicks c) (cpuTicks c) (cpus c) in
      mk_State true c
    else s in
  (s, if initialized s then 0 else -1).

Definition set_cpuTicks (s : State) (t : ticks) : State :=
  let c := counters s in
  mk_State (initialized s) (mk_perfbuf (nProcs c) (jvmTicks c) t (cpus c)).

Definition set_jvmTicks (s : State) (t : ticks) : State :=
  let c := counters s in
  mk_State (initialized s) (mk_perfbuf (nProcs c) t (cpuTicks c) (cpus c)).

Definition set_cpus (s : State) (l : list ticks) : State :=
  let c := counters s in
  mk_State (initialized s) (mk_perfbuf (nProcs c) (jvmTicks c) (cpuTicks c) (Some l)).

(** [getSystemCpuLoad0] (lines 100-143). *)
Definition getSystemCpuLoad0 (freebsd : bool) (sys : Sys) (s : State) : State * load :=
  if freebsd then
    let '(s, r) := perfInit freebsd sys s in
    if r =? 0 then
      match kern_cp_time sys with
      | None => (s, Minus_one)
      | Some cp_time =>
          let used := jlong (cp_time CP_USER + cp_time CP_NICE + cp_time CP_SYS
                             + cp_time CP_INTR) in
          let total := jlong (used + cp_time CP_IDLE) in
          let last := cpuTicks (counters s) in
          if (UnixOperatingSystem.used last =? 0) || (UnixOperatingSystem.total last =? 0) then
            (set_cpuTicks s (mk_ticks used total), Zero)
          else
            let used_delta := jlong (used - UnixOperatingSystem.used last) in
            let total_delta := jlong (total - UnixOperatingSystem.total last) in
            let cpu := Quotient used_delta total_delta in
            (set_cpuTicks s (mk_ticks used total), cpu)
      end
    else (s, Minus_one)
  else (s, Minus_one).

(** [TIME_VALUE_TO_MICROSECONDS]. *)
Definition TIME_VALUE_TO_MICROSECONDS (TV : timeval) : Z :=
  tv_sec TV * 1000 * 1000 + tv_usec TV.

(** [getProcessCpuLoad0] (lines 156-215). *)
Definition getProcessCpuLoad0 (freebsd : bool) (sys : Sys) (s : State) : State * load :=
  if freebsd then
    let '(s, r) := perfInit freebsd sys s in
    if r =? 0 then
      match kern_proc_rusage sys with
      | None => (s, Minus_one)
      | Some (ru_utime, ru_stime) =>
          match gettimeofday sys with
          | None => (s, Minus_one)
          | Some now =>
              let ncpus := JVM_ActiveProcessorCount sys in
              let time := jlong (TIME_VALUE_TO_MICROSECONDS now * ncpus) in
              let task_time := jlong (TIME_VALUE_TO_MICROSECONDS ru_utime
                                      + TIME_VALUE_TO_MICROSECONDS ru_stime) in
              let last := jvmTicks (counters s) in
              if (UnixOperatingSystem.used last =? 0)
                 || (UnixOperatingSystem.total last =? 0) then
                (set_jvmTicks s (mk_ticks task_time time), Zero)
              else
                let task_time_delta := jlong (task_time - UnixOperatingSystem.used last) in
                let time_delta := jlong (time - UnixOperatingSystem.total last) in
                if time_delta =? 0 then (s, Minus_one)
                else
                  let cpu := Quotient task_time_delta time_delta in
                  (set_jvmTicks s (mk_ticks task_time time), cpu)
          end
      end
    else (s, Minus_one)
  else (s, Minus_one).

(** [getSingleCpuLoad0] (lines 217-258); [None] is the read through
    [counters.cpus] when that pointer is NULL.  The array was allocated with
    [nProcs] slots, so the slot of a CPU number that passed the range test
    exists (see [valid] below); a list too short for it reads as a zeroed
    slot and is not written. *)
Definition getSingleCpuLoad0 (freebsd : bool) (sys : Sys) (s : State) (cpu_number : Z)
    : option (State * load) :=
  if freebsd then
    let '(s, r) := perfInit freebsd sys s in
    if (r =? 0) && (0 <=? cpu_number) && (cpu_number <? nProcs (counters s)) then
      match kern_cp_times sys with
      | None => Some (s, Minus_one)
      | Some cp_times =>
          let offset := cpu_number * CPUSTATES in
          let used := jlong (cp_times (offset + CP_USER) + cp_times (offset + CP_NICE)
                             + cp_times (offset + CP_SYS) + cp_times (offset + CP_INTR)) in
          let total := jlong (used + cp_times (offset + CP_IDLE)) in
          match cpus (counters s) with
          | None => None
          | Some cpus =>
              let last := default (mk_ticks 0 0) (cpus !! Z.to_nat cpu_number) in
              if (UnixOperatingSystem.used last =? 0)
                 || (UnixOperatingSystem.total last =? 0) then
                Some (set_cpus s (<[Z.to_nat cpu_number := mk_ticks used total]> cpus), Zero)
              else
                let used_delta := jlong (used - UnixOperatingSystem.used last) in
                let total_delta := jlong (total - UnixOperatingSystem.total last) in
                let cpu := Quotient used_delta total_delta in
                Some (set_cpus s (<[Z.to_nat cpu_number := mk_ticks used total]> cpus), cpu)
          end
      end
    else Some (s, Minus_one)
  else Some (s, Minus_one).

(** [getHostConfiguredCpuCount0] (lines 260-270). *)
Definition getHostConfiguredCpuCount0 (freebsd : bool) (sys : Sys) (s : State) : State * Z :=
  let '(s, r) := perfInit freebsd sys s in
  if r =? 0 then (s, nProcs (counters s)) else (s, -1).

(** What [perfInit] establishes and every method keeps: once initialised
    there is at least one processor and, on FreeBSD, an allocated [cpus]
    array has one slot for each. *)
Definition valid (freebsd : bool) (s : State) : Prop :=
  initialized s = true ->
  1 <= nProcs (counters s) /\
  (freebsd = true ->
   forall l, cpus (counters s) = Some l -> Z.of_nat (length l) = nProcs (counters s)).

End UnixOperatingSystem.

(** ** Vocabulary of the statements about the counters *)

(** The sample the load methods take from the five counters of one CPU that
    start at [offset] in a kernel array. *)
Definition cp_sample (cp : Z -> Z) (offset : Z) : UnixOperatingSystem.ticks :=
  let used :=
    UnixOperatingSystem.jlong
      (cp (offset + UnixOperatingSystem.CP_USER) + cp (offset + UnixOperatingSystem.CP_NICE)
       + cp (offset + UnixOperatingSystem.CP_SYS) + cp (offset + UnixOperatingSystem.CP_INTR)) in
  UnixOperatingSystem.mk_ticks used
    (UnixOperatingSystem.jlong (used + cp (offset + UnixOperatingSystem.CP_IDLE))).

(** A sample system: eight processors, whose counters are the [n]-th
    multiples of 10 user, 1 nice, 5 system, 1 interrupt and 83 idle ticks on
    every CPU; the process has used [n] seconds of user time at second
    [100 + n]. *)
Module CounterSample.

Definition cp (n : Z) (i : Z) : Z :=
  n * match i mod 5 with 0 => 10 | 1 => 1 | 2 => 5 | 3 => 1 | _ => 83 end.

Definition sys (n : Z) : UnixOperatingSystem.Sys :=
  {| UnixOperatingSystem.hw_ncpu := Some 8;
     UnixOperatingSystem.calloc_succeeds := true;
     UnixOperatingSystem.kern_cp_time := Some (cp n);
     UnixOperatingSystem.kern_cp_times := Some (cp n);
     UnixOperatingSystem.kern_proc_rusage :=
       Some (UnixOperatingSystem.mk_timeval n 0, UnixOperatingSystem.mk_timeval 0 0);
     UnixOperatingSystem.gettimeofday := Some (UnixOperatingSystem.mk_timeval (100 + n) 0);
     UnixOperatingSystem.JVM_ActiveProcessorCount := 8 |}.

(** The same system with every [sysctl] failing and no memory. *)
Definition failing : UnixOperatingSystem.Sys :=
  {| UnixOperatingSystem.hw_ncpu := None;
     UnixOperatingSystem.calloc_succeeds := false;
     UnixOperatingSystem.kern_cp_time := None;
     UnixOperatingSystem.kern_cp_times := None;
     UnixOperatingSystem.kern_proc_rusage := None;
     UnixOperatingSystem.gettimeofday := None;
     UnixOperatingSystem.JVM_ActiveProcessorCount := 8 |}.

End CounterSample.
(** * Properties *)

(** ** The context accessors *)

Lemma wrap64_small (z : Z) : 0 <= z < 2 ^ 64 -> wrap64 z = z.
Proof. intros Hz. unfold wrap64. by apply Z.mod_small. Qed.

Lemma array_get_insert_ne (a : list Z) (i j : nat) (v : Z) :
  i <> j -> array_get (<[i := v]> a) j = array_get a j.
Proof.
  intros Hne. unfold array_get. by rewrite list_lookup_insert_ne.
Qed.

Lemma ucontext_get_sp_set_pc {os : os_variant} (uc : ucontext_t os) (pc : address) :
  ucontext_get_sp (ucontext_set_pc uc pc) = ucontext_get_sp uc.
Proof.
  destruct os; simpl; try reflexivity.
  apply array_get_insert_ne. unfold _REG_ELR, _REG_SP. lia.
Qed.

Lemma ucontext_get_fp_set_pc {os : os_variant} (uc : ucontext_t os) (pc : address) :
  ucontext_get_fp (ucontext_set_pc uc pc) = ucontext_get_fp uc.
Proof.
  destruct os; simpl; try reflexivity.
  apply array_get_insert_ne. unfold _REG_ELR, _REG_FP. lia.
Qed.

Lemma ucontext_lr_set_pc {os : os_variant} (uc : ucontext_t os) (pc : address) :
  ucontext_lr (ucontext_set_pc uc pc) = ucontext_lr uc.
Proof.
  destruct os; simpl; try reflexivity.
  apply array_get_insert_ne. unfold _REG_ELR, _REG_LR. lia.
Qed.

Lemma array_get_insert_eq (a : list Z) (i : nat) (v : Z) :
  (i < length a)%nat -> array_get (<[i := v]> a) i = v.
Proof. intros Hi. unfold array_get. by rewrite list_lookup_insert_eq. Qed.

Lemma array_insert_get (a : list Z) (i : nat) :
  (i < length a)%nat -> <[i := array_get a i]> a = a.
Proof.
  intros Hi. unfold array_get. destruct (lookup_lt_is_Some_2 a i Hi) as [v Hv].
  rewrite Hv. by apply list_insert_id.
Qed.

Lemma ucontext_get_pc_set_pc {os : os_variant} (uc : ucontext_t os) (pc : address) :
  holds_pc os uc -> ucontext_get_pc (ucontext_set_pc uc pc) = pc.
Proof. intros Hroom. destruct os; try done. by apply array_get_insert_eq. Qed.

Lemma other_registers_equal_refl (os : os_variant) (uc : ucontext_t os) :
  other_registers_equal os uc uc.
Proof. destruct os; simpl; by repeat split. Qed.

Lemma other_registers_equal_set_pc (os : os_variant) (uc : ucontext_t os) (pc : address) :
  other_registers_equal os uc (ucontext_set_pc uc pc).
Proof.
  destruct os; simpl; try by repeat split.
  split; [apply length_insert |].
  intros i Hi. apply list_lookup_insert_ne. congruence.
Qed.

(** C9. [ucontext_set_pc] changes the program-counter field only: every
    other register field of the context (general-purpose registers, stack
    pointer, frame pointer, link register, status flags) is as before, and
    so are the stack pointer, frame pointer and link register as the
    accessors read them. *)
Theorem ucontext_set_pc_only_pc (os : os_variant) (uc : ucontext_t os) (pc : address) :
  other_registers_equal os uc (ucontext_set_pc uc pc) /\
  ucontext_get_sp (ucontext_set_pc uc pc) = ucontext_get_sp uc /\
  ucontext_get_fp (ucontext_set_pc uc pc) = ucontext_get_fp uc /\
  ucontext_lr (ucontext_set_pc uc pc) = ucontext_lr uc.
Proof.
  split; [| split; [apply ucontext_get_sp_set_pc
                   | split; [apply ucontext_get_fp_set_pc | apply ucontext_lr_set_pc]]].
  destruct os; simpl.
  - repeat split.
  - repeat split.
  - repeat split.
  - split.
    + apply length_insert.
    + intros i Hi. apply list_lookup_insert_ne. congruence.
Qed.

(** ** The frame at a stack-banging point *)

(** In the compiled-code branch the answer is the frame built from the link
    register, or its Java sender when that frame is not a Java frame. *)
Lemma banging_point_compiled {os : os_variant} (q : FrameQueries) (uc : ucontext_t os)
    (cb : CodeBlob) :
  Interpreter_contains q (ucontext_get_pc uc) = false ->
  find_blob q (ucontext_get_pc uc) = Some cb ->
  is_nmethod cb = true ->
  is_frame_complete_at cb (ucontext_get_pc uc) = false ->
  get_frame_at_stack_banging_point q uc =
    Some (if is_java_frame q (caller_frame_of_context uc)
          then caller_frame_of_context uc
          else java_sender q (caller_frame_of_context uc)).
Proof.
  intros Hint Hblob Hnm Hfc.
  unfold get_frame_at_stack_banging_point, caller_frame_of_context.
  rewrite Hint, Hblob, Hnm, Hfc. simpl.
  by destruct (is_java_frame q _).
Qed.

(** C8. A stack-banging fault at a pc outside the interpreter, in an nmethod
    whose frame is not complete at that pc: the frame is built from the
    context's stack pointer and frame pointer and from the link register
    less one instruction width (in 64-bit arithmetic); the answer is that
    frame when it is a Java frame, else its Java sender.  The faulting pc
    is not the frame's pc: the answer is the same for any other faulting pc
    that takes the same branch.  The three registers are those of the
    layout: [context_sp], [context_fp] and [context_lr] on macOS, [gp_sp],
    [gp_x[REG_FP]] and [gp_lr] on FreeBSD, [sc_sp], [sc_x[REG_FP]] and
    [sc_lr] on OpenBSD, slots [_REG_SP], [_REG_FP] and [_REG_LR] of
    [__gregs] on NetBSD. *)
Theorem banging_point_frame_from_link_register (os : os_variant) (q : FrameQueries)
    (uc : ucontext_t os) (cb : CodeBlob) :
  Interpreter_contains q (ucontext_get_pc uc) = false ->
  find_blob q (ucontext_get_pc uc) = Some cb ->
  is_nmethod cb = true ->
  is_frame_complete_at cb (ucontext_get_pc uc) = false ->
  let fr := mk_frame (ucontext_get_sp uc) (ucontext_get_fp uc)
                     (wrap64 (ucontext_lr uc - NativeInstruction_instruction_size)) in
  get_frame_at_stack_banging_point q uc =
    Some (if is_java_frame q fr then fr else java_sender q fr) /\
  (is_java_frame q fr = true ->
   exists fr', get_frame_at_stack_banging_point q uc = Some fr' /\
     frame_pc fr' = wrap64 (ucontext_lr uc - NativeInstruction_instruction_size) /\
     frame_sp fr' = ucontext_get_sp uc /\ frame_fp fr' = ucontext_get_fp uc) /\
  (forall (pc' : address) (cb' : CodeBlob),
     Interpreter_contains q (ucontext_get_pc (ucontext_set_pc uc pc')) = false ->
     find_blob q (ucontext_get_pc (ucontext_set_pc uc pc')) = Some cb' ->
     is_nmethod cb' = true ->
     is_frame_complete_at cb' (ucontext_get_pc (ucontext_set_pc uc pc')) = false ->
     get_frame_at_stack_banging_point q (ucontext_set_pc uc pc') =
       get_frame_at_stack_banging_point q uc) /\
  match os return ucontext_t os -> Prop with
  | Darwin => fun uc =>
      get_frame_at_stack_banging_point q uc =
        let fr := mk_frame (context_sp uc) (context_fp uc) (wrap64 (context_lr uc - 4)) in
        Some (if is_java_frame q fr then fr else java_sender q fr)
  | FreeBSD => fun uc =>
      get_frame_at_stack_banging_point q uc =
        let fr := mk_frame (gp_sp uc) (default 0 (gp_x uc !! 29%nat))
                           (wrap64 (gp_lr uc - 4)) in
        Some (if is_java_frame q fr then fr else java_sender q fr)
  | OpenBSD => fun uc =>
      get_frame_at_stack_banging_point q uc =
        let fr := mk_frame (sc_sp uc) (default 0 (sc_x uc !! 29%nat))
                           (wrap64 (sc_lr uc - 4)) in
        Some (if is_java_frame q fr then fr else java_sender q fr)
  | NetBSD => fun uc =>
      get_frame_at_stack_banging_point q uc =
        let fr := mk_frame (default 0 (uc !! 31%nat)) (default 0 (uc !! 29%nat))
                           (wrap64 (default 0 (uc !! 30%nat) - 4)) in
        Some (if is_java_frame q fr then fr else java_sender q fr)
  end uc.
Proof.
  intros Hint Hblob Hnm Hfc fr.
  pose proof (banging_point_compiled q uc cb Hint Hblob Hnm Hfc) as Hres.
  fold (caller_frame_of_context uc) in fr. subst fr.
  split; [exact Hres |]. split; [| split].
  - intros Hjava. exists (caller_frame_of_context uc).
    rewrite Hres, Hjava. repeat split.
  - intros pc' cb' Hint' Hblob' Hnm' Hfc'.
    rewrite (banging_point_compiled q _ cb' Hint' Hblob' Hnm' Hfc'), Hres.
    unfold caller_frame_of_context.
    by rewrite ucontext_get_sp_set_pc, ucontext_get_fp_set_pc, ucontext_lr_set_pc.
  - destruct os; exact Hres.
Qed.

(** C8 on the four layouts of the sample context: fault at 0x5004 (inside
    the nmethod, before its frame is complete), a different link register in
    each; the frame's pc is the link register less 4, its sp and fp are the
    context's. *)
Lemma banging_point_frame_from_link_register_witness :
  get_frame_at_stack_banging_point Sample.queries
      (Sample.context Darwin 0x5004 0x5104) =
    Some (mk_frame 0x70080000 0x70080040 0x5100) /\
  get_frame_at_stack_banging_point Sample.queries
      (Sample.context FreeBSD 0x5004 0x5204) =
    Some (mk_frame 0x70080000 0x70080040 0x5200) /\
  get_frame_at_stack_banging_point Sample.queries
      (Sample.context OpenBSD 0x5004 0x5304) =
    Some (mk_frame 0x70080000 0x70080040 0x5300) /\
  get_frame_at_stack_banging_point Sample.queries
      (Sample.context NetBSD 0x5004 0x5404) =
    Some (mk_frame 0x70080000 0x70080040 0x5400).
Proof.
  split; [| split; [| split]].
  - exact (proj1 (banging_point_frame_from_link_register Darwin Sample.queries
             (Sample.context Darwin 0x5004 0x5104) Sample.nmethod_blob
             eq_refl eq_refl eq_refl eq_refl)).
  - exact (proj1 (banging_point_frame_from_link_register FreeBSD Sample.queries
             (Sample.context FreeBSD 0x5004 0x5204) Sample.nmethod_blob
             eq_refl eq_refl eq_refl eq_refl)).
  - exact (proj1 (banging_point_frame_from_link_register OpenBSD Sample.queries
             (Sample.context OpenBSD 0x5004 0x5304) Sample.nmethod_blob
             eq_refl eq_refl eq_refl eq_refl)).
  - exact (proj1 (banging_point_frame_from_link_register NetBSD Sample.queries
             (Sample.context NetBSD 0x5004 0x5404) Sample.nmethod_blob
             eq_refl eq_refl eq_refl eq_refl)).
Defined.

(** ** The handler up to the classifier *)

Lemma current_JavaThread_none (env : Env) (t : option Thread) :
  (forall th, t <> Some (Java_thread th)) -> current_JavaThread env t = None.
Proof.
  intros Hnj. unfold current_JavaThread.
  destruct (signal_handlers_are_installed env); [| reflexivity].
  destruct t as [[th | |] |]; try reflexivity. by destruct (Hnj th).
Qed.

Lemma safefetch_fault_hit {os : os_variant} (env : Env) (uc : ucontext_t os)
    (resume_pc : address) :
  safefetch_registry env !! ucontext_get_pc uc = Some resume_pc ->
  ucontext_get_pc uc <> NULL ->
  safefetch_fault env (Some uc) = Some (ucontext_set_pc uc resume_pc).
Proof.
  intros Hreg Hpc. unfold safefetch_fault, is_safefetch_fault,
    continuation_for_safefetch_fault.
  rewrite Hreg. simpl.
  destruct (Z.eqb_spec (ucontext_get_pc uc) NULL) as [Heq | _]; [by destruct Hpc |].
  reflexivity.
Qed.

Lemma safefetch_fault_inv {os : os_variant} (env : Env) (uc : option (ucontext_t os))
    (uc' : ucontext_t os) :
  safefetch_fault env uc = Some uc' ->
  exists c resume_pc, uc = Some c /\
    safefetch_registry env !! ucontext_get_pc c = Some resume_pc /\
    ucontext_get_pc c <> NULL /\
    uc' = ucontext_set_pc c resume_pc.
Proof.
  unfold safefetch_fault, is_safefetch_fault, continuation_for_safefetch_fault.
  destruct uc as [c |]; [| discriminate].
  destruct (Z.eqb_spec (ucontext_get_pc c) NULL) as [Heq | Hne]; simpl; [discriminate |].
  case_bool_decide as Hsome; [| discriminate].
  destruct Hsome as [resume_pc Hreg]. rewrite Hreg. simpl. intros [= <-].
  by exists c, resume_pc.
Qed.

(** The two exits before the pipeline: the crash protection (line 266, 932)
    and the assert-poison probe (lines 287-293, 953-959). *)
Lemma handler_crash_protection (os : os_variant) (env : Env) (sig : signal)
    (info : option siginfo_t) (uc : option (ucontext_t os)) (t : option Thread)
    (abort : Z) :
  check_crash_protection env sig t = true ->
  JVM_handle_bsd_signal os env sig info uc t abort = mk_result CrashProtectionRestore uc t.
Proof.
  intros Hcp.
  destruct os; simpl;
    unfold Apple.JVM_handle_bsd_signal, Other.JVM_handle_bsd_signal; by rewrite Hcp.
Qed.

Lemma handler_assert_poison (os : os_variant) (env : Env) (sig : signal)
    (info : option siginfo_t) (uc : option (ucontext_t os)) (t : option Thread)
    (abort : Z) :
  check_crash_protection env sig t = false ->
  sig_is SIGPIPE sig || sig_is SIGXFSZ sig = false ->
  assert_poison_fault env sig info = true ->
  JVM_handle_bsd_signal os env sig info uc t abort = mk_result AssertPoisonHandled uc t.
Proof.
  intros Hcp Hign Hap.
  destruct os; simpl;
    unfold Apple.JVM_handle_bsd_signal, Other.JVM_handle_bsd_signal;
    by rewrite Hcp, Hign, Hap.
Qed.

(** Past the crash protection, the ignorable signals and the assert-poison
    probe, the handler is the SafeFetch check followed by the classifier or,
    when [info], [uc] or [thread] is NULL, by the tail alone. *)
Lemma handler_after_filters (os : os_variant) (env : Env) (sig : signal)
    (info : option siginfo_t) (uc : option (ucontext_t os)) (t : option Thread)
    (abort : Z) :
  check_crash_protection env sig t = false ->
  sig_is SIGPIPE sig || sig_is SIGXFSZ sig = false ->
  assert_poison_fault env sig info = false ->
  JVM_handle_bsd_signal os env sig info uc t abort =
    match safefetch_fault env uc with
    | Some uc' => mk_result SafeFetchResume (Some uc') t
    | None =>
        match info, uc, current_JavaThread env t with
        | Some info, Some uc, Some thread => classify os env sig info uc t thread abort
        | _, _, _ => finish env sig info uc t (current_JavaThread env t) NULL NULL abort
        end
    end.
Proof.
  intros Hcp Hign Hap.
  destruct os; simpl;
    unfold Apple.JVM_handle_bsd_signal, Other.JVM_handle_bsd_signal;
    rewrite Hcp, Hign, Hap; reflexivity.
Qed.

Lemma handler_at_classifier (os : os_variant) (env : Env) (sig : signal)
    (info : siginfo_t) (uc : ucontext_t os) (t : option Thread) (th : JavaThread)
    (abort : Z) :
  check_crash_protection env sig t = false ->
  sig_is SIGPIPE sig || sig_is SIGXFSZ sig = false ->
  assert_poison_fault env sig (Some info) = false ->
  safefetch_fault env (Some uc) = None ->
  current_JavaThread env t = Some th ->
  JVM_handle_bsd_signal os env sig (Some info) (Some uc) t abort =
    classify os env sig info uc t th abort.
Proof.
  intros Hcp Hign Hap Hsf Hth.
  rewrite handler_after_filters by assumption. by rewrite Hsf, Hth.
Qed.

(** ** SafeFetch *)

(** C1, as stated, fails: the SafeFetch check is not the first thing the
    handler does.  A thread that runs under [os::ThreadCrashProtection]
    takes a SIGBUS at the SafeFetch32 fault pc, which is in the table: the
    handler leaves through the crash protection (the longjmp of line 266),
    the pc of the context is not rewritten and nothing is returned. *)
Lemma safefetch_fault_under_crash_protection :
  safefetch_registry Sample.protected_env !! Sample.safefetch32_fault_pc =
    Some Sample.safefetch32_continuation_pc /\
  JVM_handle_bsd_signal Darwin Sample.protected_env SIGBUS None
      (Some (Sample.context Darwin Sample.safefetch32_fault_pc 0)) (Some VM_thread) 1 =
    mk_result CrashProtectionRestore
      (Some (Sample.context Darwin Sample.safefetch32_fault_pc 0)) (Some VM_thread) /\
  return_value (outcome
    (JVM_handle_bsd_signal Darwin Sample.protected_env SIGBUS None
       (Some (Sample.context Darwin Sample.safefetch32_fault_pc 0)) (Some VM_thread) 1)) =
    None.
Proof. split; [reflexivity | split; reflexivity]. Qed.

(** C1, amended.  For every pair (faultPC, resumePC) of the SafeFetch table
    with faultPC not NULL, a SIGSEGV or SIGBUS whose captured pc is faultPC
    makes the handler rewrite the pc to resumePC and return true, whatever
    the thread, its state, the siginfo and every rule of the classifier
    would say, unless the invocation is taken away before the pipeline: by
    the crash protection or by the assert-poison probe.  The context it
    leaves reads resumePC as its pc and has every other register as it
    was; the thread is untouched. *)
Theorem safefetch_fault_resumes (os : os_variant) (env : Env) (sig : signal)
    (info : option siginfo_t) (uc : ucontext_t os) (t : option Thread) (abort : Z)
    (faultPC resumePC : address) :
  safefetch_registry env !! faultPC = Some resumePC ->
  faultPC <> NULL ->
  sig = SIGSEGV \/ sig = SIGBUS ->
  ucontext_get_pc uc = faultPC ->
  check_crash_protection env sig t = false ->
  assert_poison_fault env sig info = false ->
  let r := JVM_handle_bsd_signal os env sig info (Some uc) t abort in
  r = mk_result SafeFetchResume (Some (ucontext_set_pc uc resumePC)) t /\
  return_value (outcome r) = Some true /\
  thread_after r = t /\
  exists c', context_after r = Some c' /\
    other_registers_equal os uc c' /\
    (holds_pc os uc -> ucontext_get_pc c' = resumePC).
Proof.
  intros Hreg Hnull Hsig Hpc Hcp Hap r. subst faultPC r.
  assert (Hign : sig_is SIGPIPE sig || sig_is SIGXFSZ sig = false)
    by (destruct Hsig as [-> | ->]; reflexivity).
  rewrite handler_after_filters by assumption.
  rewrite (safefetch_fault_hit env uc resumePC Hreg Hnull).
  split; [reflexivity |]. split; [reflexivity |]. split; [reflexivity |].
  exists (ucontext_set_pc uc resumePC). split; [reflexivity |].
  split; [apply other_registers_equal_set_pc | apply ucontext_get_pc_set_pc].
Qed.

(** C1, amended, on the sample runtime: macOS, SIGBUS at the SafeFetch32
    fault pc, on a thread that is not a Java thread and with no siginfo;
    and NetBSD, SIGSEGV at the SafeFetchN fault pc. *)
Lemma safefetch_fault_resumes_witness :
  JVM_handle_bsd_signal Darwin (Sample.env false) SIGBUS None
      (Some (Sample.context Darwin Sample.safefetch32_fault_pc 0)) (Some VM_thread) 1 =
    @mk_result Darwin SafeFetchResume
      (Some {| context_x := replicate 29 0; context_fp := 0x70080040; context_lr := 0;
               context_sp := 0x70080000; context_pc := Sample.safefetch32_continuation_pc;
               context_cpsr := 0; context_esr := 0 |})
      (Some VM_thread) /\
  exists c',
    context_after (JVM_handle_bsd_signal NetBSD (Sample.env false) SIGSEGV None
      (Some (Sample.context NetBSD Sample.safefetchN_fault_pc 0)) None 0) = Some c' /\
    other_registers_equal NetBSD (Sample.context NetBSD Sample.safefetchN_fault_pc 0) c' /\
    ucontext_get_pc c' = Sample.safefetchN_continuation_pc.
Proof.
  split.
  - refine (proj1 (safefetch_fault_resumes Darwin (Sample.env false) SIGBUS None
              (Sample.context Darwin Sample.safefetch32_fault_pc 0) (Some VM_thread) 1
              Sample.safefetch32_fault_pc Sample.safefetch32_continuation_pc
              eq_refl _ (or_intror eq_refl) eq_refl eq_refl eq_refl)).
    discriminate.
  - destruct (safefetch_fault_resumes NetBSD (Sample.env false) SIGSEGV None
                (Sample.context NetBSD Sample.safefetchN_fault_pc 0) None 0
                Sample.safefetchN_fault_pc Sample.safefetchN_continuation_pc
                eq_refl ltac:(discriminate) (or_introl eq_refl) eq_refl eq_refl eq_refl)
      as (_ & _ & _ & c' & Hctx & Hother & Hpc).
    exists c'. split; [exact Hctx |]. split; [exact Hother |].
    apply Hpc. simpl. unfold _REG_ELR. lia.
Defined.

(** ** Invocations without siginfo, context or Java thread *)

Lemma handler_ignorable (os : os_variant) (env : Env) (sig : signal)
    (info : option siginfo_t) (uc : option (ucontext_t os)) (t : option Thread)
    (abort : Z) :
  check_crash_protection env sig t = false ->
  sig_is SIGPIPE sig || sig_is SIGXFSZ sig = true ->
  JVM_handle_bsd_signal os env sig info uc t abort =
    mk_result IgnoredSignal (after_chained_handler env sig info uc) t.
Proof.
  intros Hcp Hign.
  destruct os; simpl;
    unfold Apple.JVM_handle_bsd_signal, Other.JVM_handle_bsd_signal;
    rewrite Hcp, Hign; by destruct (chained_handler env _ sig info uc).
Qed.

Lemma update_thread_current (env : Env) (t : option Thread) :
  update_thread t (current_JavaThread env t) = t.
Proof.
  unfold update_thread, current_JavaThread.
  destruct (signal_handlers_are_installed env); [| reflexivity].
  by destruct t as [[th | |] |].
Qed.

(** The tail of the handler when no stub was chosen. *)
Lemma finish_without_stub {os : os_variant} (env : Env) (sig : signal)
    (info : option siginfo_t) (uc : option (ucontext_t os)) (t : option Thread)
    (thread : option JavaThread) (pc : address) (abort : Z) :
  finish env sig info uc t thread NULL pc abort =
    if chained_handler env os sig info uc then
      mk_result Chained (after_chained_handler env sig info uc) (update_thread t thread)
    else if abort =? 0 then
      mk_result Unrecognized (after_chained_handler env sig info uc) (update_thread t thread)
    else mk_result (Fatal match after_chained_handler env sig info uc with
                          | Some c => if pc =? NULL then ucontext_get_pc c else pc
                          | None => pc
                          end)
           (after_chained_handler env sig info uc) (update_thread t thread).
Proof. reflexivity. Qed.

(** C10, as stated, fails: the five ways are not all.  On FreeBSD a thread
    that is not a Java thread and runs under crash protection takes a
    SIGSEGV with no context: the invocation ends in none of the five ways
    but through the crash protection, which comes before all of them. *)
Lemma no_context_under_crash_protection :
  outcome (JVM_handle_bsd_signal FreeBSD Sample.protected_env SIGSEGV
             (Some (Sample.fault 0x70002000)) None (Some VM_thread) 1) =
    CrashProtectionRestore /\
  CrashProtectionRestore <> IgnoredSignal /\
  CrashProtectionRestore <> SafeFetchResume /\
  CrashProtectionRestore <> Chained /\
  CrashProtectionRestore <> Unrecognized /\
  (forall pc, CrashProtectionRestore <> Fatal pc).
Proof. split; [reflexivity |]. repeat split; discriminate. Qed.

(** C10, amended.  When the siginfo is NULL, or the context is NULL, or the
    current thread is not a Java thread, the classifier is skipped: the
    thread and its guard zones are untouched, the pc is rewritten by no
    stub, and the invocation ends in exactly one of seven ways: the crash
    protection (a protected thread), the ignored SIGPIPE or SIGXFSZ, the
    assert-poison probe, the SafeFetch resume, the chained handler, [false]
    when [abort_if_unrecognized] is 0, or the fatal error report.  The
    context is left as it was, but for the pc after a SafeFetch resume and
    for what the chained handler does to it where that handler is
    called. *)
Theorem no_classifier_without_info_context_thread (os : os_variant) (env : Env)
    (sig : signal) (info : option siginfo_t) (uc : option (ucontext_t os))
    (t : option Thread) (abort : Z) :
  info = None \/ uc = None \/ (forall th, t <> Some (Java_thread th)) ->
  let r := JVM_handle_bsd_signal os env sig info uc t abort in
  thread_after r = t /\
  (forall stub, outcome r <> StubRedirect stub) /\
  ((outcome r = CrashProtectionRestore /\ context_after r = uc /\
      check_crash_protection env sig t = true) \/
   (outcome r = IgnoredSignal /\
      context_after r = after_chained_handler env sig info uc /\
      (sig = SIGPIPE \/ sig = SIGXFSZ)) \/
   (outcome r = AssertPoisonHandled /\ context_after r = uc /\
      assert_poison_fault env sig info = true) \/
   (outcome r = SafeFetchResume /\
      exists c resume_pc, uc = Some c /\
        safefetch_registry env !! ucontext_get_pc c = Some resume_pc /\
        context_after r = Some (ucontext_set_pc c resume_pc)) \/
   (outcome r = Chained /\
      context_after r = after_chained_handler env sig info uc /\
      chained_handler env os sig info uc = true) \/
   (outcome r = Unrecognized /\
      context_after r = after_chained_handler env sig info uc /\
      chained_handler env os sig info uc = false /\ abort = 0) \/
   (exists pc, outcome r = Fatal pc /\
      context_after r = after_chained_handler env sig info uc /\
      chained_handler env os sig info uc = false /\ abort <> 0)).
Proof.
  intros Hmissing r. subst r.
  destruct (check_crash_protection env sig t) eqn:Hcp.
  { rewrite handler_crash_protection by assumption. simpl.
    split; [reflexivity |]. split; [discriminate |]. by left. }
  destruct (sig_is SIGPIPE sig || sig_is SIGXFSZ sig) eqn:Hign.
  { rewrite handler_ignorable by assumption. simpl.
    split; [reflexivity |]. split; [discriminate |]. right; left.
    repeat split. destruct sig; try discriminate; auto. }
  destruct (assert_poison_fault env sig info) eqn:Hap.
  { rewrite handler_assert_poison by assumption. simpl.
    split; [reflexivity |]. split; [discriminate |]. right; right; left. by repeat split. }
  rewrite handler_after_filters by assumption.
  destruct (safefetch_fault env uc) as [uc' |] eqn:Hsf.
  { apply safefetch_fault_inv in Hsf as (c & resume_pc & -> & Hreg & _ & ->).
    simpl. split; [reflexivity |]. split; [discriminate |].
    right; right; right; left. split; [reflexivity |]. by exists c, resume_pc. }
  assert (Htail :
    match info, uc, current_JavaThread env t with
    | Some info, Some uc, Some thread => classify os env sig info uc t thread abort
    | _, _, _ => finish env sig info uc t (current_JavaThread env t) NULL NULL abort
    end = finish env sig info uc t (current_JavaThread env t) NULL NULL abort).
  { destruct Hmissing as [-> | [-> | Hnj]].
    - reflexivity.
    - by destruct info.
    - rewrite (current_JavaThread_none env t Hnj). by destruct info, uc. }
  rewrite Htail, finish_without_stub, update_thread_current.
  destruct (chained_handler env os sig info uc) eqn:Hch; simpl.
  { split; [reflexivity |]. split; [discriminate |].
    do 4 right; left. by repeat split. }
  destruct (Z.eqb_spec abort 0) as [-> | Hab]; simpl.
  { split; [reflexivity |]. split; [discriminate |].
    do 5 right; left. by repeat split. }
  split; [reflexivity |]. split; [discriminate |].
  do 6 right. eexists. by repeat split.
Qed.

(** C10, amended, on the sample runtime: FreeBSD, SIGSEGV at a yellow-zone
    address with a siginfo and a Java thread in Java code, but no context.
    The thread is left as it was and the fault does not go to the stack
    overflow stub. *)
Lemma no_classifier_without_info_context_thread_witness :
  thread_after (JVM_handle_bsd_signal FreeBSD (Sample.env false) SIGSEGV
                  (Some (Sample.fault 0x70002000)) None
                  (Some (Java_thread (Sample.java_thread _thread_in_Java false))) 1)
    = Some (Java_thread (Sample.java_thread _thread_in_Java false)) /\
  outcome (JVM_handle_bsd_signal FreeBSD (Sample.env false) SIGSEGV
             (Some (Sample.fault 0x70002000)) None
             (Some (Java_thread (Sample.java_thread _thread_in_Java false))) 1)
    <> StubRedirect Sample.stack_overflow_stub.
Proof.
  pose proof (no_classifier_without_info_context_thread FreeBSD
                (Sample.env false) SIGSEGV (Some (Sample.fault 0x70002000)) None
                (Some (Java_thread (Sample.java_thread _thread_in_Java false))) 1
                (or_intror (or_introl eq_refl))) as (Hthread & Hstub & _).
  split; [exact Hthread | exact (Hstub Sample.stack_overflow_stub)].
Defined.

(** ** The classifier, step by step *)

Lemma classify_unfold (os : os_variant) (env : Env) (sig : signal) (info : siginfo_t)
    (uc : ucontext_t os) (t : option Thread) (th : JavaThread) (abort : Z) :
  classify os env sig info uc t th abort =
    match (if guard_zone_signal os sig
           then handle_stack_overflow env uc t th (ucontext_get_pc uc)
                                      (stack_fault_address os env info)
           else Continue th NULL) with
    | Done r => r
    | Continue th' stub => classify_rest os env sig info uc t th' stub abort
    end.
Proof.
  destruct os; simpl; unfold Apple.classify, Other.classify, classify_rest; simpl.
  - destruct (sig_is SIGSEGV sig || sig_is SIGBUS sig); [| reflexivity].
    by destruct (handle_stack_overflow _ _ _ _ _ _).
  - destruct (sig_is SIGSEGV sig); [| reflexivity].
    by destruct (handle_stack_overflow _ _ _ _ _ _).
  - destruct (sig_is SIGSEGV sig); [| reflexivity].
    by destruct (handle_stack_overflow _ _ _ _ _ _).
  - destruct (sig_is SIGSEGV sig); [| reflexivity].
    by destruct (handle_stack_overflow _ _ _ _ _ _).
Qed.

Lemma guard_zone_signal_cases (os : os_variant) (sig : signal) :
  guard_zone_signal os sig = true <-> sig = SIGSEGV \/ (os = Darwin /\ sig = SIGBUS).
Proof.
  split.
  - destruct os, sig; simpl; try discriminate; auto.
  - intros [-> | [-> ->]]; [by destruct os | reflexivity].
Qed.

Lemma guard_zone_signal_not_ignorable (os : os_variant) (sig : signal) :
  guard_zone_signal os sig = true -> sig_is SIGPIPE sig || sig_is SIGXFSZ sig = false.
Proof. by destruct os, sig. Qed.

(** The address the stack overflow code tests is the fault address, but on
    FreeBSD, where it is the fault address less the kernel's guard pages
    when the stack gap is not known to be disabled and the sysctl gives a
    positive number of pages; the product is an [int]. *)
Lemma stack_fault_address_off_FreeBSD (os : os_variant) (env : Env) (info : siginfo_t) :
  os <> FreeBSD -> stack_fault_address os env info = si_addr info.
Proof. by destruct os. Qed.

Lemma stack_fault_address_FreeBSD (env : Env) (info : siginfo_t) :
  stack_fault_address FreeBSD env info =
    if ((procctl_stackgap_status env).1 =? -1)
       || (Z.land (procctl_stackgap_status env).2 PROC_STACKGAP_DISABLE =? 0)
    then match sysctl_stack_guard_page env with
         | Some guard_pages =>
             if 0 <? guard_pages
             then wrap64 (si_addr info - int32 (guard_pages * vm_page_size env))
             else si_addr info
         | None => si_addr info
         end
    else si_addr info.
Proof.
  unfold stack_fault_address, Other.adjust_fault_address.
  by destruct (procctl_stackgap_status env).
Qed.

(** [int] arithmetic: a product below 2^31 is itself, 2^20 pages of 4096
    bytes wrap to 0. *)
Lemma int32_small (z : Z) : - 2 ^ 31 <= z < 2 ^ 31 -> int32 z = z.
Proof. intros Hz. unfold int32. rewrite Z.mod_small; lia. Qed.

Example int32_wraps : int32 (2 ^ 20 * 4096) = 0 /\ int32 (2 ^ 19 * 4096) = - 2 ^ 31.
Proof. split; reflexivity. Qed.

Lemma not_in_Java (s : JavaThreadState) :
  s <> _thread_in_Java -> state_is _thread_in_Java s = false.
Proof. by destruct s. Qed.

(** Outside the yellow zone the stack overflow code hands the thread on,
    with at most the red zone disabled, and no stub. *)
Lemma classify_outside_yellow_zone (os : os_variant) (env : Env) (sig : signal)
    (info : siginfo_t) (uc : ucontext_t os) (t : option Thread) (th : JavaThread)
    (abort : Z) :
  yellow_zone_fault os env sig info = false ->
  exists th', (th' = th \/ th' = disable_stack_red_zone th) /\
    classify os env sig info uc t th abort =
      classify_rest os env sig info uc t th' NULL abort.
Proof.
  unfold yellow_zone_fault. intros Hy. rewrite classify_unfold.
  destruct (guard_zone_signal os sig); [| exists th; by split; [left |]].
  unfold handle_stack_overflow.
  destruct (on_local_stack env (stack_fault_address os env info));
    [| exists th; by split; [left |]].
  simpl in Hy. rewrite Hy.
  destruct (in_stack_red_zone env (stack_fault_address os env info)).
  - exists (disable_stack_red_zone th). by split; [right |].
  - exists th. by split; [left |].
Qed.

(** Off the thread's stack the stack overflow code does nothing. *)
Lemma classify_off_stack (os : os_variant) (env : Env) (sig : signal)
    (info : siginfo_t) (uc : ucontext_t os) (t : option Thread) (th : JavaThread)
    (abort : Z) :
  on_local_stack env (stack_fault_address os env info) = false ->
  classify os env sig info uc t th abort =
    classify_rest os env sig info uc t th NULL abort.
Proof.
  intros Hstack. rewrite classify_unfold. unfold handle_stack_overflow.
  rewrite Hstack. by destruct (guard_zone_signal os sig).
Qed.

Lemma jni_fast_getfield_stub_none (env : Env) (sig : signal) (pc stub : address) :
  find_slowcase_pc env pc = address_minus_one ->
  jni_fast_getfield_stub env sig pc stub = stub.
Proof.
  intros Hslow. unfold jni_fast_getfield_stub. rewrite Hslow.
  by destruct (sig_is SIGSEGV sig || sig_is SIGBUS sig).
Qed.

Lemma finish_with_stub {os : os_variant} (env : Env) (sig : signal)
    (info : option siginfo_t) (uc : ucontext_t os)
    (t : option Thread) (th : JavaThread) (stub pc : address) (abort : Z) :
  stub <> NULL ->
  finish env sig info (Some uc) t (Some th) stub pc abort =
    mk_result (StubRedirect stub) (Some (ucontext_set_pc uc stub))
              (Some (Java_thread (set_saved_exception_pc th pc))).
Proof.
  intros Hstub. unfold finish.
  by destruct (Z.eqb_spec stub NULL) as [Heq | _]; [destruct Hstub |].
Qed.

(** A stub chosen by the thread-state rules is where the pc goes, when the
    pc is not one of the JNI fast-accessor pcs and the fault is not on the
    memory serialization page. *)
Lemma classify_rest_redirect (os : os_variant) (env : Env) (sig : signal)
    (info : siginfo_t) (uc : ucontext_t os) (t : option Thread) (th : JavaThread)
    (stub0 stub : address) (abort : Z) :
  select_stub os env sig info th (ucontext_get_pc uc) stub0 = Some stub ->
  stub <> NULL ->
  find_slowcase_pc env (ucontext_get_pc uc) = address_minus_one ->
  sig_is SIGSEGV sig && is_memory_serialize_page env (si_addr info) = false ->
  classify_rest os env sig info uc t th stub0 abort =
    mk_result (StubRedirect stub) (Some (ucontext_set_pc uc stub))
              (Some (Java_thread (set_saved_exception_pc th (ucontext_get_pc uc)))).
Proof.
  intros Hsel Hstub Hslow Hser. unfold classify_rest. cbv zeta.
  rewrite Hsel, Hser, (jni_fast_getfield_stub_none _ _ _ _ Hslow).
  by apply finish_with_stub.
Qed.

(** The later rules leave the thread as it is, or store the faulting pc in
    it; they do not touch the guard zones. *)
Lemma classify_rest_thread (os : os_variant) (env : Env) (sig : signal)
    (info : siginfo_t) (uc : ucontext_t os) (t : option Thread) (th : JavaThread)
    (stub : address) (abort : Z) :
  thread_after (classify_rest os env sig info uc t th stub abort) = Some (Java_thread th) \/
  thread_after (classify_rest os env sig info uc t th stub abort) =
    Some (Java_thread (set_saved_exception_pc th (ucontext_get_pc uc))).
Proof.
  unfold classify_rest. cbv zeta.
  destruct (select_stub os env sig info th (ucontext_get_pc uc) stub) as [s |];
    [| by left].
  destruct (sig_is SIGSEGV sig && is_memory_serialize_page env (si_addr info));
    [by left |].
  unfold finish.
  destruct (negb (jni_fast_getfield_stub env sig (ucontext_get_pc uc) s =? NULL));
    [by right |].
  cbv zeta.
  destruct (chained_handler env os sig (Some info) (Some uc)); [by left |].
  destruct (abort =? 0); by left.
Qed.

Lemma classify_rest_guard_zone_flags (os : os_variant) (env : Env) (sig : signal)
    (info : siginfo_t) (uc : ucontext_t os) (t : option Thread) (th : JavaThread)
    (stub : address) (abort : Z) :
  exists th', thread_after (classify_rest os env sig info uc t th stub abort) =
                Some (Java_thread th') /\
              guard_zone_flags th' = guard_zone_flags th.
Proof.
  destruct (classify_rest_thread os env sig info uc t th stub abort) as [-> | ->];
    eexists; split; reflexivity.
Qed.

(** ** Guard zones: the yellow and reserved zones *)

Lemma reserved_stack_activation_for_found {os : os_variant} (env : Env)
    (uc : ucontext_t os) (addr : address) (fr : frame) :
  in_stack_reserved_zone env addr = true ->
  get_frame_at_stack_banging_point (frames env) uc = Some fr ->
  frame_sp (look_for_reserved_stack_annotated_method env fr) <> NULL ->
  reserved_stack_activation_for env uc addr =
    Some (let activation := look_for_reserved_stack_annotated_method env fr in
          if is_interpreted_frame env activation
          then wrap64 (frame_fp activation
                       + wordSize * interpreter_frame_initial_sp_offset env)
          else unextended_sp env activation).
Proof.
  intros Hres Hfr Hsp. unfold reserved_stack_activation_for.
  rewrite Hres, Hfr.
  destruct (Z.eqb_spec (frame_sp (look_for_reserved_stack_annotated_method env fr)) NULL)
    as [Heq | _]; [by destruct Hsp |].
  simpl. by destruct (is_interpreted_frame env _).
Qed.

(** C2, as stated, fails: the stack overflow stub is chosen, but a later
    block can replace it.  On macOS a thread in Java code takes a SIGSEGV in
    its yellow zone (below the reserved zone) while its pc is a JNI
    fast-accessor pc: the yellow zone is disabled, and the pc goes to the
    slow case of the accessor, not to the stack overflow stub. *)
Lemma yellow_zone_fault_at_jni_fast_accessor_pc :
  in_stack_yellow_reserved_zone (Sample.env false) 0x70002000 = true /\
  in_stack_reserved_zone (Sample.env false) 0x70002000 = false /\
  JVM_handle_bsd_signal Darwin (Sample.env false) SIGSEGV
      (Some (Sample.fault 0x70002000))
      (Some (Sample.context Darwin Sample.fast_getfield_pc 0x5804))
      (Some (Java_thread (Sample.java_thread _thread_in_Java false))) 1 =
    mk_result (StubRedirect Sample.fast_getfield_slowcase)
      (Some (Sample.context Darwin Sample.fast_getfield_slowcase 0x5804))
      (Some (Java_thread
         (set_saved_exception_pc
            (disable_stack_yellow_reserved_zone (Sample.java_thread _thread_in_Java false))
            Sample.fast_getfield_pc))) /\
  Sample.fast_getfield_slowcase <> Sample.stack_overflow_stub.
Proof. split; [| split; [| split]]; [reflexivity | reflexivity | reflexivity | discriminate]. Qed.

(** C2, amended.  A thread in [_thread_in_Java] takes a fault for which the
    stack overflow code runs (SIGSEGV; on macOS also SIGBUS), and the
    address that code tests (the fault address, on FreeBSD less the kernel's
    guard pages) is on its stack, inside the yellow/reserved zone.
    - When the address is in the reserved zone, the frame at the banging
      point is found and a reserved-stack-annotated activation is found for
      it: the reserved zone is disabled, the activation point is recorded on
      the thread, and the handler returns true with the context untouched.
    - When no such activation is found the yellow zone is disabled, the
      stack overflow stub is chosen and the later blocks run with it.  The
      pc is rewritten to the stub when none of them replaces it: the stub
      is not NULL, the pc is not a JNI fast-accessor pc, the address is not
      on the memory serialization page and, for the builds whose
      thread-state rules run after the stub is chosen (all but macOS), the
      address is not the polling page and is not an implicit null-check
      address. *)
Theorem yellow_zone_fault_in_Java (os : os_variant) (env : Env) (sig : signal)
    (info : siginfo_t) (uc : ucontext_t os) (t : option Thread) (th : JavaThread)
    (abort : Z) :
  check_crash_protection env sig t = false ->
  assert_poison_fault env sig (Some info) = false ->
  safefetch_fault env (Some uc) = None ->
  current_JavaThread env t = Some th ->
  guard_zone_signal os sig = true ->
  thread_state th = _thread_in_Java ->
  on_local_stack env (stack_fault_address os env info) = true ->
  in_stack_yellow_reserved_zone env (stack_fault_address os env info) = true ->
  let pc := ucontext_get_pc uc in
  let r := JVM_handle_bsd_signal os env sig (Some info) (Some uc) t abort in
  (os <> FreeBSD -> stack_fault_address os env info = si_addr info) /\
  (forall fr,
     in_stack_reserved_zone env (stack_fault_address os env info) = true ->
     get_frame_at_stack_banging_point (frames env) uc = Some fr ->
     frame_sp (look_for_reserved_stack_annotated_method env fr) <> NULL ->
     let activation := look_for_reserved_stack_annotated_method env fr in
     let a := if is_interpreted_frame env activation
              then wrap64 (frame_fp activation
                           + wordSize * interpreter_frame_initial_sp_offset env)
              else unextended_sp env activation in
     r = mk_result ReservedActivationResume (Some uc)
           (Some (Java_thread
                    (set_reserved_stack_activation (disable_stack_reserved_zone th) a)))) /\
  (reserved_stack_activation_for env uc (stack_fault_address os env info) = None ->
   let stub := continuation_for_implicit_exception env pc STACK_OVERFLOW in
   r = classify_rest os env sig info uc t (disable_stack_yellow_reserved_zone th) stub
         abort /\
   (exists th', thread_after r = Some (Java_thread th') /\
      stack_yellow_reserved_zone_disabled th' = true) /\
   (stub <> NULL ->
    find_slowcase_pc env pc = address_minus_one ->
    is_memory_serialize_page env (si_addr info) = false ->
    (os <> Darwin ->
     is_poll_address env (si_addr info) = false /\
     needs_explicit_null_check env (si_addr info) = true) ->
    r = mk_result (StubRedirect stub) (Some (ucontext_set_pc uc stub))
          (Some (Java_thread
                   (set_saved_exception_pc (disable_stack_yellow_reserved_zone th) pc))) /\
    (holds_pc os uc ->
     exists c', context_after r = Some c' /\ ucontext_get_pc c' = stub /\
       other_registers_equal os uc c'))).
Proof.
  intros Hcp Hap Hsf Hth Hsig Hstate Hstack Hyellow pc r. subst r pc.
  split; [apply stack_fault_address_off_FreeBSD |].
  rewrite (handler_at_classifier os env sig info uc t th abort Hcp
             (guard_zone_signal_not_ignorable os sig Hsig) Hap Hsf Hth).
  rewrite classify_unfold, Hsig. unfold handle_stack_overflow.
  rewrite Hstack, Hyellow, Hstate. simpl. split.
  - intros fr Hres Hfr Hsp.
    by rewrite (reserved_stack_activation_for_found env uc _ fr Hres Hfr Hsp).
  - intros Hnone. rewrite Hnone. split; [reflexivity |]. split.
    { destruct (classify_rest_guard_zone_flags os env sig info uc t
                  (disable_stack_yellow_reserved_zone th)
                  (continuation_for_implicit_exception env (ucontext_get_pc uc)
                     STACK_OVERFLOW) abort) as (th' & Hafter & Hflags).
      exists th'. split; [exact Hafter |].
      unfold guard_zone_flags in Hflags. by injection Hflags. }
    intros Hstub Hslow Hser Hother.
    assert (Hred : classify_rest os env sig info uc t
              (disable_stack_yellow_reserved_zone th)
              (continuation_for_implicit_exception env (ucontext_get_pc uc) STACK_OVERFLOW)
              abort =
            mk_result
              (StubRedirect (continuation_for_implicit_exception env (ucontext_get_pc uc)
                               STACK_OVERFLOW))
              (Some (ucontext_set_pc uc
                       (continuation_for_implicit_exception env (ucontext_get_pc uc)
                          STACK_OVERFLOW)))
              (Some (Java_thread
                       (set_saved_exception_pc (disable_stack_yellow_reserved_zone th)
                          (ucontext_get_pc uc))))).
    { apply classify_rest_redirect; try assumption.
      + apply guard_zone_signal_cases in Hsig.
        destruct os; simpl; unfold Apple.select_stub, Other.select_stub; simpl;
          rewrite Hstate; simpl.
        * destruct (Z.eqb_spec (continuation_for_implicit_exception env
                                  (context_pc uc) STACK_OVERFLOW) NULL)
            as [Heq | _]; [by destruct Hstub | reflexivity].
        * destruct Hother as [Hpoll Hnull]; [discriminate |].
          destruct Hsig as [-> | [[=] _]]. simpl. by rewrite Hpoll, Hnull.
        * destruct Hother as [Hpoll Hnull]; [discriminate |].
          destruct Hsig as [-> | [[=] _]]. simpl. by rewrite Hpoll, Hnull.
        * destruct Hother as [Hpoll Hnull]; [discriminate |].
          destruct Hsig as [-> | [[=] _]]. simpl. by rewrite Hpoll, Hnull.
      + rewrite Hser. by destruct (sig_is SIGSEGV sig). }
    rewrite Hred. split; [reflexivity |].
    intros Hroom. eexists. split; [reflexivity |].
    split; [by apply ucontext_get_pc_set_pc | apply other_registers_equal_set_pc].
Qed.

(** C2, amended, on the sample runtime.  macOS, SIGSEGV in the reserved zone
    from the nmethod at 0x5004 whose caller (link register 0x5804) is
    annotated: the reserved zone is disabled and the caller's sp recorded.
    OpenBSD, SIGSEGV in the yellow zone below the reserved zone: redirect to
    the stack overflow stub. *)
Lemma yellow_zone_fault_in_Java_witness :
  JVM_handle_bsd_signal Darwin (Sample.env false) SIGSEGV
      (Some (Sample.fault 0x70003800)) (Some (Sample.context Darwin 0x5004 0x5804))
      (Some (Java_thread (Sample.java_thread _thread_in_Java false))) 1 =
    mk_result ReservedActivationResume (Some (Sample.context Darwin 0x5004 0x5804))
      (Some (Java_thread
         {| thread_state := _thread_in_Java; doing_unsafe_access := false;
            stack_reserved_zone_disabled := true;
            stack_yellow_reserved_zone_disabled := false;
            stack_red_zone_disabled := false;
            reserved_stack_activation := 0x70080000;
            saved_exception_pc := NULL |})) /\
  JVM_handle_bsd_signal OpenBSD (Sample.env false) SIGSEGV
      (Some (Sample.fault 0x70002000)) (Some (Sample.context OpenBSD 0x5004 0x5804))
      (Some (Java_thread (Sample.java_thread _thread_in_Java false))) 1 =
    @mk_result OpenBSD (StubRedirect Sample.stack_overflow_stub)
      (Some {| sc_x := Sample.xregs 0x70080040; sc_lr := 0x5804; sc_sp := 0x70080000;
               sc_elr := Sample.stack_overflow_stub; sc_spsr := 0 |})
      (Some (Java_thread
         {| thread_state := _thread_in_Java; doing_unsafe_access := false;
            stack_reserved_zone_disabled := false;
            stack_yellow_reserved_zone_disabled := true;
            stack_red_zone_disabled := false;
            reserved_stack_activation := Sample.stack_base;
            saved_exception_pc := 0x5004 |})).
Proof.
  split.
  - refine (proj1 (proj2 (yellow_zone_fault_in_Java Darwin (Sample.env false) SIGSEGV
              (Sample.fault 0x70003800) (Sample.context Darwin 0x5004 0x5804)
              (Some (Java_thread (Sample.java_thread _thread_in_Java false)))
              (Sample.java_thread _thread_in_Java false) 1
              _ _ _ _ _ _ _ _))
              (mk_frame 0x70080000 0x70080040 0x5800) _ _ _);
      first [reflexivity | discriminate].
  - refine (proj1 (proj2 (proj2 (proj2 (proj2
              (yellow_zone_fault_in_Java OpenBSD (Sample.env false) SIGSEGV
              (Sample.fault 0x70002000) (Sample.context OpenBSD 0x5004 0x5804)
              (Some (Java_thread (Sample.java_thread _thread_in_Java false)))
              (Sample.java_thread _thread_in_Java false) 1
              _ _ _ _ _ _ _ _)) _)) _ _ _ _));
      first [reflexivity | discriminate | by intros _; split].
Defined.

(** ** The safepoint poll *)

(** C7, as stated, fails: a fault at the polling page is not always a
    safepoint poll.  On OpenBSD a thread in Java code takes a SIGSEGV at the
    polling page while its pc is a JNI fast-accessor pc: the poll stub is
    chosen and then replaced, and the pc goes to the slow case of the
    accessor. *)
Lemma poll_fault_at_jni_fast_accessor_pc :
  is_poll_address (Sample.env false) (si_addr (Sample.fault Sample.polling_page)) = true /\
  JVM_handle_bsd_signal OpenBSD (Sample.env false) SIGSEGV
      (Some (Sample.fault Sample.polling_page))
      (Some (Sample.context OpenBSD Sample.fast_getfield_pc 0x5804))
      (Some (Java_thread (Sample.java_thread _thread_in_Java false))) 1 =
    mk_result (StubRedirect Sample.fast_getfield_slowcase)
      (Some (Sample.context OpenBSD Sample.fast_getfield_slowcase 0x5804))
      (Some (Java_thread
         (set_saved_exception_pc (Sample.java_thread _thread_in_Java false)
            Sample.fast_getfield_pc))) /\
  Sample.fast_getfield_slowcase <> Sample.poll_stub.
Proof. split; [| split]; [reflexivity | reflexivity | discriminate]. Qed.

(** C7, amended.  A thread in [_thread_in_Java] takes a SIGSEGV (on macOS
    also a SIGBUS) whose fault address is the polling address: the pc is
    rewritten to the poll stub, unless a block outside the thread-state
    rules takes the fault or replaces the stub: the fault is in the
    yellow/reserved zone of the stack, the pc is a JNI fast-accessor pc, or
    (SIGSEGV) the address is on the memory serialization page; the poll
    stub is not NULL.  Nothing is assumed of the truncated-mapped-file rule
    ([compiled_method_at], [has_unsafe_access]) nor of the implicit null
    check ([needs_explicit_null_check]): the poll-address test comes before
    both, and a fault that also matches one of them is a safepoint poll. *)
Theorem poll_fault_in_Java (os : os_variant) (env : Env) (sig : signal)
    (info : siginfo_t) (uc : ucontext_t os) (t : option Thread) (th : JavaThread)
    (abort : Z) :
  check_crash_protection env sig t = false ->
  assert_poison_fault env sig (Some info) = false ->
  safefetch_fault env (Some uc) = None ->
  current_JavaThread env t = Some th ->
  sig = SIGSEGV \/ (os = Darwin /\ sig = SIGBUS) ->
  thread_state th = _thread_in_Java ->
  is_poll_address env (si_addr info) = true ->
  yellow_zone_fault os env sig info = false ->
  (sig = SIGSEGV -> is_memory_serialize_page env (si_addr info) = false) ->
  find_slowcase_pc env (ucontext_get_pc uc) = address_minus_one ->
  get_poll_stub env (ucontext_get_pc uc) <> NULL ->
  let stub := get_poll_stub env (ucontext_get_pc uc) in
  let r := JVM_handle_bsd_signal os env sig (Some info) (Some uc) t abort in
  outcome r = StubRedirect stub /\
  return_value (outcome r) = Some true /\
  context_after r = Some (ucontext_set_pc uc stub) /\
  (holds_pc os uc ->
   exists c', context_after r = Some c' /\ ucontext_get_pc c' = stub /\
     other_registers_equal os uc c') /\
  (exists th', thread_after r = Some (Java_thread th') /\
     saved_exception_pc th' = ucontext_get_pc uc) /\
  (on_local_stack env (stack_fault_address os env info) = false ->
   r = mk_result (StubRedirect stub) (Some (ucontext_set_pc uc stub))
         (Some (Java_thread (set_saved_exception_pc th (ucontext_get_pc uc))))).
Proof.
  intros Hcp Hap Hsf Hth Hsig Hstate Hpoll Hy Hser Hslow Hstub stub r. subst stub r.
  pose proof (proj2 (guard_zone_signal_cases os sig) Hsig) as Hguard.
  rewrite (handler_at_classifier os env sig info uc t th abort Hcp
             (guard_zone_signal_not_ignorable os sig Hguard) Hap Hsf Hth).
  assert (Hrest : forall th1, thread_state th1 = _thread_in_Java ->
    classify_rest os env sig info uc t th1 NULL abort =
      mk_result (StubRedirect (get_poll_stub env (ucontext_get_pc uc)))
        (Some (ucontext_set_pc uc (get_poll_stub env (ucontext_get_pc uc))))
        (Some (Java_thread (set_saved_exception_pc th1 (ucontext_get_pc uc))))).
  { intros th1 Hstate1. apply classify_rest_redirect; try assumption.
    - destruct os; simpl; unfold Apple.select_stub, Other.select_stub;
        rewrite Hstate1; simpl.
      + destruct Hsig as [-> | [_ ->]]; simpl; by rewrite Hpoll.
      + destruct Hsig as [-> | [[=] _]]. simpl. by rewrite Hpoll.
      + destruct Hsig as [-> | [[=] _]]. simpl. by rewrite Hpoll.
      + destruct Hsig as [-> | [[=] _]]. simpl. by rewrite Hpoll.
    - destruct Hsig as [-> | [_ ->]]; [by rewrite Hser | reflexivity]. }
  destruct (classify_outside_yellow_zone os env sig info uc t th abort Hy)
    as (th' & Hth' & Hclass).
  assert (Hstate' : thread_state th' = _thread_in_Java)
    by (by destruct Hth' as [-> | ->]).
  split; [by rewrite Hclass, Hrest |]. split; [by rewrite Hclass, Hrest |].
  split; [by rewrite Hclass, Hrest |]. split; [| split].
  - intros Hroom. rewrite Hclass, Hrest by done. eexists. split; [reflexivity |].
    split; [by apply ucontext_get_pc_set_pc | apply other_registers_equal_set_pc].
  - rewrite Hclass, Hrest by done. by eexists.
  - intros Hstack. rewrite classify_off_stack by done. by apply Hrest.
Qed.

(** C7, amended, on the sample runtime: macOS, SIGBUS at the polling page
    from the nmethod with unsafe accesses.  The truncated-mapped-file rule
    matches this fault too; the outcome is the poll stub. *)
Lemma poll_fault_in_Java_witness :
  JVM_handle_bsd_signal Darwin (Sample.env false) SIGBUS
      (Some (Sample.fault Sample.polling_page))
      (Some (Sample.context Darwin 0x5004 0x5804))
      (Some (Java_thread (Sample.java_thread _thread_in_Java false))) 1 =
    @mk_result Darwin (StubRedirect Sample.poll_stub)
      (Some {| context_x := replicate 29 0; context_fp := 0x70080040;
               context_lr := 0x5804; context_sp := 0x70080000;
               context_pc := Sample.poll_stub; context_cpsr := 0; context_esr := 0 |})
      (Some (Java_thread
         (set_saved_exception_pc (Sample.java_thread _thread_in_Java false) 0x5004))).
Proof.
  refine (proj2 (proj2 (proj2 (proj2 (proj2
            (poll_fault_in_Java Darwin (Sample.env false) SIGBUS
            (Sample.fault Sample.polling_page) (Sample.context Darwin 0x5004 0x5804)
            (Some (Java_thread (Sample.java_thread _thread_in_Java false)))
            (Sample.java_thread _thread_in_Java false) 1
            _ _ _ _ _ _ _ _ _ _ _))))) _);
    first [reflexivity | discriminate | by right].
Defined.

(** ** Unsafe access outside Java code *)

(** C5.  The code at the failing input.  On FreeBSD a thread in
    [_thread_in_native], flagged as doing an unsafe access, takes a SIGBUS
    at pc 0x5004: the pc is not rewritten and the handler ends in the fatal
    error report.  The copy for FreeBSD, OpenBSD and NetBSD tests
    [_thread_in_vm] alone (line 1139), where the macOS copy tests
    [_thread_in_vm || _thread_in_native] (lines 429-430). *)
Lemma unsafe_access_in_native_not_redirected_on_FreeBSD :
  thread_state (Sample.java_thread _thread_in_native true) = _thread_in_native /\
  doing_unsafe_access (Sample.java_thread _thread_in_native true) = true /\
  JVM_handle_bsd_signal FreeBSD (Sample.env false) SIGBUS
      (Some (Sample.fault 0x20000000)) (Some (Sample.context FreeBSD 0x5004 0x5804))
      (Some (Java_thread (Sample.java_thread _thread_in_native true))) 1 =
    mk_result (Fatal 0x5004) (Some (Sample.context FreeBSD 0x5004 0x5804))
      (Some (Java_thread (Sample.java_thread _thread_in_native true))) /\
  outcome (JVM_handle_bsd_signal FreeBSD (Sample.env false) SIGBUS
      (Some (Sample.fault 0x20000000)) (Some (Sample.context FreeBSD 0x5004 0x5804))
      (Some (Java_thread (Sample.java_thread _thread_in_native true))) 1)
    <> StubRedirect (handle_unsafe_access (Sample.env false)
                       (wrap64 (0x5004 + NativeCall_instruction_size))).
Proof. split; [| split; [| split]]; [reflexivity | reflexivity | reflexivity | discriminate]. Qed.

(** The same input on macOS is redirected to the instruction after the
    faulting one. *)
Example unsafe_access_in_native_redirected_on_Darwin :
  outcome (JVM_handle_bsd_signal Darwin (Sample.env false) SIGBUS
      (Some (Sample.fault 0x20000000)) (Some (Sample.context Darwin 0x5004 0x5804))
      (Some (Java_thread (Sample.java_thread _thread_in_native true))) 1)
    = StubRedirect 0x5008.
Proof. reflexivity. Qed.

(** The stack overflow code leaves a SIGBUS alone when it does not run for
    it, or when the fault address is not on the thread's stack. *)
Lemma bus_fault_off_stack (os : os_variant) (env : Env) (info : siginfo_t)
    (uc : ucontext_t os) (t : option Thread) (th : JavaThread) :
  (os = Darwin -> on_local_stack env (si_addr info) = false) ->
  (if guard_zone_signal os SIGBUS
   then handle_stack_overflow env uc t th (ucontext_get_pc uc)
                              (stack_fault_address os env info)
   else Continue th NULL) = Continue th NULL.
Proof.
  intros Hstack. destruct os; try reflexivity.
  simpl. unfold handle_stack_overflow. by rewrite Hstack.
Qed.

(** X22.  A SIGBUS taken while the thread is flagged as doing an unsafe
    access rewrites the pc to [handle_unsafe_access] of the faulting pc plus
    one [NativeCall::instruction_size], when the thread is in
    [_thread_in_vm] on every build, and when it is in [_thread_in_native] on
    macOS.  The invocation reaches the classifier; on macOS, where the
    stack overflow code also runs for SIGBUS, the fault address is not on
    the thread's stack; the pc is not a JNI fast-accessor pc; the
    continuation is not NULL. *)
Theorem unsafe_access_bus_fault (os : os_variant) (env : Env) (info : siginfo_t)
    (uc : ucontext_t os) (t : option Thread) (th : JavaThread) (abort : Z) :
  check_crash_protection env SIGBUS t = false ->
  assert_poison_fault env SIGBUS (Some info) = false ->
  safefetch_fault env (Some uc) = None ->
  current_JavaThread env t = Some th ->
  doing_unsafe_access th = true ->
  thread_state th = _thread_in_vm \/
  (os = Darwin /\ thread_state th = _thread_in_native) ->
  (os = Darwin -> on_local_stack env (si_addr info) = false) ->
  find_slowcase_pc env (ucontext_get_pc uc) = address_minus_one ->
  let pc := ucontext_get_pc uc in
  let next_pc := wrap64 (pc + NativeCall_instruction_size) in
  handle_unsafe_access env next_pc <> NULL ->
  JVM_handle_bsd_signal os env SIGBUS (Some info) (Some uc) t abort =
    mk_result (StubRedirect (handle_unsafe_access env next_pc))
      (Some (ucontext_set_pc uc (handle_unsafe_access env next_pc)))
      (Some (Java_thread (set_saved_exception_pc th pc))).
Proof.
  intros Hcp Hap Hsf Hth Hunsafe Hstate Hstack Hslow pc next_pc Hstub.
  subst next_pc pc.
  rewrite (handler_at_classifier os env SIGBUS info uc t th abort Hcp eq_refl Hap Hsf Hth).
  rewrite classify_unfold, (bus_fault_off_stack os env info uc t th Hstack).
  apply classify_rest_redirect; try assumption; [| reflexivity].
  destruct os; simpl; unfold Apple.select_stub, Other.select_stub.
  - destruct Hstate as [-> | [_ ->]]; simpl; by rewrite Hunsafe.
  - destruct Hstate as [-> | [[=] _]]. simpl. by rewrite Hunsafe.
  - destruct Hstate as [-> | [[=] _]]. simpl. by rewrite Hunsafe.
  - destruct Hstate as [-> | [[=] _]]. simpl. by rewrite Hunsafe.
Qed.

(** X22 on the sample runtime: NetBSD, thread in [_thread_in_vm]. *)
Lemma unsafe_access_bus_fault_witness :
  JVM_handle_bsd_signal NetBSD (Sample.env false) SIGBUS
      (Some (Sample.fault 0x20000000)) (Some (Sample.context NetBSD 0x5004 0x5804))
      (Some (Java_thread (Sample.java_thread _thread_in_vm true))) 1 =
    mk_result (StubRedirect 0x5008) (Some (Sample.context NetBSD 0x5008 0x5804))
      (Some (Java_thread
         (set_saved_exception_pc (Sample.java_thread _thread_in_vm true) 0x5004))).
Proof.
  refine (unsafe_access_bus_fault NetBSD (Sample.env false)
            (Sample.fault 0x20000000) (Sample.context NetBSD 0x5004 0x5804)
            (Some (Java_thread (Sample.java_thread _thread_in_vm true)))
            (Sample.java_thread _thread_in_vm true) 1
            _ _ _ _ _ _ _ _ _);
    first [reflexivity | discriminate | by left].
Defined.

(** What the FreeBSD, OpenBSD and NetBSD copy does with the same fault on a
    thread in [_thread_in_native]: its rule (lines 1139-1144) tests
    [_thread_in_vm] alone, no stub is chosen, and the handler ends with the
    chained handler, [false] or the fatal error report. *)
Lemma unsafe_access_in_native_off_Darwin (os : os_variant) (env : Env)
    (info : siginfo_t) (uc : ucontext_t os) (t : option Thread) (th : JavaThread)
    (abort : Z) :
  check_crash_protection env SIGBUS t = false ->
  assert_poison_fault env SIGBUS (Some info) = false ->
  safefetch_fault env (Some uc) = None ->
  current_JavaThread env t = Some th ->
  find_slowcase_pc env (ucontext_get_pc uc) = address_minus_one ->
  os <> Darwin ->
  thread_state th = _thread_in_native ->
  let r := JVM_handle_bsd_signal os env SIGBUS (Some info) (Some uc) t abort in
  thread_after r = Some (Java_thread th) /\
  context_after r = Some (chained_handler_context env os SIGBUS (Some info) uc) /\
  (forall stub, outcome r <> StubRedirect stub) /\
  (outcome r = Chained \/ outcome r = Unrecognized \/ exists pc, outcome r = Fatal pc).
Proof.
  intros Hcp Hap Hsf Hth Hslow Hos Hstate r. subst r.
  rewrite (handler_at_classifier os env SIGBUS info uc t th abort Hcp eq_refl Hap Hsf Hth).
  rewrite classify_unfold, bus_fault_off_stack by (intros ->; by destruct Hos).
  assert (Hrest : classify_rest os env SIGBUS info uc t th NULL abort =
                  finish env SIGBUS (Some info) (Some uc) t (Some th) NULL
                    (ucontext_get_pc uc) abort).
  { destruct os; [by destruct Hos | | |]; simpl;
      unfold classify_rest, select_stub, Other.select_stub; rewrite Hstate; simpl;
      by rewrite (jni_fast_getfield_stub_none _ _ _ _ Hslow). }
  rewrite Hrest, finish_without_stub.
  destruct (chained_handler env os SIGBUS (Some info) (Some uc));
    [| destruct (abort =? 0)]; simpl;
    (split; [reflexivity |]); (split; [reflexivity |]); (split; [discriminate |]).
  - by left.
  - right; by left.
  - right; right. by eexists.
Qed.

(** ** Guard zones: the red zone *)

(** On a SIGSEGV at an address that is not the polling page and needs an
    explicit null check, the thread-state rules choose no stub. *)
Lemma select_stub_stack_segv (os : os_variant) (env : Env) (info : siginfo_t)
    (th : JavaThread) (pc : address) :
  is_poll_address env (si_addr info) = false ->
  needs_explicit_null_check env (si_addr info) = true ->
  select_stub os env SIGSEGV info th pc NULL = Some NULL.
Proof.
  intros Hpoll Hnull.
  destruct os; simpl; unfold Apple.select_stub, Other.select_stub; simpl;
    rewrite Hpoll, Hnull; by destruct (thread_state th).
Qed.

(** C3, as stated, fails: a SIGSEGV in the red zone of a thread whose yellow
    zone is already disabled disables the red zone, and then ends in [false]
    when the caller passed [abort_if_unrecognized = 0], and with the chained
    handler when one takes the signal; neither is the fatal error report. *)
Lemma red_zone_fault_not_always_fatal :
  JVM_handle_bsd_signal Darwin (Sample.env false) SIGSEGV
      (Some (Sample.fault 0x70000800)) (Some (Sample.context Darwin 0x5004 0x5804))
      (Some (Java_thread
         (disable_stack_yellow_reserved_zone (Sample.java_thread _thread_in_Java false))))
      0 =
    mk_result Unrecognized (Some (Sample.context Darwin 0x5004 0x5804))
      (Some (Java_thread
         (disable_stack_red_zone
            (disable_stack_yellow_reserved_zone
               (Sample.java_thread _thread_in_Java false))))) /\
  JVM_handle_bsd_signal Darwin (Sample.env true) SIGSEGV
      (Some (Sample.fault 0x70000800)) (Some (Sample.context Darwin 0x5004 0x5804))
      (Some (Java_thread
         (disable_stack_yellow_reserved_zone (Sample.java_thread _thread_in_Java false))))
      1 =
    mk_result Chained (Some (Sample.context Darwin 0x5004 0x5804))
      (Some (Java_thread
         (disable_stack_red_zone
            (disable_stack_yellow_reserved_zone
               (Sample.java_thread _thread_in_Java false))))) /\
  in_stack_red_zone (Sample.env false) 0x70000800 = true /\
  in_stack_yellow_reserved_zone (Sample.env false) 0x70000800 = false.
Proof. repeat split. Qed.

(** C3, amended.  A fault for which the stack overflow code runs (SIGSEGV;
    on macOS also SIGBUS), where the address that code tests (the fault
    address; on FreeBSD the fault address less the kernel's guard pages when
    that compensation applies) is on the thread's stack, in the red zone and
    not in the yellow/reserved zone: the handler disables the red zone,
    chooses no stub there and goes on through the later rules with the red
    zone disabled.  For a SIGSEGV that none of them takes (the address is
    not the polling page, not an implicit null-check address and not on the
    memory serialization page, the pc is not a JNI fast-accessor pc), the
    handler ends with the chained handler when it takes the signal, else in
    [false] when [abort_if_unrecognized] is 0, else in the fatal error
    report; the handler does not rewrite the pc, the context is as the
    chained handler leaves it. *)
Theorem red_zone_fault (os : os_variant) (env : Env) (sig : signal)
    (info : siginfo_t) (uc : ucontext_t os) (t : option Thread) (th : JavaThread)
    (abort : Z) :
  check_crash_protection env sig t = false ->
  assert_poison_fault env sig (Some info) = false ->
  safefetch_fault env (Some uc) = None ->
  current_JavaThread env t = Some th ->
  guard_zone_signal os sig = true ->
  on_local_stack env (stack_fault_address os env info) = true ->
  in_stack_yellow_reserved_zone env (stack_fault_address os env info) = false ->
  in_stack_red_zone env (stack_fault_address os env info) = true ->
  let r := JVM_handle_bsd_signal os env sig (Some info) (Some uc) t abort in
  (os <> FreeBSD -> stack_fault_address os env info = si_addr info) /\
  (os = FreeBSD ->
   stack_fault_address os env info =
     if ((procctl_stackgap_status env).1 =? -1)
        || (Z.land (procctl_stackgap_status env).2 PROC_STACKGAP_DISABLE =? 0)
     then match sysctl_stack_guard_page env with
          | Some guard_pages =>
              if 0 <? guard_pages
              then wrap64 (si_addr info - int32 (guard_pages * vm_page_size env))
              else si_addr info
          | None => si_addr info
          end
     else si_addr info) /\
  r = classify_rest os env sig info uc t (disable_stack_red_zone th) NULL abort /\
  (exists th', thread_after r = Some (Java_thread th') /\
               stack_red_zone_disabled th' = true) /\
  (sig = SIGSEGV ->
   is_poll_address env (si_addr info) = false ->
   needs_explicit_null_check env (si_addr info) = true ->
   is_memory_serialize_page env (si_addr info) = false ->
   find_slowcase_pc env (ucontext_get_pc uc) = address_minus_one ->
   let uc' := chained_handler_context env os sig (Some info) uc in
   r = mk_result (if chained_handler env os sig (Some info) (Some uc) then Chained
                  else if abort =? 0 then Unrecognized
                  else Fatal (if ucontext_get_pc uc =? NULL then ucontext_get_pc uc'
                              else ucontext_get_pc uc))
         (Some uc') (Some (Java_thread (disable_stack_red_zone th)))).
Proof.
  intros Hcp Hap Hsf Hth Hsig Hstack Hyellow Hred r.
  split; [apply stack_fault_address_off_FreeBSD |].
  split; [intros ->; apply stack_fault_address_FreeBSD |].
  assert (Hr : r = classify_rest os env sig info uc t (disable_stack_red_zone th) NULL abort).
  { subst r.
    rewrite (handler_at_classifier os env sig info uc t th abort Hcp
               (guard_zone_signal_not_ignorable os sig Hsig) Hap Hsf Hth).
    rewrite classify_unfold, Hsig. unfold handle_stack_overflow.
    by rewrite Hstack, Hyellow, Hred. }
  split; [exact Hr |]. rewrite Hr. split.
  - destruct (classify_rest_guard_zone_flags os env sig info uc t
                (disable_stack_red_zone th) NULL abort) as (th' & Hafter & Hflags).
    exists th'. split; [exact Hafter |].
    unfold guard_zone_flags in Hflags. by injection Hflags.
  - intros -> Hpoll Hnull Hser Hslow uc'. subst uc'.
    unfold classify_rest. cbv zeta.
    rewrite (select_stub_stack_segv os env info _ _ Hpoll Hnull), Hser,
      (jni_fast_getfield_stub_none _ _ _ _ Hslow).
    cbv beta iota. rewrite andb_false_r, finish_without_stub.
    destruct (chained_handler env os SIGSEGV (Some info) (Some uc)); [reflexivity |].
    destruct (abort =? 0); reflexivity.
Qed.

(** C3, amended, on the sample runtime: FreeBSD, SIGSEGV in the red zone,
    no chained handler, [abort_if_unrecognized = 1]. *)
Lemma red_zone_fault_witness :
  JVM_handle_bsd_signal FreeBSD (Sample.env false) SIGSEGV
      (Some (Sample.fault 0x70000800)) (Some (Sample.context FreeBSD 0x5004 0x5804))
      (Some (Java_thread (Sample.java_thread _thread_in_Java false))) 1 =
    mk_result (Fatal 0x5004) (Some (Sample.context FreeBSD 0x5004 0x5804))
      (Some (Java_thread
         (disable_stack_red_zone (Sample.java_thread _thread_in_Java false)))).
Proof.
  refine (proj2 (proj2 (proj2 (proj2 (red_zone_fault FreeBSD (Sample.env false) SIGSEGV
            (Sample.fault 0x70000800) (Sample.context FreeBSD 0x5004 0x5804)
            (Some (Java_thread (Sample.java_thread _thread_in_Java false)))
            (Sample.java_thread _thread_in_Java false) 1
            _ _ _ _ _ _ _ _)))) _ _ _ _ _);
    reflexivity.
Defined.

(** ** Which faults reach the guard zones *)

(** C6, as stated, fails on OpenBSD: a SIGBUS at a yellow-zone address of the
    stack of a thread in Java code is not given to the guard-zone code.  The
    yellow zone stays enabled and the fault is taken by a later rule, the
    truncated-mapped-file rule, which sends the pc to the next instruction.
    On macOS the same fault disables the yellow zone and goes to the stack
    overflow stub. *)
Lemma bus_fault_in_yellow_zone_skips_guard_zones_on_OpenBSD :
  on_local_stack (Sample.env false) 0x70002000 = true /\
  in_stack_yellow_reserved_zone (Sample.env false) 0x70002000 = true /\
  JVM_handle_bsd_signal OpenBSD (Sample.env false) SIGBUS
      (Some (Sample.fault 0x70002000)) (Some (Sample.context OpenBSD 0x5004 0x5804))
      (Some (Java_thread (Sample.java_thread _thread_in_Java false))) 1 =
    mk_result (StubRedirect 0x5008) (Some (Sample.context OpenBSD 0x5008 0x5804))
      (Some (Java_thread
         {| thread_state := _thread_in_Java; doing_unsafe_access := false;
            stack_reserved_zone_disabled := false;
            stack_yellow_reserved_zone_disabled := false;
            stack_red_zone_disabled := false;
            reserved_stack_activation := Sample.stack_base;
            saved_exception_pc := 0x5004 |})) /\
  JVM_handle_bsd_signal Darwin (Sample.env false) SIGBUS
      (Some (Sample.fault 0x70002000)) (Some (Sample.context Darwin 0x5004 0x5804))
      (Some (Java_thread (Sample.java_thread _thread_in_Java false))) 1 =
    mk_result (StubRedirect Sample.stack_overflow_stub)
      (Some (Sample.context Darwin Sample.stack_overflow_stub 0x5804))
      (Some (Java_thread
         {| thread_state := _thread_in_Java; doing_unsafe_access := false;
            stack_reserved_zone_disabled := false;
            stack_yellow_reserved_zone_disabled := true;
            stack_red_zone_disabled := false;
            reserved_stack_activation := Sample.stack_base;
            saved_exception_pc := 0x5004 |})).
Proof. repeat split. Qed.

(** What the stack overflow code does to the guard zones of a thread, for an
    address on the stack. *)
Lemma handle_stack_overflow_zones {os : os_variant} (env : Env) (uc : ucontext_t os)
    (t : option Thread) (th : JavaThread) (pc addr : address) :
  on_local_stack env addr = true ->
  match handle_stack_overflow env uc t th pc addr with
  | Done r =>
      in_stack_yellow_reserved_zone env addr = true /\
      (outcome r = ReservedActivationResume \/ outcome r = YellowZoneResume) /\
      exists th', thread_after r = Some (Java_thread th') /\
        (stack_reserved_zone_disabled th' = true \/
         stack_yellow_reserved_zone_disabled th' = true)
  | Continue th' stub =>
      (in_stack_yellow_reserved_zone env addr = true ->
       stack_yellow_reserved_zone_disabled th' = true) /\
      (in_stack_yellow_reserved_zone env addr = false ->
       in_stack_red_zone env addr = true -> stack_red_zone_disabled th' = true)
  end.
Proof.
  intros Hstack. unfold handle_stack_overflow. rewrite Hstack.
  destruct (in_stack_yellow_reserved_zone env addr).
  - destruct (state_is _thread_in_Java (thread_state th)).
    + destruct (reserved_stack_activation_for env uc addr); simpl.
      * split; [reflexivity |]. split; [by left |]. eexists. split; [reflexivity |].
        by left.
      * by split.
    + simpl. split; [reflexivity |]. split; [by right |]. eexists.
      split; [reflexivity |]. by right.
  - destruct (in_stack_red_zone env addr); by split.
Qed.

(** C6, amended.  The stack overflow code runs for every SIGSEGV for which
    the address it tests lies on the thread's stack, on every build, and for
    a SIGBUS on macOS only: a fault in the yellow/reserved zone leaves the
    thread with the reserved or the yellow zone disabled, a fault in the red
    zone alone leaves it with the red zone disabled.  The address tested is
    the fault address; on FreeBSD it is the fault address less
    [guard_pages * os::vm_page_size()], an [int] product, when
    [procctl(PROC_STACKGAP_STATUS)] fails or does not report the gap
    disabled and the sysctl [security.bsd.stack_guard_page] gives a positive
    number of pages.  On FreeBSD, OpenBSD and NetBSD a SIGBUS at a stack
    address is passed to the later rules as it is: the guard zones are left
    as they were, and the outcome is neither of the two guard-zone
    resumes. *)
Theorem guard_zone_code_signals (os : os_variant) (env : Env) (sig : signal)
    (info : siginfo_t) (uc : ucontext_t os) (t : option Thread) (th : JavaThread)
    (abort : Z) :
  check_crash_protection env sig t = false ->
  assert_poison_fault env sig (Some info) = false ->
  safefetch_fault env (Some uc) = None ->
  current_JavaThread env t = Some th ->
  on_local_stack env (stack_fault_address os env info) = true ->
  let addr := stack_fault_address os env info in
  let r := JVM_handle_bsd_signal os env sig (Some info) (Some uc) t abort in
  (os <> FreeBSD -> addr = si_addr info) /\
  (os = FreeBSD ->
   addr =
     if ((procctl_stackgap_status env).1 =? -1)
        || (Z.land (procctl_stackgap_status env).2 PROC_STACKGAP_DISABLE =? 0)
     then match sysctl_stack_guard_page env with
          | Some guard_pages =>
              if 0 <? guard_pages
              then wrap64 (si_addr info - int32 (guard_pages * vm_page_size env))
              else si_addr info
          | None => si_addr info
          end
     else si_addr info) /\
  (sig = SIGSEGV \/ (os = Darwin /\ sig = SIGBUS) ->
   exists th', thread_after r = Some (Java_thread th') /\
     (in_stack_yellow_reserved_zone env addr = true ->
      stack_reserved_zone_disabled th' = true \/
      stack_yellow_reserved_zone_disabled th' = true) /\
     (in_stack_yellow_reserved_zone env addr = false ->
      in_stack_red_zone env addr = true -> stack_red_zone_disabled th' = true)) /\
  (os <> Darwin -> sig = SIGBUS ->
   r = classify_rest os env sig info uc t th NULL abort /\
   outcome r <> ReservedActivationResume /\ outcome r <> YellowZoneResume /\
   exists th', thread_after r = Some (Java_thread th') /\
     guard_zone_flags th' = guard_zone_flags th).
Proof.
  intros Hcp Hap Hsf Hth Hstack addr r. subst addr.
  split; [apply stack_fault_address_off_FreeBSD |].
  split; [intros ->; apply stack_fault_address_FreeBSD |].
  split.
  - intros Hsig. apply guard_zone_signal_cases in Hsig. subst r.
    rewrite (handler_at_classifier os env sig info uc t th abort Hcp
               (guard_zone_signal_not_ignorable os sig Hsig) Hap Hsf Hth).
    rewrite classify_unfold, Hsig.
    pose proof (handle_stack_overflow_zones env uc t th (ucontext_get_pc uc)
                  (stack_fault_address os env info) Hstack) as Hzones.
    destruct (handle_stack_overflow env uc t th (ucontext_get_pc uc)
                (stack_fault_address os env info)) as [r | th1 stub].
    + destruct Hzones as (Hyellow & _ & th' & Hafter & Hdis).
      exists th'. split; [exact Hafter |]. split; [by intros _ |].
      intros Hno. congruence.
    + destruct Hzones as [Hy Hr].
      destruct (classify_rest_guard_zone_flags os env sig info uc t th1 stub abort)
        as (th' & Hafter & Hflags).
      exists th'. split; [exact Hafter |].
      unfold guard_zone_flags in Hflags. injection Hflags as Hf1 Hf2 Hf3.
      split.
      * intros Hyellow. right. rewrite Hf2. by apply Hy.
      * intros Hnoyellow Hred. rewrite Hf3. by apply Hr.
  - intros Hos ->.
    assert (Hr : r = classify_rest os env SIGBUS info uc t th NULL abort).
    { subst r.
      rewrite (handler_at_classifier os env SIGBUS info uc t th abort Hcp eq_refl
                 Hap Hsf Hth).
      rewrite classify_unfold. by destruct os; [destruct Hos | | |]. }
    split; [exact Hr |]. rewrite Hr.
    assert (Hout : forall o, o = ReservedActivationResume \/ o = YellowZoneResume ->
              outcome (classify_rest os env SIGBUS info uc t th NULL abort) <> o).
    { intros o Ho. unfold classify_rest. cbv zeta.
      destruct (select_stub os env SIGBUS info th (ucontext_get_pc uc) NULL) as [s |];
        [| by destruct Ho as [-> | ->]].
      simpl. unfold finish.
      destruct (negb (jni_fast_getfield_stub env SIGBUS (ucontext_get_pc uc) s =? NULL));
        [by destruct Ho as [-> | ->] |].
      cbv zeta.
      destruct (chained_handler env os SIGBUS (Some info) (Some uc));
        [by destruct Ho as [-> | ->] |].
      destruct (abort =? 0); by destruct Ho as [-> | ->]. }
    split; [apply Hout; by left |]. split; [apply Hout; by right |].
    apply classify_rest_guard_zone_flags.
Qed.

(** C6, amended, on the sample runtime.  FreeBSD with the kernel's stack gap
    in force, SIGSEGV of a thread in native code one page above the yellow
    zone: the address tested is one page lower, in the yellow zone, and the
    yellow zone ends up disabled.  NetBSD, SIGSEGV in the yellow zone: the
    same. *)
Lemma guard_zone_code_signals_witness :
  in_stack_yellow_reserved_zone Sample.stackgap_env 0x70005000 = false /\
  stack_fault_address FreeBSD Sample.stackgap_env (Sample.fault 0x70005000) = 0x70004000 /\
  (exists th',
    thread_after (JVM_handle_bsd_signal FreeBSD Sample.stackgap_env SIGSEGV
        (Some (Sample.fault 0x70005000)) (Some (Sample.context FreeBSD 0x3000 0x5804))
        (Some (Java_thread (Sample.java_thread _thread_in_native false))) 1) =
      Some (Java_thread th') /\
    stack_yellow_reserved_zone_disabled th' = true) /\
  (exists th',
    thread_after (JVM_handle_bsd_signal NetBSD (Sample.env false) SIGSEGV
        (Some (Sample.fault 0x70002000)) (Some (Sample.context NetBSD 0x3000 0x5804))
        (Some (Java_thread (Sample.java_thread _thread_in_native false))) 1) =
      Some (Java_thread th') /\
    stack_yellow_reserved_zone_disabled th' = true).
Proof.
  split; [reflexivity |].
  pose proof (guard_zone_code_signals FreeBSD Sample.stackgap_env SIGSEGV
                (Sample.fault 0x70005000) (Sample.context FreeBSD 0x3000 0x5804)
                (Some (Java_thread (Sample.java_thread _thread_in_native false)))
                (Sample.java_thread _thread_in_native false) 1
                eq_refl eq_refl eq_refl eq_refl eq_refl) as (_ & Haddr & Hzones & _).
  split; [exact (Haddr eq_refl) |]. split.
  - destruct (Hzones (or_introl eq_refl)) as (th' & Hafter & Hyellow & _).
    exists th'. split; [exact Hafter |].
    injection Hafter as <-. reflexivity.
  - destruct (proj1 (proj2 (proj2 (guard_zone_code_signals NetBSD (Sample.env false) SIGSEGV
                (Sample.fault 0x70002000) (Sample.context NetBSD 0x3000 0x5804)
                (Some (Java_thread (Sample.java_thread _thread_in_native false)))
                (Sample.java_thread _thread_in_native false) 1
                eq_refl eq_refl eq_refl eq_refl eq_refl))) (or_introl eq_refl))
      as (th' & Hafter & Hyellow & _).
    exists th'. split; [exact Hafter |].
    injection Hafter as <-. reflexivity.
Defined.

(** ** The pipeline and its priority order *)

Lemma finish_classification {os : os_variant} (env : Env) (sig : signal)
    (info : option siginfo_t) (uc : ucontext_t os) (t : option Thread)
    (thread : option JavaThread) (stub pc : address) (abort : Z) :
  classification (outcome (finish env sig info (Some uc) t thread stub pc abort)) =
    Some (redirect_or_tail env sig info (Some uc) abort stub).
Proof.
  unfold finish, redirect_or_tail, tail_classification.
  destruct (negb (stub =? NULL)); [reflexivity |]. cbv zeta.
  destruct (chained_handler env os sig info (Some uc)); [reflexivity |].
  by destruct (abort =? 0).
Qed.

(** Case analysis on the conditions of the handler and of the rules: the
    innermost condition of the goal is split, a negation is split on what it
    negates. *)
Ltac condition_atom b :=
  lazymatch b with
  | negb ?c => condition_atom c
  | _ => constr:(b)
  end.

Ltac case_if :=
  match goal with
  | |- context [if ?b then _ else _] =>
      lazymatch b with
      | context [if _ then _ else _] => fail
      | context [match _ with _ => _ end] => fail
      | _ => let c := condition_atom b in destruct c eqn:?
      end
  | |- context [match ?b with _ => _ end] =>
      lazymatch b with
      | context [if _ then _ else _] => fail
      | context [match _ with _ => _ end] => fail
      | _ => destruct b eqn:?
      end
  end.

(** Reduction that keeps the runtime's answers and the addresses as they
    are written. *)
Ltac norm :=
  cbn -[Z.eqb address_minus_one wrap64 safefetch_fault current_JavaThread
        stack_fault_address reserved_stack_activation_for compiled_method_at
        ucontext_get_pc NULL finish ucontext_t].

(** The classifier is the first-match evaluation of [code_order], by cases
    on the build, the signal, the thread state and every condition tested. *)
Lemma classify_first_match (os : os_variant) (env : Env) (sig : signal)
    (info : siginfo_t) (uc : ucontext_t os) (t : option Thread) (th : JavaThread)
    (abort : Z) :
  sig_is SIGPIPE sig || sig_is SIGXFSZ sig = false ->
  safefetch_fault env (Some uc) = None ->
  current_JavaThread env t = Some th ->
  classification (outcome (classify os env sig info uc t th abort)) =
    first_match env (mk_delivery sig (Some info) (Some uc) t abort) (code_order os).
Proof.
  intros Hign Hsf Hth. rewrite classify_unfold.
  unfold code_order, thread_state_rules.
  unfold classify_rest, handle_stack_overflow.
  destruct th as [st unsafe zr zy zred actv spc].
  destruct os, sig; try discriminate Hign; norm; rewrite ?Hsf, ?Hth; norm;
  unfold fault_rule_matches, rule_stub,
    Apple.select_stub, Other.select_stub, jni_fast_getfield_stub,
    method_has_unsafe_access, disable_stack_red_zone,
    disable_stack_yellow_reserved_zone, has_value;
  norm.
  all: destruct st; norm; rewrite ?Z.eqb_refl; norm;
    repeat (case_if; norm;
            rewrite ?Z.eqb_refl, ?Hsf, ?Hth, ?(finish_classification (os:=Darwin)),
              ?(finish_classification (os:=FreeBSD)),
              ?(finish_classification (os:=OpenBSD)),
              ?(finish_classification (os:=NetBSD));
            unfold redirect_or_tail, tail_classification; norm;
            rewrite ?Z.eqb_refl; norm;
            try reflexivity; try congruence).
Qed.

Lemma first_match_hit {os : os_variant} (env : Env) (d : Delivery os) (r : rule)
    (rules : list rule) :
  rule_matches env d r = true ->
  first_match env d (r :: rules) = Some (rule_action env d r).
Proof. intros H. simpl. by rewrite H. Qed.

Lemma first_match_skip {os : os_variant} (env : Env) (d : Delivery os) (r : rule)
    (rules : list rule) :
  rule_matches env d r = false ->
  first_match env d (r :: rules) = first_match env d rules.
Proof. intros H. simpl. by rewrite H. Qed.

(** The handler is the first-match evaluation of [code_order]. *)
Lemma handler_first_match (os : os_variant) (env : Env) (d : Delivery os) :
  check_crash_protection env (d_sig d) (d_thread d) = false ->
  assert_poison_fault env (d_sig d) (d_info d) = false ->
  classification (outcome (deliver env d)) = first_match env d (code_order os).
Proof.
  destruct d as [sig info uc t abort]. unfold deliver.
  cbn [d_sig d_info d_uc d_thread d_abort]. intros Hcp Hap.
  destruct (sig_is SIGPIPE sig || sig_is SIGXFSZ sig) eqn:Hign.
  { rewrite handler_ignorable by assumption.
    unfold code_order. cbn [app]. by rewrite first_match_hit. }
  rewrite handler_after_filters by assumption.
  destruct (safefetch_fault env uc) as [uc' |] eqn:Hsf.
  { unfold code_order. cbn [app].
    rewrite first_match_skip by exact Hign.
    rewrite first_match_hit; [reflexivity |].
    cbn [rule_matches d_uc]. by rewrite Hsf. }
  destruct info as [info |], uc as [uc |],
    (current_JavaThread env t) as [th |] eqn:Hth;
    try (by apply classify_first_match).
  all: rewrite finish_without_stub;
    unfold code_order, thread_state_rules; destruct os;
    cbn [first_match rule_matches rule_action app is_darwin
         d_sig d_info d_uc d_thread d_abort];
    rewrite ?Hign, ?Hsf, ?Hth; cbn [has_value];
    destruct (chained_handler env _ sig _ _); try reflexivity;
    by destruct (abort =? 0).
Qed.

(** Where the two orders part: the stack overflow redirect and the resume
    of a thread outside Java code never match together. *)
Lemma stack_overflow_not_outside_Java {os : os_variant} (env : Env) (d : Delivery os) :
  rule_matches env d R_stack_overflow = true ->
  rule_matches env d R_yellow_outside_Java = false.
Proof.
  unfold rule_matches, fault_rule_matches.
  destruct (d_info d), (d_uc d), (current_JavaThread env (d_thread d)); try discriminate.
  destruct (state_is _thread_in_Java (thread_state j)).
  - intros _. by rewrite andb_false_r.
  - by rewrite andb_false_r.
Qed.

(** C4, as stated, fails.  On macOS, a thread in Java code takes a SIGSEGV at
    the polling page while its pc is a JNI fast-accessor pc: the earliest
    matching rule of the spec's order is the safepoint poll (4b), the handler
    redirects to the slow case of the accessor (rule 6), which replaced the
    poll stub.  And a SIGSEGV in the red zone with [abort_if_unrecognized = 0]:
    the earliest matching rule is the red zone (fatal), the handler returns
    [false] (rule 9). *)
Lemma first_match_in_spec_order_fails :
  first_match (Sample.env false)
      (@mk_delivery Darwin SIGSEGV (Some (Sample.fault Sample.polling_page))
         (Some (Sample.context Darwin Sample.fast_getfield_pc 0x5804))
         (Some (Java_thread (Sample.java_thread _thread_in_Java false))) 1)
      spec_order = Some (RedirectTo Sample.poll_stub) /\
  classification (outcome (deliver (Sample.env false)
      (@mk_delivery Darwin SIGSEGV (Some (Sample.fault Sample.polling_page))
         (Some (Sample.context Darwin Sample.fast_getfield_pc 0x5804))
         (Some (Java_thread (Sample.java_thread _thread_in_Java false))) 1)))
    = Some (RedirectTo Sample.fast_getfield_slowcase) /\
  first_match (Sample.env false)
      (@mk_delivery Darwin SIGSEGV (Some (Sample.fault 0x70000800))
         (Some (Sample.context Darwin 0x5004 0x5804))
         (Some (Java_thread (Sample.java_thread _thread_in_Java false))) 0)
      spec_order = Some FatalError /\
  classification (outcome (deliver (Sample.env false)
      (@mk_delivery Darwin SIGSEGV (Some (Sample.fault 0x70000800))
         (Some (Sample.context Darwin 0x5004 0x5804))
         (Some (Java_thread (Sample.java_thread _thread_in_Java false))) 0)))
    = Some Unhandled.
Proof. repeat split. Qed.

(** C4, amended.  For every delivery that reaches the pipeline, the
    classification of the handler is that of the earliest matching rule of a
    fixed priority order, [code_order]: the ignorable signals, SafeFetch, the
    two guard-zone resumes, then the serialization page (rule 7) and the JNI
    fast-accessor slow case (rule 6), then the stack overflow redirect and
    the thread-state rules (4a-4e, 5), the redirect first on macOS and last
    on FreeBSD, OpenBSD and NetBSD, then the chained handler, [false] and
    the fatal error.  A redirecting rule whose stub is NULL hands over to
    the tail (rules 8-10), and the red zone is no rule of the order.  The
    order of the spec gives the same classification whenever the red-zone
    rule, rule 6 and rule 7 do not match and, off macOS, no thread-state
    rule matches together with the stack overflow redirect. *)
Theorem handler_first_match_in_code_order (os : os_variant) (env : Env)
    (d : Delivery os) :
  check_crash_protection env (d_sig d) (d_thread d) = false ->
  assert_poison_fault env (d_sig d) (d_info d) = false ->
  classification (outcome (deliver env d)) = first_match env d (code_order os) /\
  (rule_matches env d R_red_zone = false ->
   rule_matches env d R_jni_slowcase = false ->
   rule_matches env d R_serialize_page = false ->
   (os <> Darwin -> rule_matches env d R_stack_overflow = true ->
    forall r, In r thread_state_rules -> rule_matches env d r = false) ->
   classification (outcome (deliver env d)) = first_match env d spec_order).
Proof.
  intros Hcp Hap.
  pose proof (handler_first_match os env d Hcp Hap) as Hcode.
  split; [exact Hcode |].
  intros Hred Hjni Hser Hother. rewrite Hcode.
  unfold spec_order, code_order, thread_state_rules in *.
  assert (Hts : is_darwin os = false -> rule_matches env d R_stack_overflow = true ->
            rule_matches env d R_wrong_method = false /\
  rule_matches env d R_poll = false /\
  rule_matches env d R_unsafe_in_Java = false /\
  rule_matches env d R_divide_by_zero = false /\
  rule_matches env d R_unimplemented = false /\
  rule_matches env d R_implicit_null = false /\
  rule_matches env d R_unsafe_in_vm = false).
  { intros Hos Hso.
    assert (Hne : os <> Darwin) by (intros ->; discriminate).
    repeat split; apply (Hother Hne Hso); simpl; tauto. }
  pose proof (stack_overflow_not_outside_Java env d) as Hexcl.
  destruct (is_darwin os) eqn:Hos; cbn [first_match app]; rewrite Hred, Hjni, Hser;
    (destruct (rule_matches env d R_ignorable); [reflexivity |]);
    (destruct (rule_matches env d R_safefetch); [reflexivity |]);
    (destruct (rule_matches env d R_reserved_activation); [reflexivity |]);
    destruct (rule_matches env d R_stack_overflow) eqn:Hso.
  - by rewrite (Hexcl eq_refl).
  - reflexivity.
  - rewrite (Hexcl eq_refl).
    by destruct (Hts eq_refl eq_refl) as (-> & -> & -> & -> & -> & -> & ->).
  - destruct (rule_matches env d R_yellow_outside_Java); [reflexivity |].
    destruct (rule_matches env d R_wrong_method); [reflexivity |].
    destruct (rule_matches env d R_poll); [reflexivity |].
    destruct (rule_matches env d R_unsafe_in_Java); [reflexivity |].
    destruct (rule_matches env d R_divide_by_zero); [reflexivity |].
    destruct (rule_matches env d R_unimplemented); [reflexivity |].
    destruct (rule_matches env d R_implicit_null); [reflexivity |].
    by destruct (rule_matches env d R_unsafe_in_vm).
Qed.

(** C4, amended, on the sample runtime: the poll fault at a JNI
    fast-accessor pc is classified by rule 6. *)
Lemma handler_first_match_in_code_order_witness :
  classification (outcome (deliver (Sample.env false)
      (@mk_delivery Darwin SIGSEGV (Some (Sample.fault Sample.polling_page))
         (Some (Sample.context Darwin Sample.fast_getfield_pc 0x5804))
         (Some (Java_thread (Sample.java_thread _thread_in_Java false))) 1)))
    = Some (RedirectTo Sample.fast_getfield_slowcase).
Proof.
  exact (proj1 (handler_first_match_in_code_order Darwin (Sample.env false)
      (@mk_delivery Darwin SIGSEGV (Some (Sample.fault Sample.polling_page))
         (Some (Sample.context Darwin Sample.fast_getfield_pc 0x5804))
         (Some (Java_thread (Sample.java_thread _thread_in_Java false))) 1)
      eq_refl eq_refl)).
Defined.
(** * Further properties of the handler *)

Lemma thread_kept_refl (th : JavaThread) : thread_kept th th.
Proof. unfold thread_kept. tauto. Qed.

Lemma thread_kept_trans (th1 th2 th3 : JavaThread) :
  thread_kept th1 th2 -> thread_kept th2 th3 -> thread_kept th1 th3.
Proof.
  unfold thread_kept. intros (-> & -> & H1 & H2 & H3) (-> & -> & H4 & H5 & H6).
  repeat split; auto.
Qed.

(** The four ways the tail of the handler ends. *)
Lemma finish_cases {os : os_variant} (env : Env) (sig : signal)
    (info : option siginfo_t) (uc : option (ucontext_t os)) (t : option Thread)
    (thread : option JavaThread) (stub pc : address) (abort : Z) :
  let r := finish env sig info uc t thread stub pc abort in
  let uc' := after_chained_handler env sig info uc in
  (stub <> NULL /\
   r = mk_result (StubRedirect stub)
         (option_map (fun c => ucontext_set_pc c stub) uc)
         (update_thread t (option_map (fun th => set_saved_exception_pc th pc) thread))) \/
  (stub = NULL /\ chained_handler env os sig info uc = true /\
   r = mk_result Chained uc' (update_thread t thread)) \/
  (stub = NULL /\ chained_handler env os sig info uc = false /\ abort = 0 /\
   r = mk_result Unrecognized uc' (update_thread t thread)) \/
  (stub = NULL /\ chained_handler env os sig info uc = false /\ abort <> 0 /\
   r = mk_result (Fatal match uc' with
                        | Some c => if pc =? NULL then ucontext_get_pc c else pc
                        | None => pc
                        end) uc' (update_thread t thread)).
Proof.
  intros r uc'. subst r uc'. unfold finish.
  destruct (Z.eqb_spec stub NULL) as [-> | Hstub]; simpl; [| by left].
  right. destruct (chained_handler env os sig info uc); [by left |].
  right. destruct (Z.eqb_spec abort 0) as [-> | Habort]; [by left | by right].
Qed.

(** The classifier after the stack overflow code: [Unimplemented()], the
    serialization page, or the tail with some stub. *)
Lemma classify_rest_cases (os : os_variant) (env : Env) (sig : signal)
    (info : siginfo_t) (uc : ucontext_t os) (t : option Thread) (th : JavaThread)
    (stub : address) (abort : Z) :
  let r := classify_rest os env sig info uc t th stub abort in
  r = mk_result UnimplementedError (Some uc) (Some (Java_thread th)) \/
  (sig = SIGSEGV /\ is_memory_serialize_page env (si_addr info) = true /\
   r = mk_result SerializePageResume (Some uc) (Some (Java_thread th))) \/
  (exists stub', r = finish env sig (Some info) (Some uc) t (Some th) stub'
                       (ucontext_get_pc uc) abort).
Proof.
  intros r. subst r. unfold classify_rest. cbv zeta.
  destruct (select_stub os env sig info th (ucontext_get_pc uc) stub) as [s |];
    [| by left].
  right.
  destruct (sig_is SIGSEGV sig && is_memory_serialize_page env (si_addr info)) eqn:Hser.
  - left. apply andb_true_iff in Hser as [Hsig Hser].
    split; [by destruct sig |]. by split.
  - right. by eexists.
Qed.

(** What the stack overflow code hands on. *)
Lemma handle_stack_overflow_cases {os : os_variant} (env : Env) (uc : ucontext_t os)
    (t : option Thread) (th : JavaThread) (pc addr : address) :
  match handle_stack_overflow env uc t th pc addr with
  | Done r =>
      context_after r = Some uc /\
      (exists a, outcome r = ReservedActivationResume /\
         thread_after r = Some (Java_thread
           (set_reserved_stack_activation (disable_stack_reserved_zone th) a))) \/
      context_after r = Some uc /\ outcome r = YellowZoneResume /\
        thread_after r = Some (Java_thread (disable_stack_yellow_reserved_zone th))
  | Continue th' stub =>
      th' = th \/ th' = disable_stack_yellow_reserved_zone th \/
      th' = disable_stack_red_zone th
  end.
Proof.
  unfold handle_stack_overflow.
  destruct (on_local_stack env addr); [| by left].
  destruct (in_stack_yellow_reserved_zone env addr).
  - destruct (state_is _thread_in_Java (thread_state th)).
    + destruct (reserved_stack_activation_for env uc addr) as [a |]; simpl.
      * left. split; [reflexivity |]. by exists a.
      * right; by left.
    + simpl. right. by repeat split.
  - destruct (in_stack_red_zone env addr); [right; by right | by left].
Qed.

(** Every result of the classifier has the shape [classify_shape]. *)
Lemma classify_result (os : os_variant) (env : Env) (sig : signal) (info : siginfo_t)
    (uc : ucontext_t os) (t : option Thread) (th : JavaThread) (abort : Z) :
  classify_shape env sig info uc th abort (classify os env sig info uc t th abort).
Proof.
  rewrite classify_unfold.
  assert (Hplain : forall (o : Outcome) th1, thread_kept th th1 ->
    chained_handler_called o = false -> (forall stub, o <> StubRedirect stub) ->
    classify_shape env sig info uc th abort
      (mk_result o (Some uc) (Some (Java_thread th1)))).
  { intros o th1 Hkept Hcalled Hstub. unfold classify_shape. simpl.
    split; [exists uc; split; [reflexivity |]; rewrite Hcalled;
            apply other_registers_equal_refl |].
    split; [exists th1; split; [reflexivity |]; split; [exact Hkept |];
            intros stub ->; by destruct (Hstub stub) |].
    split; [intros stub ->; by destruct (Hstub stub) |].
    split; [by intros -> |]. split; [by intros -> |].
    split; [by intros pc -> |]. by intros ->. }
  assert (Hrest : forall th1 stub, thread_kept th th1 ->
    classify_shape env sig info uc th abort
      (classify_rest os env sig info uc t th1 stub abort)).
  { intros th1 stub Hkept.
    destruct (classify_rest_cases os env sig info uc t th1 stub abort)
      as [Hr | [(_ & _ & Hr) | [stub' Hr]]]; rewrite Hr; clear Hr.
    - by apply Hplain.
    - by apply Hplain.
    - destruct (finish_cases env sig (Some info) (Some uc) t (Some th1) stub'
                  (ucontext_get_pc uc) abort)
        as [(Hs & ->) | [(-> & Hc & ->) | [(-> & Hc & Ha & ->) | (-> & Hc & Ha & ->)]]];
        unfold classify_shape; simpl.
      + split; [eexists; split; [reflexivity | apply other_registers_equal_set_pc] |].
        split.
        { eexists. split; [reflexivity |]. split; [| by intros].
          eapply thread_kept_trans; [exact Hkept |]. unfold thread_kept. simpl. tauto. }
        split; [by intros s [= <-] |]. by repeat split.
      + split; [by eexists |].
        split; [exists th1; split; [reflexivity | split; [exact Hkept | by intros]] |].
        by repeat split.
      + split; [by eexists |].
        split; [exists th1; split; [reflexivity | split; [exact Hkept | by intros]] |].
        by repeat split.
      + split; [by eexists |].
        split; [exists th1; split; [reflexivity | split; [exact Hkept | by intros]] |].
        split; [by intros |]. split; [by intros |]. split; [by intros |].
        split; [| done]. intros pc0 [= <-]. by repeat split. }
  destruct (guard_zone_signal os sig); [| apply Hrest, thread_kept_refl].
  pose proof (handle_stack_overflow_cases env uc t th (ucontext_get_pc uc)
                (stack_fault_address os env info)) as Hso.
  destruct (handle_stack_overflow env uc t th (ucontext_get_pc uc)
              (stack_fault_address os env info)) as [[o c th0] | th1 stub].
  - simpl in Hso. destruct Hso as [(-> & a & -> & ->) | (-> & -> & ->)];
      apply Hplain; try done; unfold thread_kept; simpl; tauto.
  - apply Hrest. destruct Hso as [-> | [-> | ->]]; unfold thread_kept; simpl; tauto.
Qed.

(** Every invocation ends before the pipeline, at the SafeFetch check, in the
    tail alone, or in the classifier. *)
Lemma handler_cases (os : os_variant) (env : Env) (sig : signal)
    (info : option siginfo_t) (uc : option (ucontext_t os)) (t : option Thread)
    (abort : Z) :
  let r := JVM_handle_bsd_signal os env sig info uc t abort in
  (exists o, (o = CrashProtectionRestore \/ o = AssertPoisonHandled) /\
     r = mk_result o uc t) \/
  ((sig = SIGPIPE \/ sig = SIGXFSZ) /\
   r = mk_result IgnoredSignal (after_chained_handler env sig info uc) t) \/
  (exists c resume_pc, uc = Some c /\
     safefetch_registry env !! ucontext_get_pc c = Some resume_pc /\
     r = mk_result SafeFetchResume (Some (ucontext_set_pc c resume_pc)) t) \/
  ((info = None \/ uc = None \/ current_JavaThread env t = None) /\
   r = finish env sig info uc t (current_JavaThread env t) NULL NULL abort) \/
  (exists i c th, info = Some i /\ uc = Some c /\ current_JavaThread env t = Some th /\
     r = classify os env sig i c t th abort).
Proof.
  intros r. subst r.
  destruct (check_crash_protection env sig t) eqn:Hcp.
  { left. exists CrashProtectionRestore. split; [by left |].
    by apply handler_crash_protection. }
  destruct (sig_is SIGPIPE sig || sig_is SIGXFSZ sig) eqn:Hign.
  { right; left. split; [| by apply handler_ignorable].
    destruct sig; try discriminate; auto. }
  destruct (assert_poison_fault env sig info) eqn:Hap.
  { left. exists AssertPoisonHandled. split; [by right |].
    by apply handler_assert_poison. }
  right; right. rewrite handler_after_filters by assumption.
  destruct (safefetch_fault env uc) as [uc' |] eqn:Hsf.
  { left. apply safefetch_fault_inv in Hsf as (c & resume_pc & -> & Hreg & _ & ->).
    by exists c, resume_pc. }
  right.
  destruct info as [i |]; [| left; split; [by left | reflexivity]].
  destruct uc as [c |]; [| left; split; [right; by left | reflexivity]].
  destruct (current_JavaThread env t) as [th |] eqn:Hth;
    [| left; split; [right; by right | reflexivity]].
  right. by exists i, c, th.
Qed.

Lemma current_JavaThread_inv (env : Env) (t : option Thread) (th : JavaThread) :
  current_JavaThread env t = Some th -> t = Some (Java_thread th).
Proof.
  unfold current_JavaThread.
  destruct (signal_handlers_are_installed env); [| discriminate].
  destruct t as [[th' | |] |]; try discriminate. by intros [= ->].
Qed.

(** X1. The handler itself changes nothing of the context but the program
    counter: on every exit that comes without a call of the chained handler
    every other register is as it was; on the exits that come after that
    call (the ignored SIGPIPE or SIGXFSZ, the chained end, [false] and the
    fatal report) the context is exactly as the chained handler, which is
    handed the writable context, left it.  A NULL context stays NULL. *)
Theorem handler_changes_only_pc (os : os_variant) (env : Env) (sig : signal)
    (info : option siginfo_t) (uc : option (ucontext_t os)) (t : option Thread)
    (abort : Z) :
  let r := JVM_handle_bsd_signal os env sig info uc t abort in
  match uc with
  | Some c =>
      exists c', context_after r = Some c' /\
        if chained_handler_called (outcome r)
        then c' = chained_handler_context env os sig info c
        else other_registers_equal os c c'
  | None => context_after r = None
  end.
Proof.
  intros r. subst r.
  destruct (handler_cases os env sig info uc t abort)
    as [(o & Ho & ->) | [(_ & ->) | [(c & resume_pc & -> & _ & ->)
        | [(_ & ->) | (i & c & th & -> & -> & Hth & ->)]]]].
  - destruct uc as [c |]; simpl; [| reflexivity].
    exists c. split; [reflexivity |].
    destruct Ho as [-> | ->]; apply other_registers_equal_refl.
  - destruct uc as [c |]; simpl; [| reflexivity]. by eexists.
  - simpl. eexists. split; [reflexivity | apply other_registers_equal_set_pc].
  - destruct (finish_cases env sig info uc t (current_JavaThread env t) NULL NULL abort)
      as [(Hs & _) | [(_ & _ & ->) | [(_ & _ & _ & ->) | (_ & _ & _ & ->)]]];
      [by destruct Hs | | |]; destruct uc as [c |]; simpl; try reflexivity;
      by eexists.
  - destruct (classify_result os env sig i c t th abort) as (Hctx & _). exact Hctx.
Qed.

(** X1 on the sample runtime with a chained handler that sends the thread
    to its own recovery code at 0x7000: a SIGSEGV no rule takes leaves with
    the context that handler wrote; a poll fault, which is redirected before
    the chained handler is asked, leaves with the pc at the poll stub and
    every other register as it was. *)
Lemma handler_changes_only_pc_witness :
  (exists c',
     context_after (JVM_handle_bsd_signal FreeBSD
         (chained_to_recovery (Sample.env false) 0x7000) SIGSEGV
         (Some (Sample.fault 0x20000000)) (Some (Sample.context FreeBSD 0x5004 0x5804))
         (Some (Java_thread (Sample.java_thread _thread_in_vm false))) 1) = Some c' /\
     c' = Sample.context FreeBSD 0x7000 0x5804) /\
  (exists c',
     context_after (JVM_handle_bsd_signal FreeBSD
         (chained_to_recovery (Sample.env false) 0x7000) SIGSEGV
         (Some (Sample.fault Sample.polling_page))
         (Some (Sample.context FreeBSD 0x5004 0x5804))
         (Some (Java_thread (Sample.java_thread _thread_in_Java false))) 1) = Some c' /\
     other_registers_equal FreeBSD (Sample.context FreeBSD 0x5004 0x5804) c').
Proof.
  split.
  - exact (handler_changes_only_pc FreeBSD
             (chained_to_recovery (Sample.env false) 0x7000) SIGSEGV
             (Some (Sample.fault 0x20000000)) (Some (Sample.context FreeBSD 0x5004 0x5804))
             (Some (Java_thread (Sample.java_thread _thread_in_vm false))) 1).
  - exact (handler_changes_only_pc FreeBSD
             (chained_to_recovery (Sample.env false) 0x7000) SIGSEGV
             (Some (Sample.fault Sample.polling_page))
             (Some (Sample.context FreeBSD 0x5004 0x5804))
             (Some (Java_thread (Sample.java_thread _thread_in_Java false))) 1).
Defined.

(** X2. The handler never re-enables a guard zone and never changes the
    thread state or the unsafe-access flag of a Java thread; a current
    thread that is not a Java thread, or no thread at all, is left as it
    is. *)
Theorem handler_keeps_thread (os : os_variant) (env : Env) (sig : signal)
    (info : option siginfo_t) (uc : option (ucontext_t os)) (t : option Thread)
    (abort : Z) :
  match t with
  | Some (Java_thread th) =>
      exists th', thread_after (JVM_handle_bsd_signal os env sig info uc t abort) =
                    Some (Java_thread th') /\ thread_kept th th'
  | _ => thread_after (JVM_handle_bsd_signal os env sig info uc t abort) = t
  end.
Proof.
  assert (Hsame : thread_after (JVM_handle_bsd_signal os env sig info uc t abort) = t ->
    match t with
    | Some (Java_thread th) =>
        exists th', thread_after (JVM_handle_bsd_signal os env sig info uc t abort) =
                      Some (Java_thread th') /\ thread_kept th th'
    | _ => thread_after (JVM_handle_bsd_signal os env sig info uc t abort) = t
    end).
  { intros Heq. destruct t as [[th | |] |]; try exact Heq.
    exists th. split; [exact Heq | apply thread_kept_refl]. }
  destruct (handler_cases os env sig info uc t abort)
    as [(o & _ & Hr) | [(_ & Hr) | [(c & resume_pc & _ & _ & Hr)
        | [(_ & Hr) | (i & c & th & _ & _ & Hth & Hr)]]]].
  - apply Hsame. by rewrite Hr.
  - apply Hsame. by rewrite Hr.
  - apply Hsame. by rewrite Hr.
  - apply Hsame. rewrite Hr, finish_without_stub, update_thread_current.
    destruct (chained_handler env os sig info uc); [reflexivity |].
    by destruct (abort =? 0).
  - rewrite Hr. rewrite (current_JavaThread_inv env t th Hth).
    destruct (classify_result os env sig i c t th abort)
      as (_ & (th' & Hafter & Hkept & _) & _).
    rewrite (current_JavaThread_inv env t th Hth) in Hafter. by exists th'.
Qed.

(** X3. When the handler redirects the thread to a stub, the stub is never
    NULL, the siginfo, the context and the Java thread were all there, the
    context leaves with the stub as pc, and the thread has the faulting pc as
    its saved exception pc. *)
Theorem handler_redirect (os : os_variant) (env : Env) (sig : signal)
    (info : option siginfo_t) (uc : option (ucontext_t os)) (t : option Thread)
    (abort : Z) (stub : address) :
  outcome (JVM_handle_bsd_signal os env sig info uc t abort) = StubRedirect stub ->
  stub <> NULL /\
  exists i c th th',
    info = Some i /\ uc = Some c /\ t = Some (Java_thread th) /\
    context_after (JVM_handle_bsd_signal os env sig info uc t abort) =
      Some (ucontext_set_pc c stub) /\
    thread_after (JVM_handle_bsd_signal os env sig info uc t abort) =
      Some (Java_thread th') /\
    saved_exception_pc th' = ucontext_get_pc c.
Proof.
  destruct (handler_cases os env sig info uc t abort)
    as [(o & Ho & ->) | [(_ & ->) | [(c & resume_pc & _ & _ & ->)
        | [(_ & ->) | (i & c & th & -> & -> & Hth & ->)]]]].
  - simpl. by destruct Ho as [-> | ->].
  - discriminate.
  - discriminate.
  - rewrite finish_without_stub.
    destruct (chained_handler env os sig info uc); [discriminate |].
    by destruct (abort =? 0).
  - intros Hout.
    destruct (classify_result os env sig i c t th abort)
      as (_ & (th' & Hafter & _ & Hsaved) & Hredirect & _).
    destruct (Hredirect stub Hout) as [Hstub Hctx]. split; [exact Hstub |].
    exists i, c, th, th'. repeat split; try done.
    + by apply current_JavaThread_inv in Hth.
    + by apply (Hsaved stub).
Qed.

(** X3 on the sample runtime: the SIGBUS at the polling page on macOS. *)
Lemma handler_redirect_witness :
  Sample.poll_stub <> NULL /\
  exists i c th th',
    Some (Sample.fault Sample.polling_page) = Some i /\
    Some (Sample.context Darwin 0x5004 0x5804) = Some c /\
    Some (Java_thread (Sample.java_thread _thread_in_Java false)) = Some (Java_thread th) /\
    context_after (JVM_handle_bsd_signal Darwin (Sample.env false) SIGBUS
        (Some (Sample.fault Sample.polling_page))
        (Some (Sample.context Darwin 0x5004 0x5804))
        (Some (Java_thread (Sample.java_thread _thread_in_Java false))) 1) =
      Some (ucontext_set_pc c Sample.poll_stub) /\
    thread_after (JVM_handle_bsd_signal Darwin (Sample.env false) SIGBUS
        (Some (Sample.fault Sample.polling_page))
        (Some (Sample.context Darwin 0x5004 0x5804))
        (Some (Java_thread (Sample.java_thread _thread_in_Java false))) 1) =
      Some (Java_thread th') /\
    saved_exception_pc th' = ucontext_get_pc c.
Proof.
  exact (handler_redirect Darwin (Sample.env false) SIGBUS
           (Some (Sample.fault Sample.polling_page))
           (Some (Sample.context Darwin 0x5004 0x5804))
           (Some (Java_thread (Sample.java_thread _thread_in_Java false))) 1
           Sample.poll_stub eq_refl).
Defined.



(** X5. SIGPIPE and SIGXFSZ are ignored: unless the crash protection takes
    the signal, the chained handler is called first and, whatever it
    answers and whatever the siginfo, the context and the thread are, the
    handler returns true.  The thread is as it was; the context is as the
    chained handler left it. *)
Theorem ignorable_signal (os : os_variant) (env : Env) (sig : signal)
    (info : option siginfo_t) (uc : option (ucontext_t os)) (t : option Thread)
    (abort : Z) :
  sig = SIGPIPE \/ sig = SIGXFSZ ->
  check_crash_protection env sig t = false ->
  JVM_handle_bsd_signal os env sig info uc t abort =
    mk_result IgnoredSignal (after_chained_handler env sig info uc) t /\
  return_value (outcome (JVM_handle_bsd_signal os env sig info uc t abort)) = Some true.
Proof.
  intros Hsig Hcp.
  rewrite handler_ignorable; [by split | exact Hcp |].
  by destruct Hsig as [-> | ->].
Qed.

(** X5 on the sample runtime: SIGPIPE with no siginfo, no context and no
    thread; and SIGXFSZ with a context, chained to the handler that
    rewrites the pc to 0x7000. *)
Lemma ignorable_signal_witness :
  JVM_handle_bsd_signal OpenBSD (Sample.env true) SIGPIPE None None None 0 =
    mk_result IgnoredSignal None None /\
  JVM_handle_bsd_signal OpenBSD (chained_to_recovery (Sample.env false) 0x7000) SIGXFSZ
      None (Some (Sample.context OpenBSD 0x5004 0x5804)) (Some VM_thread) 0 =
    mk_result IgnoredSignal (Some (Sample.context OpenBSD 0x7000 0x5804)) (Some VM_thread).
Proof.
  split.
  - exact (proj1 (ignorable_signal OpenBSD (Sample.env true) SIGPIPE None None None 0
                    (or_introl eq_refl) eq_refl)).
  - exact (proj1 (ignorable_signal OpenBSD (chained_to_recovery (Sample.env false) 0x7000)
                    SIGXFSZ None (Some (Sample.context OpenBSD 0x5004 0x5804))
                    (Some VM_thread) 0 (or_intror eq_refl) eq_refl)).
Defined.

(** ** The classifier's rules, one at a time *)

(** [Unimplemented()] is reached for SIGFPE only. *)
Lemma select_stub_some (os : os_variant) (env : Env) (sig : signal) (info : siginfo_t)
    (th : JavaThread) (pc stub : address) :
  sig <> SIGFPE -> exists s, select_stub os env sig info th pc stub = Some s.
Proof.
  intros Hsig. destruct os; simpl; try by eexists.
  unfold Apple.select_stub.
  replace (sig_is SIGFPE sig) with false by (by destruct sig).
  rewrite !andb_false_l. repeat case_if; by eexists.
Qed.

(** X6. A fault in the yellow/reserved zone of a thread that is not in Java
    (in the VM or in native code): the yellow zone is disabled and the
    handler returns true; the context is untouched, so the faulting
    instruction is run again. *)
Theorem yellow_zone_fault_outside_Java (os : os_variant) (env : Env) (sig : signal)
    (info : siginfo_t) (uc : ucontext_t os) (t : option Thread) (th : JavaThread)
    (abort : Z) :
  check_crash_protection env sig t = false ->
  assert_poison_fault env sig (Some info) = false ->
  safefetch_fault env (Some uc) = None ->
  current_JavaThread env t = Some th ->
  yellow_zone_fault os env sig info = true ->
  thread_state th <> _thread_in_Java ->
  JVM_handle_bsd_signal os env sig (Some info) (Some uc) t abort =
    mk_result YellowZoneResume (Some uc)
      (Some (Java_thread (disable_stack_yellow_reserved_zone th))) /\
  return_value (outcome (JVM_handle_bsd_signal os env sig (Some info) (Some uc) t abort)) =
    Some true.
Proof.
  intros Hcp Hap Hsf Hth Hy Hstate.
  apply andb_prop in Hy as [Hy Hyellow]. apply andb_prop in Hy as [Hsig Hstack].
  rewrite handler_at_classifier with (th := th); try done;
    [| by apply guard_zone_signal_not_ignorable with (os := os)].
  rewrite classify_unfold, Hsig. unfold handle_stack_overflow.
  by rewrite Hstack, Hyellow, not_in_Java.
Qed.

(** X6 on the sample runtime: a thread in native code on NetBSD. *)
Lemma yellow_zone_fault_outside_Java_witness :
  JVM_handle_bsd_signal NetBSD (Sample.env false) SIGSEGV
      (Some (Sample.fault 0x70002000)) (Some (Sample.context NetBSD 0x3000 0x5804))
      (Some (Java_thread (Sample.java_thread _thread_in_native false))) 1 =
    mk_result YellowZoneResume (Some (Sample.context NetBSD 0x3000 0x5804))
      (Some (Java_thread
         (disable_stack_yellow_reserved_zone (Sample.java_thread _thread_in_native false)))).
Proof.
  refine (proj1 (yellow_zone_fault_outside_Java NetBSD (Sample.env false) SIGSEGV
           (Sample.fault 0x70002000) (Sample.context NetBSD 0x3000 0x5804)
           (Some (Java_thread (Sample.java_thread _thread_in_native false)))
           (Sample.java_thread _thread_in_native false) 1
           eq_refl eq_refl eq_refl eq_refl eq_refl _)).
  discriminate.
Defined.

(** X7. SIGFPE.  In Java with [si_code] FPE_INTDIV or FPE_FLTDIV the thread
    is redirected to the continuation for an implicit divide by zero,
    whatever the fault address; a thread that is not in Java is never
    redirected for SIGFPE: the handler ends with the chained handler,
    [false] or the fatal report, the thread as it was and the context as
    the chained handler left it. *)
Theorem divide_by_zero (os : os_variant) (env : Env) (info : siginfo_t)
    (uc : ucontext_t os) (t : option Thread) (th : JavaThread) (abort : Z) :
  check_crash_protection env SIGFPE t = false ->
  safefetch_fault env (Some uc) = None ->
  current_JavaThread env t = Some th ->
  let pc := ucontext_get_pc uc in
  let stub := continuation_for_implicit_exception env pc IMPLICIT_DIVIDE_BY_ZERO in
  let r := JVM_handle_bsd_signal os env SIGFPE (Some info) (Some uc) t abort in
  (thread_state th = _thread_in_Java ->
   si_code info = FPE_INTDIV \/ si_code info = FPE_FLTDIV ->
   stub <> NULL ->
   r = mk_result (StubRedirect stub) (Some (ucontext_set_pc uc stub))
         (Some (Java_thread (set_saved_exception_pc th pc)))) /\
  (thread_state th <> _thread_in_Java ->
   let uc' := chained_handler_context env os SIGFPE (Some info) uc in
   r = mk_result (if chained_handler env os SIGFPE (Some info) (Some uc) then Chained
                  else if abort =? 0 then Unrecognized
                  else Fatal (if pc =? NULL then ucontext_get_pc uc' else pc))
         (Some uc') (Some (Java_thread th))).
Proof.
  intros Hcp Hsf Hth pc stub r. subst r.
  rewrite handler_at_classifier with (th := th); try done;
    [| unfold assert_poison_fault; simpl; by rewrite andb_false_r].
  rewrite classify_unfold.
  replace (guard_zone_signal os SIGFPE) with false by (by destruct os).
  unfold classify_rest, jni_fast_getfield_stub. simpl sig_is. cbv iota. fold pc.
  split.
  - intros Hstate Hcode Hstub.
    assert (Hsel : select_stub os env SIGFPE info th pc NULL = Some stub).
    { destruct os; simpl; unfold Apple.select_stub, Other.select_stub; rewrite Hstate;
        simpl; by destruct Hcode as [-> | ->]. }
    rewrite Hsel. simpl. by apply finish_with_stub.
  - intros Hstate.
    assert (Hsel : select_stub os env SIGFPE info th pc NULL = Some NULL).
    { destruct os; simpl; unfold Apple.select_stub, Other.select_stub;
        rewrite (not_in_Java _ Hstate); simpl; by rewrite ?andb_false_r. }
    rewrite Hsel. cbv beta iota zeta. rewrite finish_without_stub.
    destruct (chained_handler env os SIGFPE (Some info) (Some uc)); [reflexivity |].
    by destruct (abort =? 0).
Qed.

(** X7 on the sample runtime: an integer division by zero in compiled code
    on OpenBSD. *)
Lemma divide_by_zero_witness :
  JVM_handle_bsd_signal OpenBSD (Sample.env false) SIGFPE
      (Some {| si_addr := 0x5004; si_code := FPE_INTDIV |})
      (Some (Sample.context OpenBSD 0x5004 0x5804))
      (Some (Java_thread (Sample.java_thread _thread_in_Java false))) 1 =
    mk_result (StubRedirect Sample.divide_by_zero_stub)
      (Some (Sample.context OpenBSD Sample.divide_by_zero_stub 0x5804))
      (Some (Java_thread
         (set_saved_exception_pc (Sample.java_thread _thread_in_Java false) 0x5004))).
Proof.
  refine (proj1 (divide_by_zero OpenBSD (Sample.env false)
           {| si_addr := 0x5004; si_code := FPE_INTDIV |}
           (Sample.context OpenBSD 0x5004 0x5804)
           (Some (Java_thread (Sample.java_thread _thread_in_Java false)))
           (Sample.java_thread _thread_in_Java false) 1 eq_refl eq_refl eq_refl)
           eq_refl (or_introl eq_refl) _).
  discriminate.
Defined.



(** X9. A not-entrant or zombie method: a thread in Java that traps on the
    marker instruction is redirected to the handle-wrong-method stub, for
    SIGILL on every build and for SIGTRAP off macOS.  On macOS a SIGTRAP is
    never redirected: the handler ends with the chained handler, returns
    false or reports a fatal error, the thread as it was and the context
    as the chained handler left it. *)
Theorem zombie_method_trap (os : os_variant) (env : Env) (sig : signal)
    (info : siginfo_t) (uc : ucontext_t os) (t : option Thread) (th : JavaThread)
    (abort : Z) :
  check_crash_protection env sig t = false ->
  safefetch_fault env (Some uc) = None ->
  current_JavaThread env t = Some th ->
  sig = SIGILL \/ sig = SIGTRAP ->
  let pc := ucontext_get_pc uc in
  let r := JVM_handle_bsd_signal os env sig (Some info) (Some uc) t abort in
  (thread_state th = _thread_in_Java ->
   is_sigill_zombie_not_entrant env pc = true ->
   get_handle_wrong_method_stub env <> NULL ->
   sig = SIGILL \/ os <> Darwin ->
   r = mk_result (StubRedirect (get_handle_wrong_method_stub env))
         (Some (ucontext_set_pc uc (get_handle_wrong_method_stub env)))
         (Some (Java_thread (set_saved_exception_pc th pc)))) /\
  (os = Darwin -> sig = SIGTRAP ->
   let uc' := chained_handler_context env os sig (Some info) uc in
   r = mk_result (if chained_handler env os sig (Some info) (Some uc) then Chained
                  else if abort =? 0 then Unrecognized
                  else Fatal (if pc =? NULL then ucontext_get_pc uc' else pc))
         (Some uc') (Some (Java_thread th))).
Proof.
  intros Hcp Hsf Hth Hsig pc r. subst r.
  rewrite handler_at_classifier with (th := th); try done;
    [| by destruct Hsig as [-> | ->]
     | unfold assert_poison_fault; destruct Hsig as [-> | ->]; simpl; by rewrite andb_false_r].
  rewrite classify_unfold.
  replace (guard_zone_signal os sig) with false
    by (by destruct Hsig as [-> | ->]; destruct os).
  unfold classify_rest, jni_fast_getfield_stub. fold pc.
  replace (sig_is SIGSEGV sig) with false by (by destruct Hsig as [-> | ->]).
  replace (sig_is SIGBUS sig) with false by (by destruct Hsig as [-> | ->]).
  simpl orb. cbv iota. split.
  - intros Hstate Hz Hstub Hos.
    assert (Hsel : select_stub os env sig info th pc NULL =
                     Some (get_handle_wrong_method_stub env)).
    { destruct Hsig as [-> | ->]; destruct os; simpl;
        unfold Apple.select_stub, Other.select_stub; rewrite Hstate; simpl;
        rewrite ?Hz; try done. by destruct Hos. }
    rewrite Hsel. simpl. by apply finish_with_stub.
  - intros -> ->. simpl select_stub.
    assert (Hsel : Apple.select_stub env SIGTRAP info th pc NULL = Some NULL).
    { unfold Apple.select_stub. simpl. by repeat case_if. }
    rewrite Hsel. cbv beta iota zeta. rewrite finish_without_stub.
    destruct (chained_handler env Darwin SIGTRAP (Some info) (Some uc)); [reflexivity |].
    by destruct (abort =? 0).
Qed.

(** X9 on the sample runtime: the SIGTRAP at the marker instruction on
    FreeBSD. *)
Lemma zombie_method_trap_witness :
  JVM_handle_bsd_signal FreeBSD (Sample.env false) SIGTRAP
      (Some (Sample.fault 0x5000)) (Some (Sample.context FreeBSD 0x5000 0x5804))
      (Some (Java_thread (Sample.java_thread _thread_in_Java false))) 1 =
    mk_result (StubRedirect Sample.wrong_method_stub)
      (Some (Sample.context FreeBSD Sample.wrong_method_stub 0x5804))
      (Some (Java_thread
         (set_saved_exception_pc (Sample.java_thread _thread_in_Java false) 0x5000))).
Proof.
  refine (proj1 (zombie_method_trap FreeBSD (Sample.env false) SIGTRAP
           (Sample.fault 0x5000) (Sample.context FreeBSD 0x5000 0x5804)
           (Some (Java_thread (Sample.java_thread _thread_in_Java false)))
           (Sample.java_thread _thread_in_Java false) 1
           eq_refl eq_refl eq_refl (or_intror eq_refl))
           eq_refl eq_refl _ (or_intror _)); discriminate.
Defined.

(** X10. The slow case of a fast JNI field getter: a SIGSEGV or SIGBUS at a
    pc for which [JNI_FastGetField::find_slowcase_pc] has an address
    redirects the thread to that address, in any thread state and whatever
    stub the thread-state rules chose, unless the fault is in the
    yellow/reserved zone or at the memory serialization page. *)
Theorem jni_fast_getfield_fault (os : os_variant) (env : Env) (sig : signal)
    (info : siginfo_t) (uc : ucontext_t os) (t : option Thread) (th : JavaThread)
    (abort : Z) (addr : address) :
  check_crash_protection env sig t = false ->
  assert_poison_fault env sig (Some info) = false ->
  safefetch_fault env (Some uc) = None ->
  current_JavaThread env t = Some th ->
  sig = SIGSEGV \/ sig = SIGBUS ->
  yellow_zone_fault os env sig info = false ->
  find_slowcase_pc env (ucontext_get_pc uc) = addr ->
  addr <> address_minus_one ->
  addr <> NULL ->
  (sig = SIGSEGV -> is_memory_serialize_page env (si_addr info) = false) ->
  let r := JVM_handle_bsd_signal os env sig (Some info) (Some uc) t abort in
  outcome r = StubRedirect addr /\
  context_after r = Some (ucontext_set_pc uc addr) /\
  exists th', thread_after r = Some (Java_thread th') /\
    saved_exception_pc th' = ucontext_get_pc uc.
Proof.
  intros Hcp Hap Hsf Hth Hsig Hy Hfind Hminus Hnull Hser r. subst r.
  rewrite handler_at_classifier with (th := th); try done;
    [| by destruct Hsig as [-> | ->]].
  destruct (classify_outside_yellow_zone os env sig info uc t th abort Hy)
    as (th' & _ & ->).
  unfold classify_rest.
  destruct (select_stub_some os env sig info th' (ucontext_get_pc uc) NULL)
    as [s ->]; [by destruct Hsig as [-> | ->] |].
  assert (Hjni : jni_fast_getfield_stub env sig (ucontext_get_pc uc) s = addr).
  { unfold jni_fast_getfield_stub. rewrite Hfind.
    replace (sig_is SIGSEGV sig || sig_is SIGBUS sig) with true
      by (by destruct Hsig as [-> | ->]).
    destruct (addr =? address_minus_one) eqn:Heq; [| done].
    by apply Z.eqb_eq in Heq. }
  assert (Hpage : sig_is SIGSEGV sig && is_memory_serialize_page env (si_addr info) = false).
  { destruct Hsig as [-> | ->]; [| done]. by rewrite Hser. }
  cbv beta iota zeta. rewrite Hjni, Hpage, finish_with_stub by done.
  split; [reflexivity |]. split; [reflexivity |]. by eexists.
Qed.

(** X10 on the sample runtime: the getter's pc with a thread in native code
    and a fault at the polling page. *)
Lemma jni_fast_getfield_fault_witness :
  outcome (JVM_handle_bsd_signal FreeBSD (Sample.env false) SIGSEGV
      (Some (Sample.fault Sample.polling_page))
      (Some (Sample.context FreeBSD Sample.fast_getfield_pc 0x5804))
      (Some (Java_thread (Sample.java_thread _thread_in_native false))) 1) =
    StubRedirect Sample.fast_getfield_slowcase.
Proof.
  refine (proj1 (jni_fast_getfield_fault FreeBSD (Sample.env false) SIGSEGV
           (Sample.fault Sample.polling_page)
           (Sample.context FreeBSD Sample.fast_getfield_pc 0x5804)
           (Some (Java_thread (Sample.java_thread _thread_in_native false)))
           (Sample.java_thread _thread_in_native false) 1 Sample.fast_getfield_slowcase
           eq_refl eq_refl eq_refl eq_refl (or_introl eq_refl) eq_refl eq_refl _ _
           (fun _ => eq_refl))); discriminate.
Defined.

(** X11. The memory serialization page: a SIGSEGV at that page, outside the
    yellow/reserved zone, makes the handler return true with the context
    untouched, so the write is tried again; any stub chosen by the earlier
    rules is dropped and no exception pc is saved. *)
Theorem serialize_page_fault (os : os_variant) (env : Env) (info : siginfo_t)
    (uc : ucontext_t os) (t : option Thread) (th : JavaThread) (abort : Z) :
  check_crash_protection env SIGSEGV t = false ->
  assert_poison_fault env SIGSEGV (Some info) = false ->
  safefetch_fault env (Some uc) = None ->
  current_JavaThread env t = Some th ->
  yellow_zone_fault os env SIGSEGV info = false ->
  is_memory_serialize_page env (si_addr info) = true ->
  let r := JVM_handle_bsd_signal os env SIGSEGV (Some info) (Some uc) t abort in
  outcome r = SerializePageResume /\ return_value (outcome r) = Some true /\
  context_after r = Some uc /\
  exists th', thread_after r = Some (Java_thread th') /\
    saved_exception_pc th' = saved_exception_pc th.
Proof.
  intros Hcp Hap Hsf Hth Hy Hser r. subst r.
  rewrite handler_at_classifier with (th := th); try done.
  destruct (classify_outside_yellow_zone os env SIGSEGV info uc t th abort Hy)
    as (th' & Hth' & ->).
  unfold classify_rest.
  destruct (select_stub_some os env SIGSEGV info th' (ucontext_get_pc uc) NULL)
    as [s ->]; [done |].
  simpl. rewrite Hser. simpl. repeat split; try done.
  exists th'. split; [done |]. by destruct Hth' as [-> | ->].
Qed.

(** X11 on the sample runtime: the page is hit from compiled Java code whose
    null-check rule would otherwise redirect the thread. *)
Lemma serialize_page_fault_witness :
  outcome (JVM_handle_bsd_signal Darwin (Sample.env false) SIGSEGV
      (Some (Sample.fault Sample.serialize_page))
      (Some (Sample.context Darwin 0x5004 0x5804))
      (Some (Java_thread (Sample.java_thread _thread_in_Java false))) 1) =
    SerializePageResume.
Proof.
  exact (proj1 (serialize_page_fault Darwin (Sample.env false)
           (Sample.fault Sample.serialize_page) (Sample.context Darwin 0x5004 0x5804)
           (Some (Java_thread (Sample.java_thread _thread_in_Java false)))
           (Sample.java_thread _thread_in_Java false) 1
           eq_refl eq_refl eq_refl eq_refl eq_refl eq_refl)).
Defined.

(** X12. With the VM's signal handlers not installed the handler treats
    every thread as a foreign one: it never redirects to a stub, never runs
    the guard-zone or serialization-page code, and leaves the thread as it
    was. *)
Theorem handlers_not_installed (os : os_variant) (env : Env) (sig : signal)
    (info : option siginfo_t) (uc : option (ucontext_t os)) (t : option Thread)
    (abort : Z) :
  signal_handlers_are_installed env = false ->
  let r := JVM_handle_bsd_signal os env sig info uc t abort in
  thread_after r = t /\
  (outcome r = CrashProtectionRestore \/ outcome r = IgnoredSignal \/
   outcome r = AssertPoisonHandled \/ outcome r = SafeFetchResume \/
   outcome r = Chained \/ outcome r = Unrecognized \/ exists pc, outcome r = Fatal pc).
Proof.
  intros Hinst r. subst r.
  assert (Hnone : current_JavaThread env t = None).
  { unfold current_JavaThread. by rewrite Hinst. }
  destruct (handler_cases os env sig info uc t abort)
    as [(o & Ho & ->) | [(_ & ->) | [(c & resume_pc & _ & _ & ->)
        | [(_ & ->) | (i & c & th & _ & _ & Hth & _)]]]].
  - split; [done |]. simpl. destruct Ho as [-> | ->]; tauto.
  - split; [done |]. simpl. tauto.
  - split; [done |]. simpl. tauto.
  - rewrite Hnone, finish_without_stub.
    destruct (chained_handler env os sig info uc); [simpl; tauto |].
    destruct (abort =? 0); simpl; [tauto |].
    split; [done |]. do 6 right. by eexists.
  - congruence.
Qed.

(** X12 on the sample runtime before the handlers are installed: the poll
    fault of a Java thread is reported as fatal instead of redirected, the
    thread as it was. *)
Lemma handlers_not_installed_witness :
  thread_after (JVM_handle_bsd_signal Darwin
      (before_handlers_are_installed (Sample.env false))
      SIGSEGV (Some (Sample.fault Sample.polling_page))
      (Some (Sample.context Darwin 0x5004 0x5804))
      (Some (Java_thread (Sample.java_thread _thread_in_Java false))) 1) =
    Some (Java_thread (Sample.java_thread _thread_in_Java false)).
Proof.
  exact (proj1 (handlers_not_installed Darwin
           (before_handlers_are_installed (Sample.env false)) SIGSEGV
           (Some (Sample.fault Sample.polling_page))
           (Some (Sample.context Darwin 0x5004 0x5804))
           (Some (Java_thread (Sample.java_thread _thread_in_Java false))) 1 eq_refl)).
Defined.

(** * The context accessors and the frame at the stack banging point *)

(** X13. The program counter of a context is a variable of its own:
    [ucontext_get_pc] reads what [ucontext_set_pc] wrote, a second write
    replaces the first, writing back the value read changes nothing, and
    the frame fetched after a write has the new pc with the old stack and
    frame pointers. *)
Theorem ucontext_pc_round_trip (os : os_variant) (uc : ucontext_t os) (pc pc' : address) :
  holds_pc os uc ->
  ucontext_get_pc (ucontext_set_pc uc pc) = pc /\
  ucontext_set_pc (ucontext_set_pc uc pc) pc' = ucontext_set_pc uc pc' /\
  ucontext_set_pc uc (ucontext_get_pc uc) = uc /\
  fetch_frame_from_context (ucontext_set_pc uc pc) =
    mk_frame (ucontext_get_sp uc) (ucontext_get_fp uc) pc.
Proof.
  intros Hroom.
  assert (Hget : ucontext_get_pc (ucontext_set_pc uc pc) = pc).
  { destruct os; try done. by apply array_get_insert_eq. }
  split; [exact Hget |]. split; [| split].
  - destruct os; try done. apply list_insert_insert_eq.
  - destruct os; try by destruct uc. by apply array_insert_get.
  - unfold fetch_frame_from_context.
    by rewrite Hget, ucontext_get_sp_set_pc, ucontext_get_fp_set_pc.
Qed.

(** X13 on the sample NetBSD context. *)
Lemma ucontext_pc_round_trip_witness :
  ucontext_get_pc (ucontext_set_pc (Sample.context NetBSD 0x5004 0x5804) 0x9000) = 0x9000.
Proof.
  refine (proj1 (ucontext_pc_round_trip NetBSD (Sample.context NetBSD 0x5004 0x5804)
                   0x9000 0 _)).
  simpl. unfold _REG_ELR. lia.
Defined.

(** X14. [get_frame_at_stack_banging_point] answers false exactly when the
    pc is outside the interpreter and the code cache has no blob for it, or
    the blob is not an nmethod, or the nmethod's frame is already complete
    at the pc; in the interpreter it always finds a frame. *)
Theorem banging_point_fails_iff (os : os_variant) (q : FrameQueries)
    (uc : ucontext_t os) :
  get_frame_at_stack_banging_point q uc = None <->
  Interpreter_contains q (ucontext_get_pc uc) = false /\
  match find_blob q (ucontext_get_pc uc) with
  | None => True
  | Some cb => is_nmethod cb = false \/ is_frame_complete_at cb (ucontext_get_pc uc) = true
  end.
Proof.
  unfold get_frame_at_stack_banging_point.
  destruct (Interpreter_contains q (ucontext_get_pc uc)).
  - split; [by case_if | by intros [? _]].
  - destruct (find_blob q (ucontext_get_pc uc)) as [cb |]; [| done].
    destruct (is_nmethod cb), (is_frame_complete_at cb (ucontext_get_pc uc)); simpl;
      split; try (intros _; split; [done | tauto]); try done.
    + by case_if.
    + intros [_ [? | ?]]; done.
Qed.

(** * The conjoint atomic copies *)

Lemma copy_up_moves (fuel : nat) (from to end_ : Z) (m : Copy.memory) :
  to < from ->
  (Z.to_nat (end_ - from) < fuel)%nat ->
  exists m', Copy.copy_up fuel from to end_ m = Some m' /\
    forall i, Copy.load m' i =
      if bool_decide (to <= i < to + (end_ - from))
      then Copy.load m (from + (i - to)) else Copy.load m i.
Proof.
  revert from to m. induction fuel as [| fuel IH]; intros from to m Hlt Hfuel; [lia |].
  simpl. destruct (from <? end_) eqn:Hcond.
  - apply Z.ltb_lt in Hcond.
    destruct (IH (from + 1) (to + 1) (Copy.store m to (Copy.load m from)))
      as (m' & -> & Hm'); [lia | lia |].
    exists m'. split; [done |]. intros i. rewrite Hm'.
    unfold Copy.load, Copy.store.
    repeat case_bool_decide; repeat case_match;
      rewrite ?Z.eqb_eq, ?Z.eqb_neq in *; try lia; f_equal; lia.
  - apply Z.ltb_ge in Hcond. exists m. split; [done |].
    intros i. by rewrite bool_decide_eq_false_2 by lia.
Qed.

Lemma copy_down_moves (fuel : nat) (from to end_ : Z) (m : Copy.memory) :
  from < to ->
  (Z.to_nat (from - end_ + 1) < fuel)%nat ->
  exists m', Copy.copy_down fuel from to end_ m = Some m' /\
    forall i, Copy.load m' i =
      if bool_decide (to - (from - end_) <= i <= to)
      then Copy.load m (from + (i - to)) else Copy.load m i.
Proof.
  revert from to m. induction fuel as [| fuel IH]; intros from to m Hlt Hfuel; [lia |].
  simpl. destruct (from >=? end_) eqn:Hcond.
  - apply Z.geb_le in Hcond.
    destruct (IH (from - 1) (to - 1) (Copy.store m to (Copy.load m from)))
      as (m' & -> & Hm'); [lia | lia |].
    exists m'. split; [done |]. intros i. rewrite Hm'.
    unfold Copy.load, Copy.store.
    repeat case_bool_decide; repeat case_match;
      rewrite ?Z.eqb_eq, ?Z.eqb_neq in *; try lia; f_equal; lia.
  - assert (from < end_) by (rewrite Z.geb_leb in Hcond; by apply Z.leb_gt in Hcond).
    exists m. split; [done |].
    intros i. by rewrite bool_decide_eq_false_2 by lia.
Qed.

(** X15. The conjoint atomic copies move [count] elements as [memmove]
    does, also when the two ranges overlap: the loop always ends, every
    element of the destination has the value its source element had before
    the call, and every element outside the destination is as it was. *)
Theorem conjoint_atomic_copies (from to count : Z) (m : Copy.memory) :
  0 <= count ->
  exists m', Copy.conjoint_atomic from to count m = Some m' /\
    forall i, Copy.load m' i =
      if bool_decide (to <= i < to + count)
      then Copy.load m (from + (i - to)) else Copy.load m i.
Proof.
  intros Hcount. unfold Copy.conjoint_atomic.
  destruct (from >? to) eqn:Hgt.
  - rewrite Z.gtb_ltb in Hgt. apply Z.ltb_lt in Hgt.
    destruct (copy_up_moves (S (Z.to_nat count)) from to (from + count) m)
      as (m' & Hm' & Hload); [lia | lia |].
    exists m'. split; [done |]. intros i. rewrite Hload.
    by replace (from + count - from) with count by lia.
  - rewrite Z.gtb_ltb in Hgt. apply Z.ltb_ge in Hgt.
    destruct (from <? to) eqn:Hlt.
    + apply Z.ltb_lt in Hlt.
      destruct (copy_down_moves (S (Z.to_nat count)) (from + (count - 1))
                  (to + (count - 1)) from m) as (m' & Hm' & Hload); [lia | lia |].
      exists m'. split; [done |]. intros i. rewrite Hload.
      repeat case_bool_decide; try lia; f_equal; lia.
    + apply Z.ltb_ge in Hlt. assert (from = to) as -> by lia.
      exists m. split; [done |]. intros i.
      case_bool_decide; f_equal; lia.
Qed.

(** X15 on two overlapping ranges: four shorts moved up by two. *)
Lemma conjoint_atomic_copies_witness :
  exists m', Copy._Copy_conjoint_jshorts_atomic 10 12 4 (fun p => p * p) = Some m' /\
    forall i, Copy.load m' i =
      if bool_decide (12 <= i < 12 + 4)
      then Copy.load (fun p => p * p) (10 + (i - 12)) else Copy.load (fun p => p * p) i.
Proof.
  apply (conjoint_atomic_copies 10 12 4 (fun p => p * p)). lia.
Defined.

(** * The CPU load counters of the management library *)

Import UnixOperatingSystem.

Lemma perfInit_returns_0 (freebsd : bool) (sys : Sys) (s : State) :
  (perfInit freebsd sys s).2 = 0 /\ initialized (perfInit freebsd sys s).1 = true.
Proof. unfold perfInit. by destruct (initialized s) eqn:Hinit; simpl; rewrite ?Hinit. Qed.

Lemma perfInit_initialized (freebsd : bool) (sys : Sys) (s : State) :
  initialized s = true -> perfInit freebsd sys s = (s, 0).
Proof. intros Hinit. unfold perfInit. rewrite Hinit. simpl. by rewrite Hinit. Qed.

Lemma perfInit_valid (freebsd : bool) (sys : Sys) (s : State) :
  valid freebsd s -> valid freebsd (perfInit freebsd sys s).1.
Proof.
  intros Hvalid. destruct (initialized s) eqn:Hinit.
  - by rewrite perfInit_initialized.
  - unfold perfInit. rewrite Hinit. simpl. intros _.
    assert (Hcpu : 1 <= match hw_ncpu sys with
                        | Some cpu_val => if cpu_val <? 1 then 1 else cpu_val
                        | None => 1
                        end).
    { destruct (hw_ncpu sys) as [v |]; [| lia]. destruct (v <? 1) eqn:Hv; [lia |].
      apply Z.ltb_ge in Hv. lia. }
    destruct freebsd; simpl; (split; [exact Hcpu |]); [| done].
    intros _ l. destruct (calloc_succeeds sys); [| done].
    intros [= <-]. rewrite length_replicate. lia.
Qed.

(** X16. The processor count is sampled once.  [getHostConfiguredCpuCount0]
    never answers -1; its first call answers the [hw.ncpu] of that moment,
    1 when the [sysctl] fails or gives less than 1, and every later call
    answers the same number and changes nothing, whatever the system says
    then. *)
Theorem cpu_count_sampled_once (freebsd : bool) (sys sys' : Sys) (s : State) :
  valid freebsd s ->
  let r := getHostConfiguredCpuCount0 freebsd sys s in
  1 <= r.2 /\
  (initialized s = false ->
   r.2 = match hw_ncpu sys with Some n => Z.max 1 n | None => 1 end) /\
  getHostConfiguredCpuCount0 freebsd sys' r.1 = r /\
  valid freebsd r.1.
Proof.
  intros Hvalid r. subst r. unfold getHostConfiguredCpuCount0.
  pose proof (perfInit_returns_0 freebsd sys s) as [Hret Hinit].
  pose proof (perfInit_valid freebsd sys s Hvalid) as Hvalid'.
  destruct (perfInit freebsd sys s) as [s1 r1] eqn:Hinit1. simpl in *. subst r1. simpl.
  destruct (Hvalid' Hinit) as [Hn _].
  split; [exact Hn |]. split; [| split; [| done]].
  - intros Hs. unfold perfInit in Hinit1. rewrite Hs in Hinit1. simpl in Hinit1.
    injection Hinit1 as <-. destruct (hw_ncpu sys) as [n |]; [| by destruct freebsd].
    destruct (n <? 1) eqn:Hlt; [apply Z.ltb_lt in Hlt | apply Z.ltb_ge in Hlt];
      destruct freebsd; simpl; lia.
  - rewrite Hinit. simpl. by rewrite Hinit.
Qed.

(** X16 from the initial state, with a [sysctl] that fails the first time
    and reports eight processors the second time. *)
Lemma cpu_count_sampled_once_witness :
  (getHostConfiguredCpuCount0 true CounterSample.failing initial_State).2 = 1 /\
  getHostConfiguredCpuCount0 true (CounterSample.sys 1)
    (getHostConfiguredCpuCount0 true CounterSample.failing initial_State).1 =
  getHostConfiguredCpuCount0 true CounterSample.failing initial_State.
Proof.
  assert (Hvalid : valid true initial_State) by (intros Hinit; discriminate Hinit).
  split.
  - exact (proj1 (proj2 (cpu_count_sampled_once true CounterSample.failing
             (CounterSample.sys 1) initial_State Hvalid)) eq_refl).
  - exact (proj1 (proj2 (proj2 (cpu_count_sampled_once true CounterSample.failing
             (CounterSample.sys 1) initial_State Hvalid)))).
Defined.

(** X17. A CPU number outside [0, nProcs) is an error of
    [getSingleCpuLoad0]: it answers -1 before any system call for the
    counters is made, and the stored samples stay as they were. *)
Theorem single_cpu_load_out_of_range (freebsd : bool) (sys : Sys) (s : State)
    (cpu_number : Z) :
  initialized s = true ->
  cpu_number < 0 \/ nProcs (counters s) <= cpu_number ->
  getSingleCpuLoad0 freebsd sys s cpu_number = Some (s, Minus_one).
Proof.
  intros Hinit Hrange. unfold getSingleCpuLoad0. destruct freebsd; [| done].
  rewrite perfInit_initialized by done.
  replace ((0 =? 0) && (0 <=? cpu_number) && (cpu_number <? nProcs (counters s)))
    with false; [done |].
  symmetry. apply andb_false_iff.
  destruct Hrange; [left; apply andb_false_iff; right; by apply Z.leb_gt
                   | right; by apply Z.ltb_ge].
Qed.

(** X17 on the sample system: CPU 8 of eight. *)
Lemma single_cpu_load_out_of_range_witness :
  getSingleCpuLoad0 true (CounterSample.sys 2)
    (getHostConfiguredCpuCount0 true (CounterSample.sys 1) initial_State).1 8 =
  Some ((getHostConfiguredCpuCount0 true (CounterSample.sys 1) initial_State).1, Minus_one).
Proof.
  apply (single_cpu_load_out_of_range true (CounterSample.sys 2)
           (getHostConfiguredCpuCount0 true (CounterSample.sys 1) initial_State).1 8).
  - reflexivity.
  - right. simpl. lia.
Defined.

(** X18. [getSingleCpuLoad0] touches the sample of the CPU asked for and
    nothing else: the processor count, the system-wide and the process
    samples and the samples of all other CPUs are as before, and the state
    stays well formed. *)
Theorem single_cpu_load_touches_one_cpu (freebsd : bool) (sys : Sys) (s s' : State)
    (cpu_number : Z) (r : load) :
  initialized s = true ->
  valid freebsd s ->
  getSingleCpuLoad0 freebsd sys s cpu_number = Some (s', r) ->
  initialized s' = true /\ valid freebsd s' /\
  nProcs (counters s') = nProcs (counters s) /\
  jvmTicks (counters s') = jvmTicks (counters s) /\
  cpuTicks (counters s') = cpuTicks (counters s) /\
  (s' = s \/
   exists l l', cpus (counters s) = Some l /\ cpus (counters s') = Some l' /\
     length l' = length l /\
     forall j : nat, j <> Z.to_nat cpu_number -> l' !! j = l !! j).
Proof.
  intros Hinit Hvalid. unfold getSingleCpuLoad0.
  assert (Hsame : Some (s, Minus_one) = Some (s', r) ->
    initialized s' = true /\ valid freebsd s' /\
    nProcs (counters s') = nProcs (counters s) /\
    jvmTicks (counters s') = jvmTicks (counters s) /\
    cpuTicks (counters s') = cpuTicks (counters s) /\
    (s' = s \/
     exists l l', cpus (counters s) = Some l /\ cpus (counters s') = Some l' /\
       length l' = length l /\
       forall j : nat, j <> Z.to_nat cpu_number -> l' !! j = l !! j)).
  { intros [= <- <-]. do 5 (split; [done |]). by left. }
  destruct freebsd; [| done].
  rewrite perfInit_initialized by done.
  destruct ((0 =? 0) && (0 <=? cpu_number) && (cpu_number <? nProcs (counters s)));
    [| done].
  destruct (kern_cp_times sys) as [cp_times |]; [| done].
  destruct (cpus (counters s)) as [l |] eqn:Hl; [| done].
  assert (Hset : forall t,
    initialized (set_cpus s (<[Z.to_nat cpu_number := t]> l)) = true /\
    valid true (set_cpus s (<[Z.to_nat cpu_number := t]> l)) /\
    nProcs (counters (set_cpus s (<[Z.to_nat cpu_number := t]> l))) = nProcs (counters s) /\
    jvmTicks (counters (set_cpus s (<[Z.to_nat cpu_number := t]> l))) =
      jvmTicks (counters s) /\
    cpuTicks (counters (set_cpus s (<[Z.to_nat cpu_number := t]> l))) =
      cpuTicks (counters s) /\
    (set_cpus s (<[Z.to_nat cpu_number := t]> l) = s \/
     exists l0 l', Some l = Some l0 /\
       cpus (counters (set_cpus s (<[Z.to_nat cpu_number := t]> l))) = Some l' /\
       length l' = length l0 /\
       forall j : nat, j <> Z.to_nat cpu_number -> l' !! j = l0 !! j)).
  { intros t. destruct (Hvalid Hinit) as [Hn Hlen]. simpl.
    split; [done |]. split.
    { intros _. simpl. split; [done |]. intros _ l' [= <-].
      rewrite length_insert. by apply Hlen. }
    split; [done |]. split; [done |]. split; [done |].
    right. exists l, (<[Z.to_nat cpu_number := t]> l).
    split; [done |]. split; [done |]. split; [apply length_insert |].
    intros j Hj. by apply list_lookup_insert_ne. }
  case_match; intros [= <- <-]; apply Hset.
Qed.

(** X18 on the sample system: the first sample of CPU 3. *)
Lemma single_cpu_load_touches_one_cpu_witness :
  cpuTicks (counters
    (set_cpus (getHostConfiguredCpuCount0 true (CounterSample.sys 1) initial_State).1
       (<[3%nat := cp_sample (CounterSample.cp 2) 15]>
          (replicate 8 (mk_ticks 0 0))))) =
  cpuTicks (counters (getHostConfiguredCpuCount0 true (CounterSample.sys 1) initial_State).1).
Proof.
  refine (proj1 (proj2 (proj2 (proj2 (proj2
    (single_cpu_load_touches_one_cpu true (CounterSample.sys 2)
       (getHostConfiguredCpuCount0 true (CounterSample.sys 1) initial_State).1
       _ 3 Zero eq_refl _ eq_refl)))))).
  intros _. split; [simpl; lia |]. by intros _ l [= <-].
Defined.

(** X19. [getSingleCpuLoad0] reads through a NULL [counters.cpus] exactly
    when [calloc] failed in [perfInit], the CPU number is in range and the
    kernel delivered the counters; in every other case it returns. *)
Theorem single_cpu_load_null_cpus (freebsd : bool) (sys : Sys) (s : State)
    (cpu_number : Z) :
  getSingleCpuLoad0 freebsd sys s cpu_number = None <->
  freebsd = true /\
  0 <= cpu_number < nProcs (counters (perfInit freebsd sys s).1) /\
  is_Some (kern_cp_times sys) /\
  cpus (counters (perfInit freebsd sys s).1) = None.
Proof.
  unfold getSingleCpuLoad0. destruct freebsd; [| split; [done | by intros [? _]]].
  pose proof (perfInit_returns_0 true sys s) as [Hret _].
  destruct (perfInit true sys s) as [s1 r1]. simpl in Hret. subst r1.
  cbn [fst snd]. change (0 =? 0) with true. rewrite andb_true_l.
  destruct (0 <=? cpu_number) eqn:Hlo;
    [apply Z.leb_le in Hlo | apply Z.leb_gt in Hlo];
    (destruct (cpu_number <? nProcs (counters s1)) eqn:Hhi;
      [apply Z.ltb_lt in Hhi | apply Z.ltb_ge in Hhi]); simpl;
    try (split; [done | intros (_ & ? & _); lia]).
  destruct (kern_cp_times sys) as [cp_times |];
    [| split; [done | by intros (_ & _ & [? ?] & _)]].
  destruct (cpus (counters s1)) as [l |].
  - split; [by repeat case_match | by intros (_ & _ & _ & ?)].
  - split; [| done]. intros _. by repeat split.
Qed.

Lemma jlong_0 : jlong 0 = 0.
Proof. reflexivity. Qed.

(** X20. The system load is the ratio of the ticks between two samples.
    On FreeBSD the first [getSystemCpuLoad0] call after start-up stores its
    sample and answers 0, and a call whose [sysctl] fails answers -1 and
    keeps the stored sample.  What the next call answers depends on the
    stored sample, which the code takes for missing when its [used] or its
    [total] is 0: with both not 0 the call answers used-delta over
    total-delta against it; with one of them 0 the call answers 0 again.
    Either way it stores its own sample.  The divisor is not checked: when
    the total has not moved, the quotient has divisor 0. *)
Theorem system_load_two_samples (sys1 sys2 sys3 : Sys) (s : State) (cp1 cp2 : Z -> Z) :
  initialized s = false ->
  kern_cp_time sys1 = Some cp1 ->
  kern_cp_time sys2 = Some cp2 ->
  kern_cp_time sys3 = None ->
  let r1 := getSystemCpuLoad0 true sys1 s in
  let r2 := getSystemCpuLoad0 true sys2 r1.1 in
  r1.2 = Zero /\
  cpuTicks (counters r1.1) = cp_sample cp1 0 /\
  getSystemCpuLoad0 true sys3 r1.1 = (r1.1, Minus_one) /\
  cpuTicks (counters r2.1) = cp_sample cp2 0 /\
  (used (cp_sample cp1 0) <> 0 -> total (cp_sample cp1 0) <> 0 ->
   r2.2 = Quotient (jlong (used (cp_sample cp2 0) - used (cp_sample cp1 0)))
                   (jlong (total (cp_sample cp2 0) - total (cp_sample cp1 0))) /\
   (total (cp_sample cp2 0) = total (cp_sample cp1 0) -> exists n, r2.2 = Quotient n 0)) /\
  (used (cp_sample cp1 0) = 0 \/ total (cp_sample cp1 0) = 0 -> r2.2 = Zero).
Proof.
  intros Hinit H1 H2 H3 r1 r2.
  assert (Hr1 : r1 = (set_cpuTicks (perfInit true sys1 s).1 (cp_sample cp1 0), Zero)).
  { subst r1. unfold getSystemCpuLoad0, perfInit. by rewrite Hinit, H1. }
  assert (Hstate : initialized r1.1 = true /\ cpuTicks (counters r1.1) = cp_sample cp1 0).
  { rewrite Hr1. split; [| done].
    exact (proj2 (perfInit_returns_0 true sys1 s)). }
  destruct Hstate as [Hinit1 Hticks].
  assert (Hr2 : r2 =
    (set_cpuTicks r1.1 (cp_sample cp2 0),
     if (used (cp_sample cp1 0) =? 0) || (total (cp_sample cp1 0) =? 0) then Zero
     else Quotient (jlong (used (cp_sample cp2 0) - used (cp_sample cp1 0)))
            (jlong (total (cp_sample cp2 0) - total (cp_sample cp1 0))))).
  { subst r2. unfold getSystemCpuLoad0. rewrite perfInit_initialized by done.
    change (0 =? 0) with true. cbv iota. rewrite H2, Hticks.
    by destruct ((used (cp_sample cp1 0) =? 0) || (total (cp_sample cp1 0) =? 0)). }
  split; [by rewrite Hr1 |]. split; [exact Hticks |]. split; [| split; [by rewrite Hr2 |]].
  - unfold getSystemCpuLoad0. rewrite perfInit_initialized by done.
    change (0 =? 0) with true. cbv iota. by rewrite H3.
  - split.
    + intros Hused Htotal. apply Z.eqb_neq in Hused, Htotal.
      rewrite Hr2. cbn [snd]. rewrite Hused, Htotal.
      split; [reflexivity |]. intros Heq. rewrite Heq, Z.sub_diag, jlong_0. by eexists.
    + intros Hzero. rewrite Hr2. cbn [snd].
      destruct Hzero as [-> | ->]; [reflexivity |]. by rewrite orb_true_r.
Qed.

(** X20 on the sample system: between the first and the third tick 17 of
    100 ticks were used; after a first sample of all zeros the second call
    answers 0 again. *)
Lemma system_load_two_samples_witness :
  (getSystemCpuLoad0 true (CounterSample.sys 3)
     (getSystemCpuLoad0 true (CounterSample.sys 1) initial_State).1).2 =
  Quotient (jlong (used (cp_sample (CounterSample.cp 3) 0)
                   - used (cp_sample (CounterSample.cp 1) 0)))
           (jlong (total (cp_sample (CounterSample.cp 3) 0)
                   - total (cp_sample (CounterSample.cp 1) 0))) /\
  (getSystemCpuLoad0 true (CounterSample.sys 3)
     (getSystemCpuLoad0 true (CounterSample.sys 0) initial_State).1).2 = Zero.
Proof.
  split.
  - refine (proj1 (proj1 (proj2 (proj2 (proj2 (proj2
      (system_load_two_samples (CounterSample.sys 1) (CounterSample.sys 3)
         CounterSample.failing initial_State (CounterSample.cp 1) (CounterSample.cp 3)
         eq_refl eq_refl eq_refl eq_refl))))) _ _)); vm_compute; discriminate.
  - refine (proj2 (proj2 (proj2 (proj2 (proj2
      (system_load_two_samples (CounterSample.sys 0) (CounterSample.sys 3)
         CounterSample.failing initial_State (CounterSample.cp 0) (CounterSample.cp 3)
         eq_refl eq_refl eq_refl eq_refl))))) _).
    left. reflexivity.
Defined.

(** X21. The process load never has a zero divisor: when the clock has not
    moved since the stored sample [getProcessCpuLoad0] answers -1, and an
    answer of -1 leaves the stored samples as they were. *)
Theorem process_load_divisor (freebsd : bool) (sys : Sys) (s : State) :
  let r := getProcessCpuLoad0 freebsd sys s in
  (forall n d, r.2 = Quotient n d -> d <> 0) /\
  (initialized s = true -> r.2 = Minus_one -> r.1 = s).
Proof.
  intros r. subst r. unfold getProcessCpuLoad0.
  destruct freebsd; [| by split].
  pose proof (perfInit_returns_0 true sys s) as [Hret _].
  destruct (initialized s) eqn:Hinit.
  - rewrite perfInit_initialized by done. change (0 =? 0) with true. cbv iota.
    destruct (kern_proc_rusage sys) as [[ru_utime ru_stime] |]; [| by split].
    destruct (gettimeofday sys) as [now |]; [| by split].
    case_match; [by split |].
    case_match eqn:Hdelta; [by split |].
    apply Z.eqb_neq in Hdelta. split; [| done]. by intros n d [= <- <-].
  - destruct (perfInit true sys s) as [s1 r1]. simpl in Hret. subst r1.
    change (0 =? 0) with true. cbv iota.
    destruct (kern_proc_rusage sys) as [[ru_utime ru_stime] |]; [| by split].
    destruct (gettimeofday sys) as [now |]; [| by split].
    case_match; [by split |].
    case_match eqn:Hdelta; [by split |].
    apply Z.eqb_neq in Hdelta. split; [| done]. by intros n d [= <- <-].
Qed.

(** X21 on the sample system: two calls within the same second. *)
Lemma process_load_divisor_witness :
  (getProcessCpuLoad0 true (CounterSample.sys 1)
     (getProcessCpuLoad0 true (CounterSample.sys 1) initial_State).1).1 =
  (getProcessCpuLoad0 true (CounterSample.sys 1) initial_State).1.
Proof.
  exact (proj2 (process_load_divisor true (CounterSample.sys 1)
           (getProcessCpuLoad0 true (CounterSample.sys 1) initial_State).1)
           eq_refl eq_refl).
Defined.
